(** * Announcement endpoints of the High School Management System API

    A shallow embedding of [src/backend/routers/announcements.py] and the
    properties its specification states about it.

    Conventions of the model.
    - A Python [str] is a [string]; each [ascii] stands for one code point
      below 256, where [str.isspace] holds for the twelve code points
      listed in [py_isspace].  The two date texts of a request body are
      the strings the code reads character by character with the classes of
      Unicode ([\d] of [strptime], the digits of [int]): they are lists of
      code points, [Unicode.text].
    - A [datetime.date] is a record of year, month and day; Python only ever
      builds valid ones, which is the predicate [valid_date].
    - The two collections come from [..database], which is not part of the
      sources at hand; they are pymongo collections and belong to the state
      of the world.  A collection is the list of its documents in natural
      order; a field holds [None], a [str], an [ObjectId] or a [datetime]
      (numbers, booleans, arrays and embedded documents do not occur).
    - Every store call may raise; a schedule of faults in the world decides
      which ones do.  [insert_one] also raises on its own for a duplicate
      [_id].
    - [date.today()], [datetime.utcnow()] and the [ObjectId] the driver
      makes up for a new document are inputs of the endpoints.
    - Of the routing of FastAPI one step is kept: the body of POST and
      PUT goes through the model class before the endpoint is called, and
      a body the class refuses is answered 422 without calling it.
    - [logger.exception] only writes to the log and is left out. *)

From Stdlib Require Import ZArith String Ascii List Bool Lia.
From Stdlib Require Import Permutation Sorted OrderedTypeEx.
From stdpp Require Import gmap strings.
Import ListNotations.

Open Scope string_scope.
Open Scope Z_scope.

(** ** Characters and decimal numerals *)

Module Chars.

Definition code (c : ascii) : Z := Z.of_N (N_of_ascii c).

(** The ten ASCII digits. *)
Definition is_digit (c : ascii) : bool := (48 <=? code c) && (code c <=? 57).

Definition digit_char (n : Z) : ascii := ascii_of_N (Z.to_N (48 + n)).

(** [str.isspace] on code points below 256. *)
Definition py_isspace (c : ascii) : bool :=
  let n := code c in
  ((9 <=? n) && (n <=? 13)) || ((28 <=? n) && (n <=? 32))
  || (n =? 133) || (n =? 160).

Fixpoint lstrip (s : string) : string :=
  match s with
  | String c s' => if py_isspace c then lstrip s' else s
  | EmptyString => EmptyString
  end.

(** Drops the trailing white space: a character is kept when something
    that is kept follows it, or when it is not white space itself. *)
Fixpoint rstrip (s : string) : string :=
  match s with
  | String c s' =>
      match rstrip s' with
      | EmptyString => if py_isspace c then EmptyString else String c EmptyString
      | r => String c r
      end
  | EmptyString => EmptyString
  end.

(** [str.strip()] without argument. *)
Definition strip (s : string) : string := rstrip (lstrip s).

(** ["%02d" % n] and ["%04d" % n], for [n] within the width. *)
Definition pad2 (n : Z) (rest : string) : string :=
  String (digit_char (n / 10 mod 10)) (String (digit_char (n mod 10)) rest).

Definition pad4 (n : Z) (rest : string) : string :=
  String (digit_char (n / 1000 mod 10)) (String (digit_char (n / 100 mod 10)) (pad2 n rest)).

End Chars.
Import Chars.

(** ** Code points and the decimal digits of Unicode *)

Module Unicode.

(** A Python [str] as the list of its code points. *)
Definition text := list Z.

(** The text of a string of characters below 256. *)
Definition codes (s : string) : text := map code (list_ascii_of_string s).

(** The digit zero of each decimal number system of Unicode 14.0, the
    version CPython 3.11 carries; the digits one to nine follow their
    zero.  (Later versions of Unicode add systems to the list.) *)
Definition decimal_zeros : list Z :=
  [48; 1632; 1776; 1984; 2406; 2534; 2662; 2790; 2918; 3046; 3174; 3302; 3430;
   3558; 3664; 3792; 3872; 4160; 4240; 6112; 6160; 6470; 6608; 6784; 6800; 6992;
   7088; 7232; 7248; 42528; 43216; 43264; 43472; 43504; 43600; 44016; 65296;
   66720; 68912; 69734; 69872; 69942; 70096; 70384; 70736; 70864; 71248; 71360;
   71472; 71904; 72016; 72784; 73040; 73120; 92768; 92864; 93008; 120782;
   120792; 120802; 120812; 120822; 123200; 123632; 125264; 130032].

(** [unicodedata.decimal]: the value of a decimal digit, of whatever
    script.  These are the characters [\d] matches in a [str] pattern and
    the digits [int] reads. *)
Definition decimal (c : Z) : option Z :=
  match List.find (fun z => (z <=? c) && (c <=? z + 9)) decimal_zeros with
  | Some z => Some (c - z)
  | None => None
  end.

Definition isdecimal (c : Z) : bool :=
  match decimal c with Some _ => true | None => false end.

(** The white space [int] skips around a number. *)
Definition int_space (c : Z) : bool :=
  ((9 <=? c) && (c <=? 13)) || (c =? 32) || (c =? 133) || (c =? 160)
  || (c =? 5760) || ((8192 <=? c) && (c <=? 8202)) || (c =? 8232)
  || (c =? 8233) || (c =? 8239) || (c =? 8287) || (c =? 12288).

Fixpoint lstrip (s : text) : text :=
  match s with
  | c :: s' => if int_space c then lstrip s' else s
  | [] => []
  end.

Fixpoint rstrip (s : text) : text :=
  match s with
  | c :: s' =>
      match rstrip s' with
      | [] => if int_space c then [] else [c]
      | r => c :: r
      end
  | [] => []
  end.

Fixpoint digits_value (acc : Z) (s : text) : option Z :=
  match s with
  | [] => Some acc
  | c :: s' =>
      match decimal c with
      | Some v => digits_value (10 * acc + v) s'
      | None => None
      end
  end.

(** [int(s)] for the texts a date directive can capture, which hold
    decimal digits and, in one case, a leading space: surrounding white
    space is ignored, then a non-empty run of decimal digits is read.  (A
    sign and underscores between digits, which [int] also takes, cannot
    occur in such a text.) *)
Definition py_int (s : text) : option Z :=
  match rstrip (lstrip s) with
  | [] => None
  | t => digits_value 0 t
  end.

End Unicode.

(** ** [datetime.date] *)

Record date := mkdate { year : Z; month : Z; day : Z }.

Definition is_leap (y : Z) : bool :=
  (y mod 4 =? 0) && (negb (y mod 100 =? 0) || (y mod 400 =? 0)).

Definition days_in_month (y m : Z) : Z :=
  if m =? 2 then (if is_leap y then 29 else 28)
  else if (m =? 4) || (m =? 6) || (m =? 9) || (m =? 11) then 30
  else 31.

(** The check [date(year, month, day)] makes before it builds the object
    ([MINYEAR = 1], [MAXYEAR = 9999]). *)
Definition valid_dateb (d : date) : bool :=
  (1 <=? year d) && (year d <=? 9999) && (1 <=? month d) && (month d <=? 12)
  && (1 <=? day d) && (day d <=? days_in_month (year d) (month d)).

Definition valid_date (d : date) : Prop := valid_dateb d = true.

(** [date.isoformat()]: ["%04d-%02d-%02d" % (year, month, day)]. *)
Definition isoformat (d : date) : string :=
  pad4 (year d) (String "-" (pad2 (month d) (String "-" (pad2 (day d) EmptyString)))).

(** Comparison of dates is the comparison of (year, month, day). *)
Definition date_compare (a b : date) : comparison :=
  match year a ?= year b with
  | Eq => match month a ?= month b with
          | Eq => day a ?= day b
          | c => c
          end
  | c => c
  end.

Definition date_gt (a b : date) : bool :=
  match date_compare a b with Gt => true | _ => false end.

Definition date_le (a b : date) : Prop := date_compare a b <> Gt.

(** ** [datetime.strptime] for the directives of [DATE_FORMAT]

    [_strptime] turns the format into a regular expression, one named group
    per directive, matches it at the start of the text ([re.match]), refuses
    text left over, and builds the date from the groups with [int].  The
    pattern and the text are [str], so the classes are those of Unicode. *)

Module Strptime.

Definition charclass := Z -> bool.

Definition one_of (lo hi : Z) : charclass := fun c => (lo <=? c) && (c <=? hi).

Definition lit (a : ascii) : charclass := fun c => c =? code a.

(** [\d] in a [str] pattern: any decimal digit of Unicode. *)
Definition digit : charclass := Unicode.isdecimal.

(** A group: its name when it is a directive, and its alternatives in the
    order the regular expression lists them. *)
Record group := mkgroup { gname : option ascii; alts : list (list charclass) }.

(** [%Y] is [\d\d\d\d]. *)
Definition re_Y : group := mkgroup (Some "Y"%char) [[digit; digit; digit; digit]].

(** [%m] is [1[0-2]|0[1-9]|[1-9]]. *)
Definition re_m : group :=
  mkgroup (Some "m"%char)
    [[lit "1"; one_of 48 50]; [lit "0"; one_of 49 57]; [one_of 49 57]].

(** [%d] is [3[0-1]|[1-2]\d|0[1-9]|[1-9]| [1-9]]. *)
Definition re_d : group :=
  mkgroup (Some "d"%char)
    [[lit "3"; one_of 48 49]; [one_of 49 50; digit]; [lit "0"; one_of 49 57];
     [one_of 49 57]; [lit " "; one_of 49 57]].

(** [TimeRE.pattern]: a directive becomes its group, any other character
    stands for itself. *)
Fixpoint pattern (format : string) : option (list group) :=
  match format with
  | EmptyString => Some []
  | String "%" (String x rest) =>
      match (if Ascii.eqb x "Y" then Some re_Y
             else if Ascii.eqb x "m" then Some re_m
             else if Ascii.eqb x "d" then Some re_d
             else None), pattern rest with
      | Some g, Some gs => Some (g :: gs)
      | _, _ => None
      end
  | String "%" EmptyString => None
  | String c rest =>
      match pattern rest with
      | Some gs => Some (mkgroup None [[lit c]] :: gs)
      | None => None
      end
  end.

Fixpoint match_chars (cs : list charclass) (s : Unicode.text)
    : option (Unicode.text * Unicode.text) :=
  match cs, s with
  | [], _ => Some ([], s)
  | c :: cs', a :: s' =>
      if c a then
        match match_chars cs' s' with
        | Some (m, r) => Some (a :: m, r)
        | None => None
        end
      else None
  | _ :: _, [] => None
  end.

Definition captures := list (ascii * Unicode.text).

Definition capture (g : group) (text : Unicode.text) (caps : captures) : captures :=
  match gname g with
  | Some n => (n, text) :: caps
  | None => caps
  end.

(** The alternatives of a group are tried from the left; when the rest of
    the pattern fails after one of them, the next one is tried. *)
Fixpoint match_alts (g : group) (al : list (list charclass))
    (k : Unicode.text -> option (captures * Unicode.text)) (s : Unicode.text)
    : option (captures * Unicode.text) :=
  match al with
  | [] => None
  | alt :: al' =>
      match match_chars alt s with
      | Some (m, r) =>
          match k r with
          | Some (caps, r') => Some (capture g m caps, r')
          | None => match_alts g al' k s
          end
      | None => match_alts g al' k s
      end
  end.

Fixpoint re_match (gs : list group) (s : Unicode.text)
    : option (captures * Unicode.text) :=
  match gs with
  | [] => Some ([], s)
  | g :: gs' => match_alts g (alts g) (re_match gs') s
  end.

Fixpoint found (n : ascii) (caps : captures) : option Unicode.text :=
  match caps with
  | [] => None
  | (k, v) :: caps' => if Ascii.eqb k n then Some v else found n caps'
  end.

Definition group_int (n : ascii) (caps : captures) : option Z :=
  match found n caps with
  | Some text => Unicode.py_int text
  | None => None
  end.

(** [datetime.strptime(value, format).date()]; [None] is [ValueError]. *)
Definition strptime (value : Unicode.text) (format : string) : option date :=
  match pattern format with
  | None => None
  | Some gs =>
      match re_match gs value with
      | Some (caps, []) =>
          match group_int "Y" caps, group_int "m" caps, group_int "d" caps with
          | Some y, Some m, Some d =>
              let r := mkdate y m d in
              if valid_dateb r then Some r else None
          | _, _, _ => None
          end
      | Some (_, _ :: _) => None
      | None => None
      end
  end.

End Strptime.

Definition DATE_FORMAT : string := "%Y-%m-%d".

(** ** [datetime.datetime] (naive, as [datetime.utcnow()] returns it) *)

Record datetime := mkdatetime {
  dt_date : date; hour : Z; minute : Z; second : Z; microsecond : Z }.

Definition datetime_compare (a b : datetime) : comparison :=
  match date_compare (dt_date a) (dt_date b) with
  | Eq => match hour a ?= hour b with
          | Eq => match minute a ?= minute b with
                  | Eq => match second a ?= second b with
                          | Eq => microsecond a ?= microsecond b
                          | c => c
                          end
                  | c => c
                  end
          | c => c
          end
  | c => c
  end.

(** [str(datetime)]: the date, a space, the time, and the microseconds
    when they are not zero. *)
Definition datetime_str (t : datetime) : string :=
  isoformat (dt_date t) ++ " " ++
  pad2 (hour t) (String ":" (pad2 (minute t) (String ":" (pad2 (second t)
    (if microsecond t =? 0 then EmptyString
     else String "." (pad2 (microsecond t / 10000)
            (pad4 (microsecond t mod 10000) EmptyString))))))).

(** ** BSON values and documents *)

(** The values a field of this application's collections holds: [None],
    a [str], an [ObjectId] (the hexadecimal digits of its bytes, in lower
    case, as [str] shows it) or a [datetime]. *)
Inductive bson :=
  | BNull
  | BStr (s : string)
  | BOid (hex : string)
  | BDate (t : datetime).

(** A document is a dictionary from field names to values. *)
Abbreviation Doc := (gmap string bson).

Module Bson.

(** A BSON date holds milliseconds: the driver drops the rest on a write. *)
Definition encode (v : bson) : bson :=
  match v with
  | BDate t =>
      BDate (mkdatetime (dt_date t) (hour t) (minute t) (second t)
               (1000 * (microsecond t / 1000)))
  | _ => v
  end.

(** Position of the type in MongoDB's comparison order
    (null, then strings, then ObjectIds, then dates). *)
Definition rank (v : bson) : Z :=
  match v with BNull => 0 | BStr _ => 1 | BOid _ => 2 | BDate _ => 3 end.

(** MongoDB's comparison order: first by type, then inside the type;
    strings and ObjectIds compare by their bytes. *)
Definition compare (a b : bson) : comparison :=
  match a, b with
  | BStr x, BStr y => String.compare x y
  | BOid x, BOid y => String.compare x y
  | BDate x, BDate y => datetime_compare x y
  | _, _ => rank a ?= rank b
  end.

Definition eqb (a b : bson) : bool :=
  match compare a b with Eq => true | _ => false end.

(** [str(v)] for a value read with [dict.get], [None] when it is missing. *)
Definition py_str (v : option bson) : string :=
  match v with
  | None | Some BNull => "None"
  | Some (BStr s) => s
  | Some (BOid h) => h
  | Some (BDate t) => datetime_str t
  end.

(** [dict.get(key)]: a missing key reads as [None]. *)
Definition get (d : Doc) (k : string) : bson := default BNull (d !! k).

End Bson.

(** ** Queries and sort orders of the document store *)

Module Mongo.

(** The operators the endpoints use on one field. *)
Inductive cond :=
  | Equals (v : bson)       (* {field: v} *)
  | Gte (v : bson)          (* {field: {"$gte": v}} *)
  | Lte (v : bson)          (* {field: {"$lte": v}} *)
  | Exists (b : bool).      (* {field: {"$exists": b}} *)

(** A query dictionary is the conjunction of its entries. *)
#[local] Unset Elimination Schemes.
Inductive query :=
  | Field (k : string) (c : cond)
  | Or (qs : list query)
  | And (qs : list query).
#[local] Set Elimination Schemes.

Definition is_null (v : bson) : bool :=
  match v with BNull => true | _ => false end.

(** A comparison operator only sees values of the type of its operand;
    [None] as operand also matches a missing field. *)
Definition cond_holds (c : cond) (field : option bson) : bool :=
  match c, field with
  | Equals v, None => is_null v
  | Equals v, Some x => Bson.eqb x v
  | Gte v, None => is_null v
  | Gte v, Some x =>
      (Bson.rank x =? Bson.rank v)
      && match Bson.compare x v with Lt => false | _ => true end
  | Lte v, None => is_null v
  | Lte v, Some x =>
      (Bson.rank x =? Bson.rank v)
      && match Bson.compare x v with Gt => false | _ => true end
  | Exists b, None => negb b
  | Exists b, Some _ => b
  end.

Fixpoint matches (q : query) (d : Doc) : bool :=
  match q with
  | Field k c => cond_holds c (d !! k)
  | Or qs => existsb (fun q' => matches q' d) qs
  | And qs => forallb (fun q' => matches q' d) qs
  end.

(** A sort specification: fields with direction [1] or [-1]. *)
Definition sort_spec := list (string * Z).

(** A missing field sorts as [None]. *)
Fixpoint sort_compare (spec : sort_spec) (a b : Doc) : comparison :=
  match spec with
  | [] => Eq
  | (k, dir) :: rest =>
      match (if 0 <? dir then Bson.compare (Bson.get a k) (Bson.get b k)
             else Bson.compare (Bson.get b k) (Bson.get a k)) with
      | Eq => sort_compare rest a b
      | c => c
      end
  end.

Definition sort_le (spec : sort_spec) (a b : Doc) : bool :=
  match sort_compare spec a b with Gt => false | _ => true end.

(** The server's sort is any sort by [sort_compare]; the model takes the
    one that keeps the natural order among equal keys. *)
Fixpoint sort_insert (spec : sort_spec) (x : Doc) (l : list Doc) : list Doc :=
  match l with
  | [] => [x]
  | y :: l' => if sort_le spec x y then x :: l else y :: sort_insert spec x l'
  end.

Fixpoint sort (spec : sort_spec) (l : list Doc) : list Doc :=
  match l with
  | [] => []
  | x :: l' => sort_insert spec x (sort spec l')
  end.

(** [collection.find(q).sort(spec)] *)
Definition find (q : query) (spec : sort_spec) (c : list Doc) : list Doc :=
  sort spec (List.filter (matches q) c).

(** [collection.find_one(q)]: the first match in natural order. *)
Definition find_one (q : query) (c : list Doc) : option Doc :=
  List.find (matches q) c.

(** [collection.update_one(q, {"$set": fields})]: the new collection and
    [matched_count]. *)
Fixpoint update_one (q : query) (fields : Doc) (c : list Doc) : list Doc * Z :=
  match c with
  | [] => ([], 0)
  | d :: c' =>
      if matches q d then (((Bson.encode <$> fields) ∪ d) :: c', 1)
      else let (r, n) := update_one q fields c' in (d :: r, n)
  end.

(** [collection.delete_one(q)] *)
Fixpoint delete_one (q : query) (c : list Doc) : list Doc :=
  match c with
  | [] => []
  | d :: c' => if matches q d then c' else d :: delete_one q c'
  end.

Definition by_id (v : bson) : query := And [Field "_id" (Equals v)].

(** [collection.insert_one(doc)] for a document that carries its [_id]:
    [None] stands for [DuplicateKeyError]. *)
Definition insert_one (doc : Doc) (c : list Doc) : option (list Doc) :=
  match find_one (by_id (Bson.get doc "_id")) c with
  | Some _ => None
  | None => Some (c ++ [Bson.encode <$> doc])%list
  end.

End Mongo.

(** ** [bson.ObjectId] *)

Definition is_hex (c : ascii) : bool :=
  is_digit c || ((97 <=? code c) && (code c <=? 102))
  || ((65 <=? code c) && (code c <=? 70)).

Definition lower_hex (c : ascii) : ascii :=
  if (65 <=? code c) && (code c <=? 70) then ascii_of_N (N_of_ascii c + 32) else c.

(** [Py_ISSPACE]: the white space [bytes.fromhex] skips. *)
Definition is_c_space (c : ascii) : bool :=
  ((9 <=? code c) && (code c <=? 13)) || (code c =? 32).

(** [bytes.fromhex(text).hex()]: the text is read two hexadecimal digits
    at a time, white space is skipped before a pair and at the end, and
    the digits come back in lower case; [None] stands for [ValueError]. *)
Fixpoint fromhex (text : string) : option string :=
  match text with
  | EmptyString => Some EmptyString
  | String a rest =>
      if is_c_space a then fromhex rest
      else
        match rest with
        | String b rest' =>
            if is_hex a && is_hex b then
              match fromhex rest' with
              | Some h => Some (String (lower_hex a) (String (lower_hex b) h))
              | None => None
              end
            else None
        | EmptyString => None
        end
  end.

(** [ObjectId(text)]: the text must have 24 characters and go through
    [bytes.fromhex]; the bytes are kept as [str] shows them.  [None]
    stands for [InvalidId]. *)
Definition ObjectId (text : string) : option string :=
  if Z.of_nat (String.length text) =? 24 then fromhex text else None.

(** ** Exceptions, the store behind the endpoints and the handler monad *)

Inductive exn :=
  | HTTPException (status_code : Z) (detail : string)
  | OtherException (text : string).

Inductive outcome (A : Type) :=
  | Return (a : A)
  | Raise (e : exn).
Arguments Return {A} a.
Arguments Raise {A} e.

(** The calls an endpoint makes to the store. *)
Inductive call :=
  | TeachersFindOne
  | AnnouncementsFind
  | AnnouncementsFindOne
  | AnnouncementsInsertOne
  | AnnouncementsUpdateOne
  | AnnouncementsDeleteOne.

Definition is_announcement_call (c : call) : bool :=
  match c with TeachersFindOne => false | _ => true end.

Definition is_write (c : call) : bool :=
  match c with
  | AnnouncementsInsertOne | AnnouncementsUpdateOne | AnnouncementsDeleteOne => true
  | _ => false
  end.

(** The two collections of [..database], what the next store calls will
    raise ([Some text] makes a call raise an exception with that text, no
    entry or [None] lets it through), and the calls made so far, the
    latest first. *)
Record World := mkWorld {
  announcements_collection : list Doc;
  teachers_collection : list Doc;
  faults : list (option string);
  calls : list call }.

Definition M (A : Type) : Type := World -> outcome A * World.

#[global] Instance M_ret : MRet M := fun A a w => (Return a, w).

#[global] Instance M_bind : MBind M := fun A B f m w =>
  match m w with
  | (Return a, w') => f a w'
  | (Raise e, w') => (Raise e, w')
  end.

Definition raise {A} (e : exn) : M A := fun w => (Raise e, w).

Definition lift {A} (o : outcome A) : M A := fun w => (o, w).

(** [try: body / except Exception: raise HTTPException(500, detail)].
    [HTTPException] is an [Exception], so this clause catches it too. *)
Definition except_Exception {A} (detail : string) (body : M A) : M A := fun w =>
  match body w with
  | (Return a, w') => (Return a, w')
  | (Raise _, w') => (Raise (HTTPException 500 detail), w')
  end.

(** [try: body / except HTTPException: raise / except Exception: raise
    HTTPException(500, detail)]. *)
Definition except_HTTPException_reraise {A} (detail : string) (body : M A) : M A :=
  fun w =>
  match body w with
  | (Return a, w') => (Return a, w')
  | (Raise (HTTPException s d), w') => (Raise (HTTPException s d), w')
  | (Raise (OtherException _), w') => (Raise (HTTPException 500 detail), w')
  end.

(** One round trip to the store: it is recorded, it takes the next entry
    of the fault schedule, and it runs unless that entry makes it raise. *)
Definition store_call {A} (c : call) (run : World -> outcome A * World) : M A :=
  fun w =>
  let w1 := mkWorld (announcements_collection w) (teachers_collection w)
              (tl (faults w)) (c :: calls w) in
  match hd None (faults w) with
  | Some text => (Raise (OtherException text), w1)
  | None => run w1
  end.

Definition set_announcements (c : list Doc) (w : World) : World :=
  mkWorld c (teachers_collection w) (faults w) (calls w).

Module Store.

Definition teachers_find_one (q : Mongo.query) : M (option Doc) :=
  store_call TeachersFindOne
    (fun w => (Return (Mongo.find_one q (teachers_collection w)), w)).

Definition announcements_find (q : Mongo.query) (spec : Mongo.sort_spec)
    : M (list Doc) :=
  store_call AnnouncementsFind
    (fun w => (Return (Mongo.find q spec (announcements_collection w)), w)).

Definition announcements_find_one (q : Mongo.query) : M (option Doc) :=
  store_call AnnouncementsFindOne
    (fun w => (Return (Mongo.find_one q (announcements_collection w)), w)).

(** [insert_one] gives a document without [_id] a new [ObjectId] and
    returns it as [inserted_id]. *)
Definition announcements_insert_one (new_id : string) (document : Doc) : M bson :=
  store_call AnnouncementsInsertOne
    (fun w =>
       match Mongo.insert_one (<["_id" := BOid new_id]> document)
               (announcements_collection w) with
       | Some c => (Return (BOid new_id), set_announcements c w)
       | None => (Raise (OtherException "E11000 duplicate key error"), w)
       end).

Definition announcements_update_one (q : Mongo.query) (fields : Doc) : M Z :=
  store_call AnnouncementsUpdateOne
    (fun w =>
       let (c, matched_count) := Mongo.update_one q fields (announcements_collection w) in
       (Return matched_count, set_announcements c w)).

Definition announcements_delete_one (q : Mongo.query) : M unit :=
  store_call AnnouncementsDeleteOne
    (fun w => (Return tt,
               set_announcements (Mongo.delete_one q (announcements_collection w)) w)).

End Store.

(** ** The endpoints *)

(** The model class of the request body: three required strings and an
    optional one. *)
Record AnnouncementPayload := mkPayload {
  title : string;
  message : string;
  start_date : option Unicode.text;
  end_date : Unicode.text }.

(** The length constraints of the [Field]s. *)
Definition payload_fieldsb (p : AnnouncementPayload) : bool :=
  (1 <=? Z.of_nat (String.length (title p)))
  && (Z.of_nat (String.length (title p)) <=? 80)
  && (1 <=? Z.of_nat (String.length (message p)))
  && (Z.of_nat (String.length (message p)) <=? 280).

(** The JSON object of a request as far as the model class looks at it:
    for each field the string given for it, or [None] when the key is
    missing or null.  (Values that are not strings are left out.) *)
Record Body := mkBody {
  body_title : option string;
  body_message : option string;
  body_start_date : option Unicode.text;
  body_end_date : option Unicode.text }.

(** Building the payload from the body: the fields declared with
    [Field(...)] are required and must keep their lengths; [None] stands
    for the [ValidationError] of the model class. *)
Definition validate_payload (b : Body) : option AnnouncementPayload :=
  match body_title b, body_message b, body_end_date b with
  | Some t, Some m, Some e =>
      let p := mkPayload t m (body_start_date b) e in
      if payload_fieldsb p then Some p else None
  | _, _, _ => None
  end.

Definition parse_date (value : option Unicode.text) (field_name : string)
    : outcome (option date) :=
  match value with
  | None | Some [] => Return None
  | Some v =>
      match Strptime.strptime v DATE_FORMAT with
      | Some d => Return (Some d)
      | None =>
          Raise (HTTPException 400 (field_name ++ " must be in YYYY-MM-DD format"))
      end
  end.

(** A [date] is always true in a condition, so [start_date and ...] only
    asks whether there is one. *)
Definition validate_date_range (start_date : option date) (end_date : date)
    : outcome unit :=
  match start_date with
  | Some s =>
      if date_gt s end_date
      then Raise (HTTPException 400 "start_date must be on or before end_date")
      else Return tt
  | None => Return tt
  end.

(** [not x] for an optional string and for an optional document. *)
Definition not_str (x : option string) : bool :=
  match x with None | Some EmptyString => true | Some _ => false end.

Definition not_doc (x : option Doc) : bool :=
  match x with
  | None => true
  | Some d => bool_decide (map_to_list d = [])
  end.

Definition require_teacher (teacher_username : option string) : M Doc :=
  match teacher_username with
  | None | Some EmptyString =>
      raise (HTTPException 401 "Authentication required")
  | Some u =>
      teacher ← Store.teachers_find_one (Mongo.by_id (BStr u));
      match teacher with
      | Some t =>
          if not_doc teacher
          then raise (HTTPException 401 "Invalid teacher credentials")
          else mret t
      | None => raise (HTTPException 401 "Invalid teacher credentials")
      end
  end.

Definition serialize_announcement (document : Doc) : Doc :=
  list_to_map
    [("id", BStr (Bson.py_str (document !! "_id")));
     ("title", Bson.get document "title");
     ("message", Bson.get document "message");
     ("start_date", Bson.get document "start_date");
     ("end_date", Bson.get document "end_date");
     ("created_at", Bson.get document "created_at");
     ("updated_at", Bson.get document "updated_at")].

Definition active_query (today : string) : Mongo.query :=
  Mongo.And
    [Mongo.Field "end_date" (Mongo.Gte (BStr today));
     Mongo.Or
       [Mongo.And [Mongo.Field "start_date" (Mongo.Exists false)];
        Mongo.And [Mongo.Field "start_date" (Mongo.Equals BNull)];
        Mongo.And [Mongo.Field "start_date" (Mongo.Equals (BStr ""))];
        Mongo.And [Mongo.Field "start_date" (Mongo.Lte (BStr today))]]].

Definition active_order : Mongo.sort_spec := [("start_date", 1); ("created_at", -1)].

(** [GET /announcements/active]; [date_today] is what [date.today()]
    returns during the call. *)
Definition get_active_announcements (date_today : date) : M (list Doc) :=
  let today := isoformat date_today in
  except_Exception "Failed to load announcements"
    (announcements ← Store.announcements_find (active_query today) active_order;
     mret (map serialize_announcement announcements)).

Definition management_order : Mongo.sort_spec := [("end_date", -1); ("start_date", -1)].

(** [GET /announcements] *)
Definition list_announcements (teacher_username : option string) : M (list Doc) :=
  _ ← require_teacher teacher_username;
  except_Exception "Failed to load announcements"
    (announcements ← Store.announcements_find (Mongo.And []) management_order;
     mret (map serialize_announcement announcements)).

Definition iso_or_none (d : option date) : bson :=
  match d with Some x => BStr (isoformat x) | None => BNull end.

(** What an endpoint takes from its surroundings: the two readings of
    [datetime.utcnow()] and the [ObjectId] the driver makes up. *)
Record Env := mkEnv { utcnow1 : datetime; utcnow2 : datetime; new_id : string }.

(** [POST /announcements] *)
Definition create_announcement (env : Env) (payload : AnnouncementPayload)
    (teacher_username : option string) : M Doc :=
  _ ← require_teacher teacher_username;
  start ← lift (parse_date (start_date payload) "start_date");
  end_ ← lift (parse_date (Some (end_date payload)) "end_date");
  match end_ with
  | None => raise (HTTPException 400 "end_date is required")
  | Some end_ =>
      _ ← lift (validate_date_range start end_);
      let document : Doc :=
        list_to_map
          [("title", BStr (strip (title payload)));
           ("message", BStr (strip (message payload)));
           ("start_date", iso_or_none start);
           ("end_date", BStr (isoformat end_));
           ("created_at", BDate (utcnow1 env));
           ("updated_at", BDate (utcnow2 env))] in
      except_Exception "Failed to create announcement"
        (inserted_id ← Store.announcements_insert_one (new_id env) document;
         mret (serialize_announcement (<["_id" := inserted_id]> document)))
  end.

Definition not_found : exn := HTTPException 404 "Announcement not found".

(** [PUT /announcements/{announcement_id}] *)
Definition update_announcement (env : Env) (announcement_id : string)
    (payload : AnnouncementPayload) (teacher_username : option string) : M Doc :=
  _ ← require_teacher teacher_username;
  start ← lift (parse_date (start_date payload) "start_date");
  end_ ← lift (parse_date (Some (end_date payload)) "end_date");
  match end_ with
  | None => raise (HTTPException 400 "end_date is required")
  | Some end_ =>
      _ ← lift (validate_date_range start end_);
      match ObjectId announcement_id with
      | None => raise (HTTPException 400 "Invalid announcement id")
      | Some announcement_object_id =>
          let updates : Doc :=
            list_to_map
              [("title", BStr (strip (title payload)));
               ("message", BStr (strip (message payload)));
               ("start_date", iso_or_none start);
               ("end_date", BStr (isoformat end_));
               ("updated_at", BDate (utcnow1 env))] in
          except_HTTPException_reraise "Failed to update announcement"
            (matched_count ← Store.announcements_update_one
                               (Mongo.by_id (BOid announcement_object_id)) updates;
             if matched_count =? 0 then raise not_found
             else
               updated ← Store.announcements_find_one
                            (Mongo.by_id (BOid announcement_object_id));
               match updated with
               | Some u => if not_doc updated then raise not_found
                           else mret (serialize_announcement u)
               | None => raise not_found
               end)
      end
  end.

(** [DELETE /announcements/{announcement_id}] *)
Definition delete_announcement (announcement_id : string)
    (teacher_username : option string) : M Doc :=
  _ ← require_teacher teacher_username;
  match ObjectId announcement_id with
  | None => raise (HTTPException 400 "Invalid announcement id")
  | Some announcement_object_id =>
      except_HTTPException_reraise "Failed to delete announcement"
        (announcement ← Store.announcements_find_one
                           (Mongo.by_id (BOid announcement_object_id));
         if not_doc announcement then raise not_found
         else
           _ ← Store.announcements_delete_one
                 (Mongo.by_id (BOid announcement_object_id));
           mret ({[ "message" := BStr "Announcement deleted" ]} : Doc))
  end.

(** ** The router *)

(** A request to one of the five routes, with what its endpoint takes. *)
Inductive operation :=
  | ListActive (date_today : date)
  | ListAll (teacher_username : option string)
  | Create (env : Env) (payload : AnnouncementPayload)
      (teacher_username : option string)
  | Update (env : Env) (announcement_id : string) (payload : AnnouncementPayload)
      (teacher_username : option string)
  | Delete (announcement_id : string) (teacher_username : option string).

Inductive response :=
  | Listing (l : list Doc)
  | Single (d : Doc).

Definition serve (op : operation) : M response :=
  match op with
  | ListActive date_today =>
      l ← get_active_announcements date_today; mret (Listing l)
  | ListAll u => l ← list_announcements u; mret (Listing l)
  | Create env payload u => d ← create_announcement env payload u; mret (Single d)
  | Update env id payload u =>
      d ← update_announcement env id payload u; mret (Single d)
  | Delete id u => d ← delete_announcement id u; mret (Single d)
  end.

(** What a route with a body answers.  FastAPI builds the payload from
    the body before it calls the endpoint; when the model class refuses
    the body, the answer is 422 and the endpoint does not run. *)
Inductive answer (A : Type) :=
  | Unprocessable
  | Ran (r : outcome A * World).
Arguments Unprocessable {A}.
Arguments Ran {A} r.

(** [POST /announcements] with the body as it arrives. *)
Definition post_announcement (env : Env) (body : Body)
    (teacher_username : option string) (w : World) : answer Doc :=
  match validate_payload body with
  | Some payload => Ran (create_announcement env payload teacher_username w)
  | None => Unprocessable
  end.

(** [PUT /announcements/{announcement_id}] with the body as it arrives. *)
Definition put_announcement (env : Env) (announcement_id : string) (body : Body)
    (teacher_username : option string) (w : World) : answer Doc :=
  match validate_payload body with
  | Some payload =>
      Ran (update_announcement env announcement_id payload teacher_username w)
  | None => Unprocessable
  end.

(** * Vocabulary of the statements *)

(** A comparison function that is a total preorder. *)
Record order {A : Type} (c : A -> A -> comparison) : Prop := mkorder {
  ord_antisym : forall a b, c b a = CompOpp (c a b);
  ord_eq : forall a b d, c a b = Eq -> c a d = c b d;
  ord_lt : forall a b d, c a b = Lt -> c b d = Lt -> c a d = Lt }.

(** Sorted for a sort specification of the store. *)
Definition sorted_by (spec : Mongo.sort_spec) : list Doc -> Prop :=
  StronglySorted (fun a b => Mongo.sort_le spec a b = true).

(** The world after one more store call went through or raised. *)
Definition after_call (c : call) (w : World) : World :=
  mkWorld (announcements_collection w) (teachers_collection w)
    (tl (faults w)) (c :: calls w).

(** Some teacher record has this identifier. *)
Definition known_teacher (n : string) (w : World) : Prop :=
  exists t, In t (teachers_collection w) /\ t !! "_id" = Some (BStr n).

(** The four ways [require_teacher] ends. *)
Inductive require_teacher_spec (u : option string) (w : World)
    : outcome Doc * World -> Prop :=
  | rt_missing :
      not_str u = true ->
      require_teacher_spec u w
        (Raise (HTTPException 401 "Authentication required"), w)
  | rt_fault n text :
      u = Some n -> n <> "" -> hd None (faults w) = Some text ->
      require_teacher_spec u w
        (Raise (OtherException text), after_call TeachersFindOne w)
  | rt_unknown n :
      u = Some n -> n <> "" -> hd None (faults w) = None -> ~ known_teacher n w ->
      require_teacher_spec u w
        (Raise (HTTPException 401 "Invalid teacher credentials"),
         after_call TeachersFindOne w)
  | rt_known n t :
      u = Some n -> n <> "" -> hd None (faults w) = None ->
      In t (teachers_collection w) -> t !! "_id" = Some (BStr n) ->
      require_teacher_spec u w (Return t, after_call TeachersFindOne w).

(** The teacher identifier of a request to a management route. *)
Definition teacher_of (op : operation) : option (option string) :=
  match op with
  | ListActive _ => None
  | ListAll u | Create _ _ u | Update _ _ _ u | Delete _ u => Some u
  end.

(** The teacher check passes: the identifier is given, the lookup goes
    through and finds a record. *)
Definition authenticated (u : option string) (w : World) : Prop :=
  exists n, u = Some n /\ n <> "" /\ hd None (faults w) = None /\ known_teacher n w.

(** The dates of a payload pass [parse_date] and [validate_date_range]. *)
Definition accepted_dates (p : AnnouncementPayload) (s : option date) (e : date)
    : Prop :=
  parse_date (start_date p) "start_date" = Return s
  /\ parse_date (Some (end_date p)) "end_date" = Return (Some e)
  /\ validate_date_range s e = Return tt.

(** The fields an update writes. *)
Definition content_fields : list string :=
  ["title"; "message"; "start_date"; "end_date"; "updated_at"].

(** ** The orders and the window of the two listings *)

(** [a] may stand before [b] in a list ordered by end_date descending,
    then start_date descending (a missing field counts as [None]). *)
Definition end_desc_then_start_desc (a b : Doc) : Prop :=
  match Bson.compare (Bson.get a "end_date") (Bson.get b "end_date") with
  | Gt => True
  | Eq => Bson.compare (Bson.get a "start_date") (Bson.get b "start_date") <> Lt
  | Lt => False
  end.

(** [a] may stand before [b] in a list ordered by start_date ascending,
    then created_at descending. *)
Definition start_asc_then_created_desc (a b : Doc) : Prop :=
  match Bson.compare (Bson.get a "start_date") (Bson.get b "start_date") with
  | Lt => True
  | Eq => Bson.compare (Bson.get a "created_at") (Bson.get b "created_at") <> Lt
  | Gt => False
  end.

(** The window of the specification, on the stored texts: end_date is a
    text on or after today's, and start_date is absent, null, empty, or a
    text on or before today's. *)
Definition on_or_after (today : string) (v : option bson) : bool :=
  match v with Some (BStr e) => String.leb today e | _ => false end.

Definition on_or_before (today : string) (v : option bson) : bool :=
  match v with Some (BStr s) => String.leb s today | _ => false end.

Definition absent_or_empty (v : option bson) : bool :=
  match v with
  | None | Some BNull | Some (BStr EmptyString) => true
  | _ => false
  end.

Definition active_on (today : date) (d : Doc) : bool :=
  on_or_after (isoformat today) (d !! "end_date")
  && (absent_or_empty (d !! "start_date")
      || on_or_before (isoformat today) (d !! "start_date")).

(** The record [d] is dated [s] to [e]: its end_date is the ISO text of
    the date [e], and its start_date is the ISO text of [s], or absent,
    null or empty when there is no [s]. *)
Definition dated (d : Doc) (s : option date) (e : date) : Prop :=
  d !! "end_date" = Some (BStr (isoformat e)) /\ valid_date e
  /\ match s with
     | Some s' => d !! "start_date" = Some (BStr (isoformat s')) /\ valid_date s'
     | None => absent_or_empty (d !! "start_date") = true
     end.

(** Today lies in the window of the dates [s] and [e]. *)
Definition in_window (today : date) (s : option date) (e : date) : bool :=
  negb (date_gt today e)
  && match s with Some s' => negb (date_gt s' today) | None => true end.

(** The order of listActive read on the calendar: of two dated records
    the one with the earlier start date stands first, a record without
    start date stands before those that have one, and of two records with
    the same start date the one created later stands first. *)
Definition earlier_start_first (a b : Doc) : Prop :=
  forall sa ea sb eb, dated a sa ea -> dated b sb eb ->
    match sa, sb with
    | Some x, Some y =>
        date_le x y
        /\ (x = y ->
            forall ta tb, a !! "created_at" = Some (BDate ta) ->
                          b !! "created_at" = Some (BDate tb) ->
                          datetime_compare ta tb <> Lt)
    | Some _, None => False
    | None, _ => True
    end.

(** The order of listAll read on the calendar: of two dated records the
    one with the later end date stands first; for the same end date the
    one with the later start date stands first, and a record without start
    date stands after those that have one. *)
Definition later_end_first (a b : Doc) : Prop :=
  forall sa ea sb eb, dated a sa ea -> dated b sb eb ->
    date_le eb ea
    /\ (ea = eb ->
        match sa, sb with
        | Some x, Some y => date_le y x
        | None, Some _ => False
        | _, None => True
        end).

(** The record [r] of a response carries the announcement [d]: its id is
    the text of the [_id] of [d] (the hexadecimal digits of an [ObjectId],
    "None" when there is none), and under each of the six other keys it
    holds what [d] holds there, null when [d] lacks the field. *)
Definition carries (r d : Doc) : Prop :=
  (forall oid, d !! "_id" = Some (BOid oid) -> r !! "id" = Some (BStr oid))
  /\ (forall text, d !! "_id" = Some (BStr text) -> r !! "id" = Some (BStr text))
  /\ (forall t, d !! "_id" = Some (BDate t) -> r !! "id" = Some (BStr (datetime_str t)))
  /\ (d !! "_id" = None \/ d !! "_id" = Some BNull -> r !! "id" = Some (BStr "None"))
  /\ forall k, In k ["title"; "message"; "start_date"; "end_date"; "created_at";
                     "updated_at"] ->
       r !! k = Some (match d !! k with Some v => v | None => BNull end).

(** The fixed text an endpoint puts into its 500. *)
Definition failure_detail (op : operation) : string :=
  match op with
  | ListActive _ | ListAll _ => "Failed to load announcements"
  | Create _ _ _ => "Failed to create announcement"
  | Update _ _ _ _ => "Failed to update announcement"
  | Delete _ _ => "Failed to delete announcement"
  end.

(** The statuses of the errors the endpoints classify themselves. *)
Definition classified (status : Z) : Prop :=
  status = 400 \/ status = 401 \/ status = 404.

(** ** The texts of a date *)

(** A valid YYYY-MM-DD string: the four-digit year, two-digit month and
    two-digit day of a date that exists. *)
Definition iso_date_text (s : string) : Prop :=
  exists d, valid_date d /\ s = isoformat d.

(** The code point of the ASCII digit of [n]. *)
Definition ascii_digit (n : Z) : Z := 48 + n.

(** A year is written with four decimal digits, each of any script. *)
Definition year_text (y : Z) (t : Unicode.text) : Prop :=
  exists a b c d va vb vc vd,
    t = [a; b; c; d]
    /\ Unicode.decimal a = Some va /\ Unicode.decimal b = Some vb
    /\ Unicode.decimal c = Some vc /\ Unicode.decimal d = Some vd
    /\ y = 1000 * va + 100 * vb + 10 * vc + vd.

(** A month is written with two ASCII digits, or with one when it has
    one. *)
Definition month_text (m : Z) (t : Unicode.text) : Prop :=
  t = [ascii_digit (m / 10); ascii_digit (m mod 10)]
  \/ (m < 10 /\ t = [ascii_digit m]).

(** A day is written with two ASCII digits; or, when it has one digit,
    with that digit alone or after a space; or, from the 10th to the 29th,
    with the ASCII digit of the tens and a decimal digit of any script for
    the units. *)
Definition day_text (d : Z) (t : Unicode.text) : Prop :=
  t = [ascii_digit (d / 10); ascii_digit (d mod 10)]
  \/ (d < 10 /\ (t = [ascii_digit d] \/ t = [32; ascii_digit d]))
  \/ (10 <= d <= 29
      /\ exists c, Unicode.decimal c = Some (d mod 10) /\ t = [ascii_digit (d / 10); c]).

(** The texts that name the date [d] under [DATE_FORMAT]: year, month and
    day with "-" (code point 45) between them. *)
Definition date_text (d : date) (s : Unicode.text) : Prop :=
  valid_date d
  /\ exists yt mt dt,
       year_text (year d) yt /\ month_text (month d) mt /\ day_text (day d) dt
       /\ s = (yt ++ 45 :: mt ++ 45 :: dt)%list.

(** The groups of ["-%m-%d"], what follows the year in [DATE_FORMAT]. *)
Definition after_year : list Strptime.group :=
  [Strptime.mkgroup None [[Strptime.lit "-"]]; Strptime.re_m;
   Strptime.mkgroup None [[Strptime.lit "-"]]; Strptime.re_d].

(** The text [m] is matched by the classes [cs], one character each. *)
Fixpoint chars_ok (cs : list Strptime.charclass) (m : Unicode.text) : bool :=
  match cs, m with
  | [], [] => true
  | c :: cs', a :: m' => c a && chars_ok cs' m'
  | _, _ => false
  end.

(** The code points [int] skips as white space. *)
Definition int_spaces : list Z :=
  [9; 10; 11; 12; 13; 32; 133; 160; 5760; 8192; 8193; 8194; 8195; 8196; 8197;
   8198; 8199; 8200; 8201; 8202; 8232; 8233; 8239; 8287; 12288].

(** Readings of an outcome for the examples. *)
Definition is_return {A} (o : outcome A) : bool :=
  match o with Return _ => true | Raise _ => false end.

Definition returned_field (o : outcome Doc) (k : string) : option bson :=
  match o with Return r => r !! k | Raise _ => None end.

Definition returned_titles (o : outcome (list Doc)) : list bson :=
  match o with
  | Return l => map (fun d : Doc => Bson.get d "title") l
  | Raise _ => []
  end.

Definition stored_titles (w : World) : list bson :=
  map (fun d : Doc => Bson.get d "title") (announcements_collection w).

(** ** Sample data for the examples *)

Module Sample.

Definition teacher : Doc :=
  list_to_map [("_id", BStr "t1"); ("display_name", BStr "Ms. Rivera")].

Definition noon : datetime := mkdatetime (mkdate 2024 5 1) 12 0 0 123456.

Definition env : Env := mkEnv noon noon "0123456789abcdef01234567".

Definition exam : Doc :=
  list_to_map
    [("_id", BOid "aaaaaaaaaaaaaaaaaaaaaaaa"); ("title", BStr "Exam");
     ("message", BStr "Midterm Friday"); ("start_date", BNull);
     ("end_date", BStr "2024-05-10"); ("created_at", BDate noon);
     ("updated_at", BDate noon)].

Definition fair : Doc :=
  list_to_map
    [("_id", BOid "bbbbbbbbbbbbbbbbbbbbbbbb"); ("title", BStr "Fair");
     ("message", BStr "Science fair"); ("start_date", BStr "2024-06-01");
     ("end_date", BStr "2024-06-30"); ("created_at", BDate noon);
     ("updated_at", BDate noon)].

Definition world : World := mkWorld [exam; fair] [teacher] [] [].

(** The same world when the next store call raises. *)
Definition world_store_down : World :=
  mkWorld [exam; fair] [teacher] [Some "connection refused"] [].

Definition payload : AnnouncementPayload :=
  mkPayload "Exam" "Midterm Friday" None (Unicode.codes "2024-05-10").

Definition backwards : AnnouncementPayload :=
  mkPayload "Exam" "Midterm Friday" (Some (Unicode.codes "2024-05-11"))
    (Unicode.codes "2024-05-10").

Definition revised : AnnouncementPayload :=
  mkPayload "  Exam moved " "Now on Monday" (Some (Unicode.codes "2024-05-06"))
    (Unicode.codes "2024-05-13").

(** A title of three spaces: one to eighty characters long. *)
Definition blank : AnnouncementPayload :=
  mkPayload "   " "Midterm Friday" None (Unicode.codes "2024-05-10").

(** A body that gives no end_date. *)
Definition body_without_end_date : Body :=
  mkBody (Some "Exam") (Some "Midterm Friday") None None.

(** A date text with a year and a day in Arabic-Indic digits. *)
Definition arabic_indic : Unicode.text :=
  [1634; 1632; 1634; 1636; 45; 48; 53; 45; 49; 1632].

End Sample.

(** * Vocabulary of the further properties *)

(** The document create builds from an accepted payload, with the
    [_id] the driver gives it. *)
Definition new_document (env : Env) (p : AnnouncementPayload) (s : option date)
    (e : date) : Doc :=
  <["_id" := BOid (new_id env)]>
    (list_to_map
       [("title", BStr (strip (title p)));
        ("message", BStr (strip (message p)));
        ("start_date", iso_or_none s);
        ("end_date", BStr (isoformat e));
        ("created_at", BDate (utcnow1 env));
        ("updated_at", BDate (utcnow2 env))]).

(** The world after a document was appended to the announcements. *)
Definition with_announcement (d : Doc) (w : World) : World :=
  set_announcements (announcements_collection w ++ [d])%list w.

(** The invariant of the data model on a stored record: end_date is the
    ISO text of a date, and start_date is null or the ISO text of a date
    on or before it. *)
Definition well_dated (d : Doc) : Prop :=
  exists e, d !! "end_date" = Some (BStr (isoformat e)) /\ valid_date e
    /\ (d !! "start_date" = Some BNull
        \/ exists s, d !! "start_date" = Some (BStr (isoformat s))
                     /\ valid_date s /\ date_le s e).

(** The dates [parse_date] and [validate_date_range] let through: both
    exist and the start is not after the end. *)
Definition parse_date_result_valid (s : option date) (e : date) : Prop :=
  valid_date e
  /\ forall s', s = Some s' -> valid_date s' /\ date_le s' e.

(** The store calls of each endpoint, in the order it makes them. *)
Definition script (op : operation) : list call :=
  match op with
  | ListActive _ => [AnnouncementsFind]
  | ListAll _ => [TeachersFindOne; AnnouncementsFind]
  | Create _ _ _ => [TeachersFindOne; AnnouncementsInsertOne]
  | Update _ _ _ _ => [TeachersFindOne; AnnouncementsUpdateOne; AnnouncementsFindOne]
  | Delete _ _ => [TeachersFindOne; AnnouncementsFindOne; AnnouncementsDeleteOne]
  end.

(** The keys of a serialized announcement. *)
Definition response_keys : list string :=
  ["id"; "title"; "message"; "start_date"; "end_date"; "created_at"; "updated_at"].

(** No entry of the fault schedule makes a call raise. *)
Definition store_up (w : World) : Prop := forall f, In f (faults w) -> f = None.

(** The world after a sequence of requests, whatever they answer. *)
Fixpoint after_requests (ops : list operation) (w : World) : World :=
  match ops with
  | [] => w
  | op :: rest => after_requests rest (snd (serve op w))
  end.

(** A record has the keys of a serialized announcement and no other. *)
Definition has_response_keys (d : Doc) : Prop :=
  forall k, is_Some (d !! k) <-> In k response_keys.

(** The record [r] has the keys of a response and carries a record of
    [stored]. *)
Definition carries_one_of (stored : list Doc) (r : Doc) : Prop :=
  has_response_keys r /\ exists d, In d stored /\ carries r d.

(** The same request made by another teacher. *)
Definition with_teacher (u : option string) (op : operation) : operation :=
  match op with
  | ListActive today => ListActive today
  | ListAll _ => ListAll u
  | Create env p _ => Create env p u
  | Update env id p _ => Update env id p u
  | Delete id _ => Delete id u
  end.

(** The fields update sets, from an accepted payload. *)
Definition updates_of (env : Env) (p : AnnouncementPayload) (s : option date)
    (e : date) : Doc :=
  list_to_map
    [("title", BStr (strip (title p)));
     ("message", BStr (strip (message p)));
     ("start_date", iso_or_none s);
     ("end_date", BStr (isoformat e));
     ("updated_at", BDate (utcnow1 env))].
(** * Properties *)

(** ** The date parser on examples *)

Example strptime_plain :
  Strptime.strptime (Unicode.codes "2024-05-10") DATE_FORMAT = Some (mkdate 2024 5 10).
Proof. vm_compute. reflexivity. Qed.

Example strptime_short :
  Strptime.strptime (Unicode.codes "2024-1-5") DATE_FORMAT = Some (mkdate 2024 1 5).
Proof. vm_compute. reflexivity. Qed.

Example strptime_slashes :
  Strptime.strptime (Unicode.codes "2024/01/01") DATE_FORMAT = None.
Proof. vm_compute. reflexivity. Qed.

Example strptime_feb30 :
  Strptime.strptime (Unicode.codes "2023-02-30") DATE_FORMAT = None.
Proof. vm_compute. reflexivity. Qed.

Example strptime_left_over :
  Strptime.strptime (Unicode.codes "2024-12-311") DATE_FORMAT = None.
Proof. vm_compute. reflexivity. Qed.

Example strptime_space_day :
  Strptime.strptime (Unicode.codes "2024-1- 5") DATE_FORMAT = Some (mkdate 2024 1 5).
Proof. vm_compute. reflexivity. Qed.

Example strptime_refused :
  Strptime.strptime (Unicode.codes "0000-01-01") DATE_FORMAT = None
  /\ Strptime.strptime (Unicode.codes "2024-13-01") DATE_FORMAT = None
  /\ Strptime.strptime (Unicode.codes "2024-1-41") DATE_FORMAT = None
  /\ Strptime.strptime (Unicode.codes "2024-01-01 ") DATE_FORMAT = None
  /\ Strptime.strptime (Unicode.codes " 2024-01-01") DATE_FORMAT = None.
Proof. repeat split; vm_compute; reflexivity. Qed.

(** Digits of other scripts: a year and the units of a day in
    Arabic-Indic digits are read, a month in them is not, and neither is
    the tens digit of a day (the texts are "2024-05-10" with the digits
    1632 to 1641 in some places). *)
Example strptime_other_digits :
  Strptime.strptime Sample.arabic_indic DATE_FORMAT = Some (mkdate 2024 5 10)
  /\ Strptime.strptime [50; 48; 50; 52; 45; 1632; 53; 45; 49; 48] DATE_FORMAT = None
  /\ Strptime.strptime [50; 48; 50; 52; 45; 48; 53; 45; 1633; 48] DATE_FORMAT = None
  /\ Strptime.strptime [50; 48; 50; 52; 45; 48; 53; 45; 51; 1632] DATE_FORMAT = None.
Proof. repeat split; vm_compute; reflexivity. Qed.

Example datetime_str_sample :
  datetime_str (mkdatetime (mkdate 2024 5 1) 12 0 0 123456) = "2024-05-01 12:00:00.123456"
  /\ datetime_str (mkdatetime (mkdate 2024 5 1) 12 0 0 0) = "2024-05-01 12:00:00"
  /\ datetime_str (mkdatetime (mkdate 2024 5 1) 12 0 0 5) = "2024-05-01 12:00:00.000005".
Proof. repeat split; vm_compute; reflexivity. Qed.

Example isoformat_pads : isoformat (mkdate 987 1 5) = "0987-01-05".
Proof. vm_compute. reflexivity. Qed.

(** ** Comparison functions that are total preorders *)

Section Orders.

Context {A : Type}.
Implicit Types c : A -> A -> comparison.

Lemma ord_refl c : order c -> forall a, c a a = Eq.
Proof.
  intros O a. pose proof (ord_antisym c O a a) as H.
  destruct (c a a); simpl in H; congruence.
Qed.

Lemma ord_eq_r c : order c -> forall a b d, c a b = Eq -> c d a = c d b.
Proof.
  intros O a b d H.
  rewrite (ord_antisym c O a d), (ord_antisym c O b d).
  f_equal. now apply ord_eq.
Qed.

Lemma ord_le_trans c : order c ->
  forall a b d, c a b <> Gt -> c b d <> Gt -> c a d <> Gt.
Proof.
  intros O a b d Hab Hbd.
  destruct (c a b) eqn:E1; [| |congruence].
  - now rewrite (ord_eq c O a b d E1).
  - destruct (c b d) eqn:E2; [| |congruence].
    + rewrite <- (ord_eq_r c O b d a E2). congruence.
    + rewrite (ord_lt c O a b d E1 E2). congruence.
Qed.

Lemma ord_total c : order c -> forall a b, c a b = Gt -> c b a <> Gt.
Proof.
  intros O a b H. rewrite (ord_antisym c O a b), H. simpl. congruence.
Qed.

Lemma order_flip c : order c -> order (fun a b => c b a).
Proof.
  intros O. split.
  - intros a b. apply (ord_antisym c O).
  - intros a b d H. apply (ord_eq_r c O a b d).
    rewrite (ord_antisym c O b a), H. reflexivity.
  - intros a b d H1 H2. apply (ord_lt c O d b a H2 H1).
Qed.

Lemma order_lex c1 c2 : order c1 -> order c2 ->
  order (fun a b => match c1 a b with Eq => c2 a b | r => r end).
Proof.
  intros O1 O2. split.
  - intros a b. rewrite (ord_antisym c1 O1 a b), (ord_antisym c2 O2 a b).
    destruct (c1 a b); reflexivity.
  - intros a b d H. destruct (c1 a b) eqn:E1; try discriminate.
    rewrite (ord_eq c1 O1 a b d E1), (ord_eq c2 O2 a b d H). reflexivity.
  - intros a b d H1 H2.
    destruct (c1 a b) eqn:E1; try discriminate.
    + rewrite (ord_eq c1 O1 a b d E1).
      destruct (c1 b d) eqn:E2; try discriminate; [|reflexivity].
      apply (ord_lt c2 O2 a b d H1 H2).
    + destruct (c1 b d) eqn:E2; try discriminate.
      * rewrite <- (ord_eq_r c1 O1 b d a E2), E1. reflexivity.
      * rewrite (ord_lt c1 O1 a b d E1 E2). reflexivity.
Qed.

End Orders.

Lemma order_on {A B} (f : B -> A) c : order c -> order (fun a b => c (f a) (f b)).
Proof.
  intros O. split; intros.
  - apply (ord_antisym c O).
  - now apply (ord_eq c O).
  - now apply (ord_lt c O _ (f b)).
Qed.

Lemma order_Z : order Z.compare.
Proof.
  split.
  - intros a b. apply Z.compare_antisym.
  - intros a b d H. apply Z.compare_eq in H. now subst.
  - intros a b d H1 H2. rewrite Z.compare_lt_iff in *. lia.
Qed.

Lemma order_string : order String.compare.
Proof.
  split.
  - intros a b. apply String.compare_antisym.
  - intros a b d H. apply String_as_OT.cmp_eq in H. now subst.
  - intros a b d H1 H2. apply String_as_OT.cmp_lt.
    apply String_as_OT.cmp_lt in H1, H2.
    eapply String_as_OT.lt_trans; eassumption.
Qed.

Lemma order_date : order date_compare.
Proof.
  unfold date_compare.
  apply (order_lex (fun a b => year a ?= year b)
           (fun a b => match month a ?= month b with Eq => day a ?= day b | r => r end)).
  - apply (order_on year), order_Z.
  - apply (order_lex (fun a b => month a ?= month b) (fun a b => day a ?= day b));
      [apply (order_on month) | apply (order_on day)]; apply order_Z.
Qed.

Lemma order_datetime : order datetime_compare.
Proof.
  unfold datetime_compare.
  repeat (apply (order_lex (A := datetime));
          [first [apply (order_on dt_date), order_date
                 | apply (order_on hour), order_Z
                 | apply (order_on minute), order_Z
                 | apply (order_on second), order_Z] |]).
  apply (order_on microsecond), order_Z.
Qed.

Lemma order_bson : order Bson.compare.
Proof.
  pose proof order_string as OS. pose proof order_datetime as OD.
  split.
  - intros [|x|x|x] [|y|y|y]; simpl; try reflexivity.
    + apply (ord_antisym _ OS).
    + apply (ord_antisym _ OS).
    + apply (ord_antisym _ OD).
  - intros [|x|x|x] [|y|y|y] [|z|z|z]; simpl; try discriminate; try reflexivity.
    + apply (ord_eq _ OS).
    + apply (ord_eq _ OS).
    + apply (ord_eq _ OD).
  - intros [|x|x|x] [|y|y|y] [|z|z|z]; simpl; try discriminate; try reflexivity.
    + apply (ord_lt _ OS).
    + apply (ord_lt _ OS).
    + apply (ord_lt _ OD).
Qed.

Lemma order_sort_compare spec : order (Mongo.sort_compare spec).
Proof.
  induction spec as [|[k dir] rest IH].
  - split; simpl; intros; congruence.
  - simpl.
    apply (order_lex
             (fun a b => if 0 <? dir then Bson.compare (Bson.get a k) (Bson.get b k)
                         else Bson.compare (Bson.get b k) (Bson.get a k))
             (Mongo.sort_compare rest)); [|exact IH].
    destruct (0 <? dir).
    + apply (order_on (fun d : Doc => Bson.get d k)), order_bson.
    + apply (order_on (fun d : Doc => Bson.get d k) (fun x y => Bson.compare y x)),
        order_flip, order_bson.
Qed.

(** ** The sort of the store *)


Lemma sort_le_trans spec a b d :
  Mongo.sort_le spec a b = true -> Mongo.sort_le spec b d = true ->
  Mongo.sort_le spec a d = true.
Proof.
  unfold Mongo.sort_le. intros H1 H2.
  pose proof (ord_le_trans _ (order_sort_compare spec) a b d) as T.
  destruct (Mongo.sort_compare spec a b), (Mongo.sort_compare spec b d),
    (Mongo.sort_compare spec a d); try reflexivity; try discriminate;
    exfalso; apply T; congruence.
Qed.

Lemma sort_le_total spec a b :
  Mongo.sort_le spec a b = false -> Mongo.sort_le spec b a = true.
Proof.
  unfold Mongo.sort_le. intros H.
  rewrite (ord_antisym _ (order_sort_compare spec) a b).
  destruct (Mongo.sort_compare spec a b); simpl; congruence.
Qed.

Lemma sort_insert_perm spec x l : Permutation (Mongo.sort_insert spec x l) (x :: l).
Proof.
  induction l as [|y l IH]; simpl.
  - reflexivity.
  - destruct (Mongo.sort_le spec x y).
    + reflexivity.
    + rewrite IH. apply perm_swap.
Qed.

Lemma sort_perm spec l : Permutation (Mongo.sort spec l) l.
Proof.
  induction l as [|x l IH]; simpl.
  - reflexivity.
  - rewrite sort_insert_perm. now constructor.
Qed.

Lemma sort_insert_sorted spec x l :
  sorted_by spec l -> sorted_by spec (Mongo.sort_insert spec x l).
Proof.
  unfold sorted_by. induction 1 as [|y l Hl IH Hy]; simpl.
  - constructor; constructor.
  - destruct (Mongo.sort_le spec x y) eqn:E.
    + constructor; [constructor; assumption|].
      constructor; [assumption|].
      eapply Forall_impl; [exact Hy|].
      intros z Hz. simpl in Hz. eapply sort_le_trans; eassumption.
    + constructor; [assumption|].
      eapply Permutation_Forall; [symmetry; apply sort_insert_perm|].
      constructor; [now apply sort_le_total | assumption].
Qed.

Lemma sort_sorted spec l : sorted_by spec (Mongo.sort spec l).
Proof.
  induction l as [|x l IH]; simpl.
  - constructor.
  - now apply sort_insert_sorted.
Qed.

Lemma StronglySorted_map {A B} (f : A -> B) (R : A -> A -> Prop) (R' : B -> B -> Prop) l :
  (forall a b, R a b -> R' (f a) (f b)) ->
  StronglySorted R l -> StronglySorted R' (map f l).
Proof.
  intros HR. induction 1 as [|x l Hl IH Hx]; simpl; constructor; [assumption|].
  apply List.Forall_forall. intros y Hy. apply List.in_map_iff in Hy as [z [<- Hz]].
  apply HR. rewrite List.Forall_forall in Hx. now apply Hx.
Qed.

(** ** What [serialize_announcement] keeps *)

Lemma serialize_get (d : Doc) (k : string) :
  In k ["title"; "message"; "start_date"; "end_date"; "created_at"; "updated_at"] ->
  Bson.get (serialize_announcement d) k = Bson.get d k.
Proof.
  intros H. simpl in H.
  repeat (destruct H as [<-|H]; [reflexivity|]). destruct H.
Qed.

Lemma serialize_id (d : Doc) :
  serialize_announcement d !! "id" = Some (BStr (Bson.py_str (d !! "_id"))).
Proof. reflexivity. Qed.

Lemma serialize_lookup (d : Doc) (k : string) :
  In k ["title"; "message"; "start_date"; "end_date"; "created_at"; "updated_at"] ->
  serialize_announcement d !! k = Some (Bson.get d k).
Proof.
  intros H. simpl in H.
  repeat (destruct H as [<-|H]; [reflexivity|]). destruct H.
Qed.

(** A serialized record carries the document it was made from. *)
Lemma serialize_carries (d : Doc) : carries (serialize_announcement d) d.
Proof.
  unfold carries. repeat split.
  - intros oid H. now rewrite serialize_id, H.
  - intros text H. now rewrite serialize_id, H.
  - intros t H. now rewrite serialize_id, H.
  - intros [H|H]; now rewrite serialize_id, H.
  - intros k Hk. rewrite (serialize_lookup d k Hk). unfold Bson.get.
    now destruct (d !! k).
Qed.

Lemma serialized_carry (docs : list Doc) :
  Forall2 carries (map serialize_announcement docs) docs.
Proof.
  induction docs as [|d docs IH]; simpl; constructor;
    [apply serialize_carries | exact IH].
Qed.

(** ** Decimal numerals: the order of the text is the order of the number *)

Lemma ascii_compare_code a b : Ascii.compare a b = (code a ?= code b).
Proof. unfold Ascii.compare, code. now rewrite N2Z.inj_compare. Qed.

Lemma code_digit_char n : 0 <= n <= 9 -> code (digit_char n) = 48 + n.
Proof.
  intros H. unfold code, digit_char. rewrite N_ascii_embedding.
  - rewrite Z2N.id; lia.
  - apply N2Z.inj_lt. rewrite Z2N.id; simpl; lia.
Qed.

Lemma compare_digit_cons a b r1 r2 :
  0 <= a <= 9 -> 0 <= b <= 9 ->
  String.compare (String (digit_char a) r1) (String (digit_char b) r2)
  = match a ?= b with Eq => String.compare r1 r2 | c => c end.
Proof.
  intros Ha Hb. simpl. rewrite ascii_compare_code, !code_digit_char by assumption.
  now rewrite Z.add_compare_mono_l.
Qed.

Lemma digit_bounds n k : 0 <= n -> 0 <= n / k mod 10 <= 9.
Proof. intros H. pose proof (Z.mod_pos_bound (n / k) 10). lia. Qed.


Lemma compare_tens n m (X : comparison) :
  0 <= n -> 0 <= m ->
  match n / 10 ?= m / 10 with
  | Eq => match n mod 10 ?= m mod 10 with Eq => X | c => c end
  | c => c
  end
  = match n ?= m with Eq => X | c => c end.
Proof.
  intros Hn Hm.
  pose proof (Z.div_mod n 10 ltac:(lia)). pose proof (Z.div_mod m 10 ltac:(lia)).
  pose proof (Z.mod_pos_bound n 10 ltac:(lia)).
  pose proof (Z.mod_pos_bound m 10 ltac:(lia)).
  destruct (Z.compare_spec (n / 10) (m / 10));
    destruct (Z.compare_spec (n mod 10) (m mod 10));
    destruct (Z.compare_spec n m); try reflexivity; exfalso; lia.
Qed.

Lemma compare_pad2 n m r1 r2 :
  0 <= n < 100 -> 0 <= m < 100 ->
  String.compare (pad2 n r1) (pad2 m r2)
  = match n ?= m with Eq => String.compare r1 r2 | c => c end.
Proof.
  intros Hn Hm. unfold pad2.
  rewrite !compare_digit_cons;
    try (apply (digit_bounds _ 1); lia);
    try (apply digit_bounds; lia);
    try (apply Z.mod_pos_bound; lia).
  all: try (pose proof (Z.mod_pos_bound n 10); pose proof (Z.mod_pos_bound m 10); lia).
  rewrite (Z.mod_small (n / 10)), (Z.mod_small (m / 10)).
  - apply compare_tens; lia.
  - split; [apply Z.div_pos; lia | apply Z.div_lt_upper_bound; lia].
  - split; [apply Z.div_pos; lia | apply Z.div_lt_upper_bound; lia].
Qed.

Lemma pad2_mod n r : 0 <= n -> pad2 n r = pad2 (n mod 100) r.
Proof.
  intros H. unfold pad2.
  replace (n mod 100 / 10 mod 10) with (n / 10 mod 10)
    by (Z.to_euclidean_division_equations; lia).
  replace (n mod 100 mod 10) with (n mod 10)
    by (Z.to_euclidean_division_equations; lia).
  reflexivity.
Qed.

Lemma compare_hundreds n m (X : comparison) :
  0 <= n < 10000 -> 0 <= m < 10000 ->
  match n / 1000 mod 10 ?= m / 1000 mod 10 with
  | Eq => match n / 100 mod 10 ?= m / 100 mod 10 with
          | Eq => match n mod 100 ?= m mod 100 with Eq => X | c => c end
          | c => c
          end
  | c => c
  end
  = match n ?= m with Eq => X | c => c end.
Proof.
  intros Hn Hm.
  destruct (Z.compare_spec (n / 1000 mod 10) (m / 1000 mod 10));
    destruct (Z.compare_spec (n / 100 mod 10) (m / 100 mod 10));
    destruct (Z.compare_spec (n mod 100) (m mod 100));
    destruct (Z.compare_spec n m); try reflexivity; exfalso;
    Z.to_euclidean_division_equations; lia.
Qed.

Lemma compare_pad4 n m r1 r2 :
  0 <= n < 10000 -> 0 <= m < 10000 ->
  String.compare (pad4 n r1) (pad4 m r2)
  = match n ?= m with Eq => String.compare r1 r2 | c => c end.
Proof.
  intros Hn Hm. unfold pad4.
  rewrite !compare_digit_cons by (apply digit_bounds; lia).
  rewrite (pad2_mod n), (pad2_mod m) by lia.
  rewrite compare_pad2 by (split; [apply Z.mod_pos_bound | apply Z.mod_pos_bound]; lia).
  apply compare_hundreds; assumption.
Qed.

Lemma compare_same_head c r1 r2 :
  String.compare (String c r1) (String c r2) = String.compare r1 r2.
Proof. simpl. now rewrite ascii_compare_code, Z.compare_refl. Qed.

Lemma valid_date_bounds d :
  valid_date d ->
  1 <= year d <= 9999 /\ 1 <= month d <= 12 /\ 1 <= day d <= 31
  /\ day d <= days_in_month (year d) (month d).
Proof.
  unfold valid_date, valid_dateb. intros H.
  repeat (apply andb_prop in H as [H ?]).
  assert (days_in_month (year d) (month d) <= 31).
  { unfold days_in_month.
    repeat match goal with |- context [if ?b then _ else _] => destruct b end; lia. }
  lia.
Qed.

(** On the texts [isoformat] writes, the order of the store is the order
    of the calendar. *)
Lemma isoformat_compare a b :
  valid_date a -> valid_date b ->
  String.compare (isoformat a) (isoformat b) = date_compare a b.
Proof.
  intros Ha Hb. apply valid_date_bounds in Ha, Hb.
  unfold isoformat, date_compare.
  rewrite compare_pad4 by lia. destruct (year a ?= year b); try reflexivity.
  rewrite compare_same_head, compare_pad2 by lia.
  destruct (month a ?= month b); try reflexivity.
  rewrite compare_same_head, compare_pad2 by lia.
  destruct (day a ?= day b); reflexivity.
Qed.

(** ** Equality of BSON values and lookups by [_id] *)

Lemma date_compare_eq a b : date_compare a b = Eq -> a = b.
Proof.
  destruct a as [y m d], b as [y' m' d']. unfold date_compare. simpl.
  destruct (Z.compare_spec y y'); try discriminate.
  destruct (Z.compare_spec m m'); try discriminate.
  destruct (Z.compare_spec d d'); try discriminate.
  intros _. congruence.
Qed.

Lemma datetime_compare_eq a b : datetime_compare a b = Eq -> a = b.
Proof.
  destruct a as [da h mi s us], b as [da' h' mi' s' us']. unfold datetime_compare. simpl.
  destruct (date_compare da da') eqn:E; try discriminate.
  apply date_compare_eq in E.
  destruct (Z.compare_spec h h'); try discriminate.
  destruct (Z.compare_spec mi mi'); try discriminate.
  destruct (Z.compare_spec s s'); try discriminate.
  destruct (Z.compare_spec us us'); try discriminate.
  intros _. congruence.
Qed.

Lemma bson_eqb_eq a b : Bson.eqb a b = true <-> a = b.
Proof.
  unfold Bson.eqb. split.
  - destruct (Bson.compare a b) eqn:E; try discriminate. intros _.
    destruct a, b; simpl in E; try discriminate; try reflexivity.
    + apply String_as_OT.cmp_eq in E. congruence.
    + apply String_as_OT.cmp_eq in E. congruence.
    + apply datetime_compare_eq in E. congruence.
  - intros <-. now rewrite (ord_refl _ order_bson).
Qed.

Lemma matches_by_id v d :
  v <> BNull -> Mongo.matches (Mongo.by_id v) d = true <-> d !! "_id" = Some v.
Proof.
  intros Hv. simpl. rewrite andb_true_r.
  destruct (d !! "_id") as [x|]; simpl.
  - rewrite bson_eqb_eq. split; congruence.
  - destruct v; try congruence; simpl; split; discriminate.
Qed.

Lemma find_one_by_id_none v c :
  v <> BNull ->
  Mongo.find_one (Mongo.by_id v) c = None
  <-> forall d, In d c -> d !! "_id" <> Some v.
Proof.
  intros Hv. unfold Mongo.find_one. split.
  - intros H d Hd E. apply (matches_by_id v d Hv) in E.
    pose proof (List.find_none _ _ H d Hd). congruence.
  - intros H. destruct (List.find _ c) as [d|] eqn:E; [|reflexivity].
    apply List.find_some in E as [Hd Hm].
    apply (matches_by_id v d Hv) in Hm. now apply H in Hm.
Qed.

Lemma find_one_by_id_some v c d :
  v <> BNull -> In d c -> d !! "_id" = Some v ->
  exists d', Mongo.find_one (Mongo.by_id v) c = Some d' /\ In d' c /\ d' !! "_id" = Some v.
Proof.
  intros Hv Hd E. unfold Mongo.find_one.
  destruct (List.find _ c) as [d'|] eqn:F.
  - apply List.find_some in F as [Hd' Hm]. exists d'. repeat split; [assumption|].
    now apply (matches_by_id v d' Hv).
  - pose proof (List.find_none _ _ F d Hd) as N.
    apply (matches_by_id v d Hv) in E. congruence.
Qed.

Lemma not_doc_with_id (d : Doc) v : d !! "_id" = Some v -> not_doc (Some d) = false.
Proof.
  intros H. unfold not_doc. apply bool_decide_eq_false. intros E.
  apply map_to_list_empty_iff in E. subst d. now rewrite lookup_empty in H.
Qed.

(** ** The teacher check *)




Lemma require_teacher_cases u w : require_teacher_spec u w (require_teacher u w).
Proof.
  destruct u as [[|c n]|]; try (apply rt_missing; reflexivity).
  unfold require_teacher, mbind, M_bind, Store.teachers_find_one, store_call.
  fold (after_call TeachersFindOne w).
  destruct (hd None (faults w)) as [text|] eqn:F.
  - eapply rt_fault; [reflexivity|discriminate|exact F].
  - destruct (Mongo.find_one _ (teachers_collection (after_call TeachersFindOne w)))
      as [t|] eqn:E.
    + simpl in E. unfold Mongo.find_one in E.
      apply List.find_some in E as [Ht Hm].
      apply matches_by_id in Hm; [|discriminate].
      rewrite (not_doc_with_id t _ Hm).
      eapply rt_known; [reflexivity|discriminate|exact F|exact Ht|exact Hm].
    + eapply rt_unknown; [reflexivity|discriminate|exact F|].
      intros [t [Ht Hid]]. simpl in E.
      assert (Hne : BStr (String c n) <> BNull) by discriminate.
      pose proof (proj1 (find_one_by_id_none _ _ Hne) E) as E'. now apply (E' t).
Qed.

Lemma require_teacher_known n w :
  n <> "" -> hd None (faults w) = None -> known_teacher n w ->
  exists t, require_teacher (Some n) w = (Return t, after_call TeachersFindOne w)
            /\ In t (teachers_collection w) /\ t !! "_id" = Some (BStr n).
Proof.
  intros Hn Hf Hk.
  destruct (require_teacher_cases (Some n) w) as [H|m text E _ F|m E _ _ U|m t E _ _ Ht Hid];
    try (injection E as <-).
  - destruct n; [congruence|discriminate].
  - congruence.
  - contradiction.
  - eauto.
Qed.

Lemma require_teacher_unknown n w :
  n <> "" -> hd None (faults w) = None -> ~ known_teacher n w ->
  require_teacher (Some n) w
  = (Raise (HTTPException 401 "Invalid teacher credentials"), after_call TeachersFindOne w).
Proof.
  intros Hn Hf Hk.
  destruct (require_teacher_cases (Some n) w) as [H|m text E _ F|m E _ _ U|m t E _ _ Ht Hid];
    try (injection E as <-).
  - destruct n; [congruence|discriminate].
  - congruence.
  - reflexivity.
  - exfalso. apply Hk. exists t. auto.
Qed.

Lemma require_teacher_missing u w :
  not_str u = true ->
  require_teacher u w = (Raise (HTTPException 401 "Authentication required"), w).
Proof. destruct u as [[|c n]|]; try discriminate; reflexivity. Qed.

Lemma require_teacher_authenticated u w :
  authenticated u w ->
  exists t, require_teacher u w = (Return t, after_call TeachersFindOne w).
Proof.
  intros [n [-> [Hn [Hf Hk]]]].
  destruct (require_teacher_known n w Hn Hf Hk) as [t [E _]]. eauto.
Qed.

(** Runs an endpoint up to the outcome [E] of its teacher check. *)
Ltac enter_endpoint E :=
  unfold serve, create_announcement, update_announcement, delete_announcement,
    list_announcements, mbind, M_bind;
  rewrite E; unfold lift.

(** C6.  A request to listAll, create, update or delete whose teacher
    identifier is missing ([None] or empty) fails with 401 and leaves the
    world as it was: no store call at all.  When the identifier is given
    and the teacher lookup goes through without finding a record, the
    request fails with 401 and the only store call made is that lookup, so
    no announcement was read or written.  When the lookup finds a record,
    the check passes whatever else the record holds: existence is all that
    is verified. *)
Theorem unauthorized_before_any_announcement_call (op : operation)
    (u : option string) (w : World) :
  teacher_of op = Some u ->
  (not_str u = true ->
   serve op w = (Raise (HTTPException 401 "Authentication required"), w))
  /\ (forall n, u = Some n -> n <> "" -> hd None (faults w) = None ->
      (~ known_teacher n w ->
       serve op w = (Raise (HTTPException 401 "Invalid teacher credentials"),
                     after_call TeachersFindOne w))
      /\ (known_teacher n w ->
          exists t, require_teacher u w = (Return t, after_call TeachersFindOne w)
                    /\ In t (teachers_collection w))).
Proof.
  intros Hop. split.
  - intros Hu. pose proof (require_teacher_missing u w Hu) as E.
    destruct op; simpl in Hop; try discriminate; injection Hop as ->;
      enter_endpoint E; reflexivity.
  - intros n -> Hn Hf. split.
    + intros Hk. pose proof (require_teacher_unknown n w Hn Hf Hk) as E.
      destruct op; simpl in Hop; try discriminate; injection Hop as ->;
        enter_endpoint E; reflexivity.
    + intros Hk. destruct (require_teacher_known n w Hn Hf Hk) as [t [E [Ht _]]].
      eauto.
Qed.

Lemma unauthorized_witness :
  serve (Delete "aaaaaaaaaaaaaaaaaaaaaaaa" (Some "ghost")) Sample.world
  = (Raise (HTTPException 401 "Invalid teacher credentials"),
     after_call TeachersFindOne Sample.world).
Proof.
  destruct (unauthorized_before_any_announcement_call
              (Delete "aaaaaaaaaaaaaaaaaaaaaaaa" (Some "ghost")) (Some "ghost")
              Sample.world eq_refl) as [_ H].
  apply (H "ghost"); [reflexivity | discriminate | reflexivity |].
  intros [t [[<-|[]] Hid]]. vm_compute in Hid. discriminate.
Defined.

Lemma authenticated_sample : authenticated (Some "t1") Sample.world.
Proof.
  exists "t1". repeat split; [discriminate|].
  exists Sample.teacher. split; [now left | reflexivity].
Qed.

(** ** Validation of the dates *)


(** C2.  When the teacher check passes and both dates parse with the start
    strictly after the end, create and update (for any identifier) raise
    400 "start_date must be on or before end_date", whatever the title and
    message are.  The world they leave differs from the initial one only
    by the recorded teacher lookup: no announcement call was made and the
    collection is the same. *)
Theorem start_after_end_is_invalid_input (env : Env) (announcement_id : string)
    (p : AnnouncementPayload) (u : option string) (w : World) (s e : date) :
  authenticated u w ->
  parse_date (start_date p) "start_date" = Return (Some s) ->
  parse_date (Some (end_date p)) "end_date" = Return (Some e) ->
  date_compare s e = Gt ->
  create_announcement env p u w
  = (Raise (HTTPException 400 "start_date must be on or before end_date"),
     after_call TeachersFindOne w)
  /\ update_announcement env announcement_id p u w
     = (Raise (HTTPException 400 "start_date must be on or before end_date"),
        after_call TeachersFindOne w)
  /\ announcements_collection (after_call TeachersFindOne w)
     = announcements_collection w.
Proof.
  intros Hu Hs He Hgt. destruct (require_teacher_authenticated u w Hu) as [t E].
  repeat split; enter_endpoint E; rewrite Hs, He;
    unfold validate_date_range, date_gt; rewrite Hgt; reflexivity.
Qed.

Lemma start_after_end_witness :
  create_announcement Sample.env Sample.backwards (Some "t1") Sample.world
  = (Raise (HTTPException 400 "start_date must be on or before end_date"),
     after_call TeachersFindOne Sample.world).
Proof.
  apply (start_after_end_is_invalid_input Sample.env "aaaaaaaaaaaaaaaaaaaaaaaa"
           Sample.backwards (Some "t1") Sample.world
           (mkdate 2024 5 11) (mkdate 2024 5 10)).
  - exact authenticated_sample.
  - vm_compute. reflexivity.
  - vm_compute. reflexivity.
  - reflexivity.
Defined.

Lemma parse_date_some v f d :
  parse_date v f = Return (Some d) ->
  exists text, v = Some text /\ text <> [] /\ Strptime.strptime text DATE_FORMAT = Some d.
Proof.
  unfold parse_date. destruct v as [[|c text]|]; try discriminate.
  destruct (Strptime.strptime _ _) as [d'|] eqn:E; try discriminate.
  intros [= <-]. exists (c :: text). repeat split; [discriminate | assumption].
Qed.

(** The dates are validated before any announcement call: an endpoint
    that made a write call had an [end_date] that parsed. *)
Lemma write_call_needs_end_date (p : AnnouncementPayload) (u : option string)
    (w : World) (k : date -> option date -> M Doc) :
  calls w = [] ->
  existsb is_write
    (calls (snd ((_ ← require_teacher u;
                  start ← lift (parse_date (start_date p) "start_date");
                  end_ ← lift (parse_date (Some (end_date p)) "end_date");
                  match end_ with
                  | None => raise (HTTPException 400 "end_date is required")
                  | Some e => k e start
                  end) w))) = true ->
  exists d, parse_date (Some (end_date p)) "end_date" = Return (Some d).
Proof.
  intros Hc H. unfold mbind, M_bind, lift, raise in H.
  destruct (parse_date (Some (end_date p)) "end_date") as [[d|]|x] eqn:Pe;
    [now exists d | |].
  all: pose proof (require_teacher_cases u w) as C;
    destruct (require_teacher u w) as [r w1];
    inversion C; subst; simpl in H; rewrite ?Hc in H; try discriminate;
    destruct (parse_date (start_date p) "start_date") as [s|y];
    simpl in H; rewrite ?Hc in H; discriminate.
Qed.

Lemma validate_payload_some (body : Body) (p : AnnouncementPayload) :
  validate_payload body = Some p ->
  body_title body = Some (title p) /\ body_message body = Some (message p)
  /\ body_start_date body = start_date p /\ body_end_date body = Some (end_date p)
  /\ payload_fieldsb p = true.
Proof.
  unfold validate_payload.
  destruct (body_title body) as [t|]; [|discriminate].
  destruct (body_message body) as [m|]; [|discriminate].
  destruct (body_end_date body) as [e|]; [|discriminate].
  destruct (payload_fieldsb _) eqn:F; [|discriminate].
  intros [= <-]. repeat split. exact F.
Qed.

(** C4, as the routes have it.  A payload always has an [end_date]: the
    model class declares the field required, so a body that gives none
    (the key missing or null) is refused before the endpoint runs and POST
    and PUT answer 422, whoever asks and whatever the store holds; a body
    the model class accepts gives its [end_date] string to the endpoint.
    When the teacher check passes and that string is empty, create and
    update raise 400 and leave the world with the teacher lookup as the
    only store call; the detail is "end_date is required" when the
    start_date is accepted.  And whenever create or update (any
    identifier, any teacher, any world with an empty call log) went as far
    as a write call to the announcement collection, [end_date] was a text
    that [strptime] reads as a date under [DATE_FORMAT]. *)
Theorem end_date_is_required (env : Env) (announcement_id : string)
    (p : AnnouncementPayload) (u : option string) (w : World) :
  (forall body, body_end_date body = None ->
     post_announcement env body u w = Unprocessable
     /\ put_announcement env announcement_id body u w = Unprocessable)
  /\ (forall body, validate_payload body = Some p ->
        body_end_date body = Some (end_date p)
        /\ post_announcement env body u w = Ran (create_announcement env p u w)
        /\ put_announcement env announcement_id body u w
           = Ran (update_announcement env announcement_id p u w))
  /\ (authenticated u w -> end_date p = [] ->
      (exists detail,
         create_announcement env p u w
         = (Raise (HTTPException 400 detail), after_call TeachersFindOne w))
      /\ (exists detail,
            update_announcement env announcement_id p u w
            = (Raise (HTTPException 400 detail), after_call TeachersFindOne w))
      /\ (forall s, parse_date (start_date p) "start_date" = Return s ->
            create_announcement env p u w
            = (Raise (HTTPException 400 "end_date is required"),
               after_call TeachersFindOne w)
            /\ update_announcement env announcement_id p u w
               = (Raise (HTTPException 400 "end_date is required"),
                  after_call TeachersFindOne w)))
  /\ (calls w = [] ->
      existsb is_write (calls (snd (create_announcement env p u w))) = true
      \/ existsb is_write
           (calls (snd (update_announcement env announcement_id p u w))) = true ->
      exists d, Strptime.strptime (end_date p) DATE_FORMAT = Some d).
Proof.
  split; [|split; [|split]].
  - intros body Hb. unfold post_announcement, put_announcement, validate_payload.
    rewrite Hb. destruct (body_title body), (body_message body); split; reflexivity.
  - intros body Hb. unfold post_announcement, put_announcement. rewrite Hb.
    apply validate_payload_some in Hb as (_ & _ & _ & He & _). repeat split. exact He.
  - intros Hu He. destruct (require_teacher_authenticated u w Hu) as [t E].
    assert (Pe : parse_date (Some (end_date p)) "end_date" = Return None)
      by now rewrite He.
    split; [|split].
    + enter_endpoint E. rewrite Pe.
      destruct (parse_date (start_date p) "start_date") as [s|[st de|x]] eqn:Ps;
        try (eexists; reflexivity).
      all: destruct (start_date p) as [[|c text]|]; try discriminate;
        simpl in Ps; destruct (Strptime.strptime _ _); try discriminate;
        injection Ps as <- <-; eexists; reflexivity.
    + enter_endpoint E. rewrite Pe.
      destruct (parse_date (start_date p) "start_date") as [s|[st de|x]] eqn:Ps;
        try (eexists; reflexivity).
      all: destruct (start_date p) as [[|c text]|]; try discriminate;
        simpl in Ps; destruct (Strptime.strptime _ _); try discriminate;
        injection Ps as <- <-; eexists; reflexivity.
    + intros s Ps. split; enter_endpoint E; rewrite Ps, Pe; reflexivity.
  - intros Hc [H|H].
    + apply write_call_needs_end_date in H as [d Hd]; [|assumption].
      apply parse_date_some in Hd as [text [[= <-] [_ ?]]]. eauto.
    + apply write_call_needs_end_date in H as [d Hd]; [|assumption].
      apply parse_date_some in Hd as [text [[= <-] [_ ?]]]. eauto.
Qed.

Lemma end_date_required_witness :
  (post_announcement Sample.env Sample.body_without_end_date (Some "t1") Sample.world
   = Unprocessable)
  /\ (exists detail,
        create_announcement Sample.env (mkPayload "Exam" "Midterm Friday" None [])
          (Some "t1") Sample.world
        = (Raise (HTTPException 400 detail), after_call TeachersFindOne Sample.world))
  /\ (exists d, Strptime.strptime (end_date Sample.payload) DATE_FORMAT = Some d).
Proof.
  split; [|split].
  - destruct (end_date_is_required Sample.env "aaaaaaaaaaaaaaaaaaaaaaaa"
                Sample.payload (Some "t1") Sample.world) as [H _].
    destruct (H Sample.body_without_end_date eq_refl) as [Hp _]. exact Hp.
  - destruct (end_date_is_required Sample.env "aaaaaaaaaaaaaaaaaaaaaaaa"
                (mkPayload "Exam" "Midterm Friday" None [])
                (Some "t1") Sample.world) as [_ [_ [H _]]].
    destruct (H authenticated_sample eq_refl) as [Hc _]. exact Hc.
  - destruct (end_date_is_required Sample.env "aaaaaaaaaaaaaaaaaaaaaaaa"
                Sample.payload (Some "t1") Sample.world) as [_ [_ [_ H]]].
    apply H; [reflexivity | left; vm_compute; reflexivity].
Defined.

(** C4 as stated fails on a body without end_date: the route answers 422
    and neither create nor update runs, so there is no 400; the same body
    with the empty string for end_date reaches the endpoint, which raises
    the 400. *)
Lemma absent_end_date_is_unprocessable :
  body_end_date Sample.body_without_end_date = None
  /\ post_announcement Sample.env Sample.body_without_end_date (Some "t1") Sample.world
     = Unprocessable
  /\ put_announcement Sample.env "aaaaaaaaaaaaaaaaaaaaaaaa" Sample.body_without_end_date
       (Some "t1") Sample.world
     = Unprocessable
  /\ post_announcement Sample.env
       (mkBody (Some "Exam") (Some "Midterm Friday") None (Some []))
       (Some "t1") Sample.world
     = Ran (Raise (HTTPException 400 "end_date is required"),
            after_call TeachersFindOne Sample.world).
Proof. repeat split. Qed.

(** ** Identifiers that resolve to no record *)

Lemma update_one_no_match q fields c :
  (forall d, In d c -> Mongo.matches q d = false) ->
  Mongo.update_one q fields c = (c, 0).
Proof.
  induction c as [|d c IH]; intros H; simpl.
  - reflexivity.
  - rewrite (H d (or_introl eq_refl)), IH; [reflexivity|].
    intros d' Hd'. apply H. now right.
Qed.

Lemma no_match_by_id v c :
  v <> BNull -> (forall d, In d c -> d !! "_id" <> Some v) ->
  forall d, In d c -> Mongo.matches (Mongo.by_id v) d = false.
Proof.
  intros Hv H d Hd. destruct (Mongo.matches (Mongo.by_id v) d) eqn:E; [|reflexivity].
  apply (matches_by_id v d Hv) in E. now apply H in E.
Qed.

Lemma world_eta w :
  mkWorld (announcements_collection w) (teachers_collection w) (faults w) (calls w) = w.
Proof. now destruct w. Qed.

(** C5.  When the teacher check passes, the dates of the payload are
    accepted, the identifier is a well-formed [ObjectId] that no record of
    the collection carries, and the second store call goes through, update
    raises 404 "Announcement not found" after the teacher lookup and one
    [update_one] that matched nothing, and delete raises the same after
    the teacher lookup and one [find_one]; the collection is the same in
    the worlds they leave. *)
Theorem unknown_id_is_not_found (env : Env) (announcement_id : string)
    (p : AnnouncementPayload) (u : option string) (w : World)
    (s : option date) (e : date) (oid : string) :
  authenticated u w ->
  hd None (tl (faults w)) = None ->
  accepted_dates p s e ->
  ObjectId announcement_id = Some oid ->
  (forall d, In d (announcements_collection w) -> d !! "_id" <> Some (BOid oid)) ->
  update_announcement env announcement_id p u w
  = (Raise (HTTPException 404 "Announcement not found"),
     after_call AnnouncementsUpdateOne (after_call TeachersFindOne w))
  /\ delete_announcement announcement_id u w
     = (Raise (HTTPException 404 "Announcement not found"),
        after_call AnnouncementsFindOne (after_call TeachersFindOne w))
  /\ announcements_collection
       (after_call AnnouncementsUpdateOne (after_call TeachersFindOne w))
     = announcements_collection w
  /\ announcements_collection
       (after_call AnnouncementsFindOne (after_call TeachersFindOne w))
     = announcements_collection w.
Proof.
  intros Hu Hf [Ps [Pe Pv]] Ho Hid.
  destruct (require_teacher_authenticated u w Hu) as [t E].
  assert (Hne : BOid oid <> BNull) by discriminate.
  repeat split.
  - enter_endpoint E. rewrite Ps, Pe, Pv, Ho.
    unfold except_HTTPException_reraise, mbind, M_bind,
      Store.announcements_update_one, store_call.
    cbn [faults after_call]. rewrite Hf.
    cbn [announcements_collection].
    rewrite (update_one_no_match _ _ _ (no_match_by_id _ _ Hne Hid)).
    reflexivity.
  - enter_endpoint E. rewrite Ho.
    unfold except_HTTPException_reraise, mbind, M_bind,
      Store.announcements_find_one, store_call.
    cbn [faults after_call]. rewrite Hf.
    cbn [announcements_collection after_call].
    rewrite (proj2 (find_one_by_id_none _ _ Hne) Hid). reflexivity.
Qed.

Lemma unknown_id_witness :
  update_announcement Sample.env "cccccccccccccccccccccccc" Sample.payload
    (Some "t1") Sample.world
  = (Raise (HTTPException 404 "Announcement not found"),
     after_call AnnouncementsUpdateOne (after_call TeachersFindOne Sample.world))
  /\ delete_announcement "cccccccccccccccccccccccc" (Some "t1") Sample.world
     = (Raise (HTTPException 404 "Announcement not found"),
        after_call AnnouncementsFindOne (after_call TeachersFindOne Sample.world)).
Proof.
  destruct (unknown_id_is_not_found Sample.env "cccccccccccccccccccccccc"
              Sample.payload (Some "t1") Sample.world None (mkdate 2024 5 10)
              "cccccccccccccccccccccccc") as [H1 [H2 _]].
  - exact authenticated_sample.
  - reflexivity.
  - repeat split; vm_compute; reflexivity.
  - vm_compute. reflexivity.
  - intros d [<-|[<-|[]]]; vm_compute; discriminate.
  - split; assumption.
Defined.

(** ** What an update touches *)

Lemma update_one_matched q fields c c' n :
  Mongo.update_one q fields c = (c', n) -> n <> 0 ->
  exists before d after,
    c = (before ++ d :: after)%list
    /\ (forall x, In x before -> Mongo.matches q x = false)
    /\ Mongo.matches q d = true
    /\ c' = (before ++ ((Bson.encode <$> fields) ∪ d) :: after)%list.
Proof.
  revert c' n. induction c as [|x c IH]; intros c' n H Hn; simpl in H.
  - injection H as <- <-. congruence.
  - destruct (Mongo.matches q x) eqn:Hx.
    + injection H as <- <-. exists [], x, c. repeat split; [intros y []|assumption].
    + destruct (Mongo.update_one q fields c) as [r m] eqn:Hr.
      injection H as <- <-.
      destruct (IH r m eq_refl Hn) as [before [d [after [-> [Hb [Hd ->]]]]]].
      exists (x :: before), d, after. repeat split; [|assumption].
      intros y [<-|Hy]; [assumption | now apply Hb].
Qed.

Lemma set_fields_elsewhere (fields d : Doc) (k : string) :
  fields !! k = None -> ((Bson.encode <$> fields) ∪ d) !! k = d !! k.
Proof.
  intros H. apply lookup_union_r. now rewrite lookup_fmap, H.
Qed.

(** C10.  When update returns a record, the identifier was a well-formed
    [ObjectId], the collection held a first record [d] with that [_id],
    and the collection afterwards is the same list with [d] replaced by a
    record [d'] that agrees with [d] on every field outside title,
    message, start_date, end_date and updated_at, in particular on [_id]
    and created_at; the records before and after it, and the teachers, are
    the same.  The new title and message are the trimmed ones of the
    payload. *)
Theorem update_touches_only_content_fields (env : Env) (announcement_id : string)
    (p : AnnouncementPayload) (u : option string) (w w' : World) (r : Doc) :
  update_announcement env announcement_id p u w = (Return r, w') ->
  exists oid before d after d',
    ObjectId announcement_id = Some oid
    /\ announcements_collection w = (before ++ d :: after)%list
    /\ d !! "_id" = Some (BOid oid)
    /\ (forall x, In x before -> x !! "_id" <> Some (BOid oid))
    /\ announcements_collection w' = (before ++ d' :: after)%list
    /\ (forall k, ~ In k content_fields -> d' !! k = d !! k)
    /\ d' !! "_id" = d !! "_id"
    /\ d' !! "created_at" = d !! "created_at"
    /\ d' !! "title" = Some (BStr (strip (title p)))
    /\ d' !! "message" = Some (BStr (strip (message p)))
    /\ teachers_collection w' = teachers_collection w.
Proof.
  intros H. unfold update_announcement, mbind, M_bind, lift, raise in H.
  pose proof (require_teacher_cases u w) as C.
  destruct (require_teacher u w) as [rt w1].
  inversion C; subst; try discriminate.
  destruct (parse_date (start_date p) "start_date") as [s|x]; try discriminate.
  destruct (parse_date (Some (end_date p)) "end_date") as [[e|]|x]; try discriminate.
  destruct (validate_date_range s e) as [[]|x]; try discriminate.
  destruct (ObjectId announcement_id) as [oid|]; try discriminate.
  unfold except_HTTPException_reraise, mbind, M_bind,
    Store.announcements_update_one, Store.announcements_find_one, store_call, raise in H.
  cbn [faults after_call announcements_collection teachers_collection calls] in H.
  destruct (hd None (tl (faults w))) as [text|]; try discriminate.
  destruct (Mongo.update_one _ _ (announcements_collection w)) as [c m] eqn:Hupd.
  destruct (m =? 0) eqn:Hm; try discriminate.
  cbn [faults after_call announcements_collection teachers_collection calls
       set_announcements] in H.
  destruct (hd None (tl (tl (faults w)))) as [text|]; try discriminate.
  destruct (Mongo.find_one _ c) as [found|]; try discriminate.
  destruct (not_doc (Some found)); try discriminate.
  injection H as _ <-.
  apply Z.eqb_neq in Hm.
  destruct (update_one_matched _ _ _ _ _ Hupd Hm) as [before [d [after [Hc [Hb [Hd ->]]]]]].
  assert (Hne : BOid oid <> BNull) by discriminate.
  apply (matches_by_id _ _ Hne) in Hd.
  eexists oid, before, d, after, _.
  split; [reflexivity|]. split; [exact Hc|]. split; [exact Hd|].
  split.
  { intros x Hx E. apply (matches_by_id _ _ Hne) in E. rewrite (Hb x Hx) in E.
    discriminate. }
  split; [reflexivity|].
  split.
  { intros k Hk. apply set_fields_elsewhere.
    unfold content_fields in Hk. simpl in Hk.
    rewrite !list_to_map_cons, list_to_map_nil.
    rewrite !lookup_insert_ne by (intros <-; tauto). apply lookup_empty. }
  split; [apply set_fields_elsewhere; reflexivity|].
  split; [apply set_fields_elsewhere; reflexivity|].
  split; [apply lookup_union_Some_l; rewrite lookup_fmap; reflexivity|].
  split; [apply lookup_union_Some_l; rewrite lookup_fmap; reflexivity|].
  reflexivity.
Qed.

Lemma returned_pair {A} (m : outcome A * World) :
  is_return (fst m) = true -> exists r, m = (Return r, snd m).
Proof. destruct m as [[r|e] w]; [eauto | discriminate]. Qed.

Lemma update_frame_witness :
  exists oid before d after d',
    ObjectId "aaaaaaaaaaaaaaaaaaaaaaaa" = Some oid
    /\ announcements_collection Sample.world = (before ++ d :: after)%list
    /\ d !! "_id" = Some (BOid oid)
    /\ (forall x, In x before -> x !! "_id" <> Some (BOid oid))
    /\ announcements_collection
         (snd (update_announcement Sample.env "aaaaaaaaaaaaaaaaaaaaaaaa"
                 Sample.revised (Some "t1") Sample.world))
       = (before ++ d' :: after)%list
    /\ (forall k, ~ In k content_fields -> d' !! k = d !! k)
    /\ d' !! "_id" = d !! "_id"
    /\ d' !! "created_at" = d !! "created_at"
    /\ d' !! "title" = Some (BStr (strip (title Sample.revised)))
    /\ d' !! "message" = Some (BStr (strip (message Sample.revised)))
    /\ teachers_collection
         (snd (update_announcement Sample.env "aaaaaaaaaaaaaaaaaaaaaaaa"
                 Sample.revised (Some "t1") Sample.world))
       = teachers_collection Sample.world.
Proof.
  destruct (returned_pair (update_announcement Sample.env "aaaaaaaaaaaaaaaaaaaaaaaa"
                             Sample.revised (Some "t1") Sample.world)) as [r E].
  - vm_compute. reflexivity.
  - exact (update_touches_only_content_fields _ _ _ _ _ _ r E).
Defined.

(** ** The two listings *)

Lemma bson_compare_flip a b : Bson.compare b a = CompOpp (Bson.compare a b).
Proof. apply (ord_antisym _ order_bson). Qed.

Lemma sort_le_management a b :
  Mongo.sort_le management_order a b = true <-> end_desc_then_start_desc a b.
Proof.
  unfold Mongo.sort_le, management_order, end_desc_then_start_desc. simpl.
  rewrite (bson_compare_flip (Bson.get a "end_date")),
    (bson_compare_flip (Bson.get a "start_date")).
  destruct (Bson.compare (Bson.get a "end_date") (Bson.get b "end_date"));
    destruct (Bson.compare (Bson.get a "start_date") (Bson.get b "start_date"));
    simpl; split; intros; try congruence; tauto.
Qed.

Lemma sort_le_active a b :
  Mongo.sort_le active_order a b = true <-> start_asc_then_created_desc a b.
Proof.
  unfold Mongo.sort_le, active_order, start_asc_then_created_desc. simpl.
  rewrite (bson_compare_flip (Bson.get a "created_at")).
  destruct (Bson.compare (Bson.get a "start_date") (Bson.get b "start_date"));
    destruct (Bson.compare (Bson.get a "created_at") (Bson.get b "created_at"));
    simpl; split; intros; try congruence; tauto.
Qed.

Lemma serialized_sorted spec (R : Doc -> Doc -> Prop) l :
  (forall k dir, In (k, dir) spec ->
     In k ["title"; "message"; "start_date"; "end_date"; "created_at"; "updated_at"]) ->
  (forall a b, Mongo.sort_le spec a b = true <-> R a b) ->
  StronglySorted R (map serialize_announcement (Mongo.sort spec l)).
Proof.
  intros Hk HR.
  apply (StronglySorted_map serialize_announcement
           (fun a b => Mongo.sort_le spec a b = true)); [|apply sort_sorted].
  intros a b Hab. apply HR.
  assert (E : Mongo.sort_compare spec (serialize_announcement a) (serialize_announcement b)
              = Mongo.sort_compare spec a b).
  { clear HR Hab. induction spec as [|[k dir] rest IH]; [reflexivity|].
    simpl. rewrite !serialize_get by (apply (Hk k dir); now left).
    rewrite IH; [reflexivity|]. intros k' dir' H'. apply (Hk k' dir'). now right. }
  unfold Mongo.sort_le. now rewrite E.
Qed.

Lemma filter_everything (c : list Doc) : List.filter (Mongo.matches (Mongo.And [])) c = c.
Proof.
  induction c as [|d c IH]; [reflexivity|].
  change (d :: List.filter (Mongo.matches (Mongo.And [])) c = d :: c). now rewrite IH.
Qed.

Lemma StronglySorted_impl {A} (R R' : A -> A -> Prop) l :
  (forall a b, R a b -> R' a b) -> StronglySorted R l -> StronglySorted R' l.
Proof.
  intros HR. induction 1 as [|x l Hl IH Hx]; constructor; [assumption|].
  eapply List.Forall_impl; [|exact Hx]. intros y. apply HR.
Qed.

Lemma isoformat_not_empty d : exists c r, isoformat d = String c r.
Proof. eexists _, _. reflexivity. Qed.

Lemma date_compare_refl a : date_compare a a = Eq.
Proof. apply (ord_refl _ order_date). Qed.

Lemma date_le_flip a b : date_compare a b <> Lt -> date_le b a.
Proof.
  unfold date_le. rewrite (ord_antisym _ order_date a b).
  destruct (date_compare a b); simpl; congruence.
Qed.

Lemma get_some (d : Doc) (k : string) (v : bson) : d !! k = Some v -> Bson.get d k = v.
Proof. unfold Bson.get. now intros ->. Qed.

(** What the store reads where a dated record has no start date. *)
Lemma no_start_date_reads (d : Doc) :
  absent_or_empty (d !! "start_date") = true ->
  Bson.get d "start_date" = BNull \/ Bson.get d "start_date" = BStr "".
Proof.
  unfold Bson.get.
  destruct (d !! "start_date") as [[|[|c r]|h|t]|]; simpl; try discriminate; auto.
Qed.

(** On dated records the order of listAll is the one of the calendar. *)
Lemma management_order_on_calendar a b :
  end_desc_then_start_desc a b -> later_end_first a b.
Proof.
  intros H sa ea sb eb (Ea & Va & Sa) (Eb & Vb & Sb).
  unfold end_desc_then_start_desc in H.
  rewrite (get_some _ _ _ Ea), (get_some _ _ _ Eb) in H.
  cbn [Bson.compare] in H. rewrite (isoformat_compare ea eb Va Vb) in H.
  destruct (date_compare ea eb) eqn:C; [| destruct H |].
  - apply date_compare_eq in C. subst eb. split.
    + unfold date_le. now rewrite date_compare_refl.
    + intros _. destruct sa as [x|], sb as [y|]; try exact I.
      * destruct Sa as [Sa Vx], Sb as [Sb Vy].
        rewrite (get_some _ _ _ Sa), (get_some _ _ _ Sb) in H.
        cbn [Bson.compare] in H. rewrite (isoformat_compare x y Vx Vy) in H.
        now apply date_le_flip.
      * destruct Sb as [Sb Vy]. rewrite (get_some _ _ _ Sb) in H.
        destruct (isoformat_not_empty y) as [c [r Ey]]. rewrite Ey in H.
        destruct (no_start_date_reads _ Sa) as [N|N]; rewrite N in H; now apply H.
  - split.
    + apply date_le_flip. congruence.
    + intros ->. rewrite date_compare_refl in C. discriminate.
Qed.

(** On dated records the order of listActive is the one of the calendar. *)
Lemma active_order_on_calendar a b :
  start_asc_then_created_desc a b -> earlier_start_first a b.
Proof.
  intros H sa ea sb eb (_ & _ & Sa) (_ & _ & Sb).
  unfold start_asc_then_created_desc in H.
  destruct sa as [x|]; [|exact I]. destruct Sa as [Sa Vx].
  rewrite (get_some _ _ _ Sa) in H. destruct sb as [y|].
  - destruct Sb as [Sb Vy]. rewrite (get_some _ _ _ Sb) in H.
    cbn [Bson.compare] in H. rewrite (isoformat_compare x y Vx Vy) in H.
    destruct (date_compare x y) eqn:C; [| |destruct H].
    + split; [unfold date_le; congruence|].
      intros _ ta tb Ta Tb.
      now rewrite (get_some _ _ _ Ta), (get_some _ _ _ Tb) in H.
    + split; [unfold date_le; congruence|].
      intros ->. rewrite date_compare_refl in C. discriminate.
  - destruct (isoformat_not_empty x) as [c [r Ex]]. rewrite Ex in H.
    destruct (no_start_date_reads _ Sb) as [N|N]; rewrite N in H; exact H.
Qed.

Lemma list_all_runs (u : option string) (w : World) :
  authenticated u w ->
  hd None (tl (faults w)) = None ->
  list_announcements u w
  = (Return (map serialize_announcement
               (Mongo.sort management_order (announcements_collection w))),
     after_call AnnouncementsFind (after_call TeachersFindOne w)).
Proof.
  intros Hu Hf. destruct (require_teacher_authenticated u w Hu) as [t E].
  enter_endpoint E.
  unfold except_Exception, mbind, M_bind, Store.announcements_find, store_call.
  cbn [faults after_call announcements_collection]. rewrite Hf.
  unfold Mongo.find. rewrite filter_everything. reflexivity.
Qed.

(** C8.  When the teacher check passes and the second store call goes
    through, listAll returns, after the teacher lookup and one [find], one
    record for every record of the collection, each as often as it is
    stored and whatever its dates: the returned list carries, record by
    record, a rearrangement [docs] of the collection (the id is the text
    of the [_id], the six other keys hold what the record holds, null for
    a field it lacks).  [docs] is ordered by end_date descending then
    start_date descending in the order of the store, which on dated
    records is the order of the calendar: later end dates first, and for
    the same end date later start dates first. *)
Theorem list_all_is_everything_sorted (u : option string) (w : World) :
  authenticated u w ->
  hd None (tl (faults w)) = None ->
  exists docs l,
    list_announcements u w
    = (Return l, after_call AnnouncementsFind (after_call TeachersFindOne w))
    /\ Permutation docs (announcements_collection w)
    /\ Forall2 carries l docs
    /\ StronglySorted end_desc_then_start_desc docs
    /\ StronglySorted later_end_first docs.
Proof.
  intros Hu Hf.
  exists (Mongo.sort management_order (announcements_collection w)).
  eexists. split; [apply (list_all_runs u w Hu Hf)|].
  assert (S : StronglySorted end_desc_then_start_desc
                (Mongo.sort management_order (announcements_collection w))).
  { eapply StronglySorted_impl; [|apply sort_sorted].
    intros a b. apply sort_le_management. }
  split; [apply sort_perm|]. split; [apply serialized_carry|].
  split; [exact S|].
  eapply StronglySorted_impl; [|exact S]. apply management_order_on_calendar.
Qed.

Lemma list_all_witness :
  exists docs l,
    list_announcements (Some "t1") Sample.world
    = (Return l, after_call AnnouncementsFind (after_call TeachersFindOne Sample.world))
    /\ Permutation docs [Sample.exam; Sample.fair]
    /\ Forall2 carries l docs
    /\ StronglySorted end_desc_then_start_desc docs
    /\ StronglySorted later_end_first docs.
Proof.
  apply (list_all_is_everything_sorted (Some "t1") Sample.world).
  - exact authenticated_sample.
  - reflexivity.
Defined.

Example list_all_sample :
  returned_titles (fst (list_announcements (Some "t1") Sample.world))
  = [BStr "Fair"; BStr "Exam"].
Proof. vm_compute. reflexivity. Qed.

Lemma string_leb_flip a b :
  String.leb a b = match String.compare b a with Lt => false | _ => true end.
Proof.
  unfold String.leb. rewrite (String.compare_antisym a b).
  now destruct (String.compare b a).
Qed.

(** The query of [get_active_announcements] selects the window. *)
Lemma active_query_window today d :
  Mongo.matches (active_query (isoformat today)) d = active_on today d.
Proof.
  unfold active_on, active_query, on_or_after, on_or_before, absent_or_empty.
  cbn [Mongo.matches forallb existsb Mongo.cond_holds].
  rewrite !andb_true_r, orb_false_r.
  destruct (d !! "end_date") as [[|e|e|e]|]; try reflexivity.
  cbn [Bson.rank Bson.compare Mongo.is_null Z.eqb andb].
  rewrite (string_leb_flip (isoformat today) e).
  destruct (String.compare e (isoformat today)); try reflexivity;
    destruct (d !! "start_date") as [[|s|s|s]|]; try reflexivity;
    cbn [Bson.rank Bson.compare Mongo.is_null Bson.eqb Z.eqb andb orb negb];
    unfold String.leb;
    destruct s as [|c s]; try reflexivity;
    cbn [String.compare]; destruct (String.compare (String c s) (isoformat today));
    reflexivity.
Qed.

Lemma leb_isoformat_dates a b :
  valid_date a -> valid_date b ->
  String.leb (isoformat a) (isoformat b) = negb (date_gt a b).
Proof.
  intros Ha Hb. unfold String.leb, date_gt. rewrite (isoformat_compare a b Ha Hb).
  now destruct (date_compare a b).
Qed.

(** On a dated record the window of the query is the one of the
    calendar. *)
Lemma window_of_dated today d s e :
  valid_date today -> dated d s e -> active_on today d = in_window today s e.
Proof.
  intros Ht (He & Ve & Hs). unfold active_on, in_window. rewrite He.
  cbn [on_or_after]. rewrite (leb_isoformat_dates today e Ht Ve). f_equal.
  destruct s as [s|].
  - destruct Hs as [Hs Vs]. rewrite Hs. cbn [on_or_before].
    rewrite (leb_isoformat_dates s today Vs Ht).
    destruct (isoformat_not_empty s) as [c [r ->]]. reflexivity.
  - now rewrite Hs.
Qed.

Lemma list_active_runs (today : date) (w : World) :
  hd None (faults w) = None ->
  get_active_announcements today w
  = (Return (map serialize_announcement
               (Mongo.find (active_query (isoformat today)) active_order
                  (announcements_collection w))),
     after_call AnnouncementsFind w).
Proof.
  intros Hf.
  unfold get_active_announcements, except_Exception, mbind, M_bind,
    Store.announcements_find, store_call.
  now rewrite Hf.
Qed.

(** C1.  For every state of the two collections and every day [today],
    when the one store call goes through, listActive returns one record
    for each record in the window, each as often as it is stored: the
    returned list carries, record by record, a rearrangement [docs] of the
    records whose end_date is a text on or after today's ISO text and
    whose start_date is absent, null, empty or a text on or before it.  A
    dated record of the collection is among them exactly when [today] is
    not after its end date and not before its start date, if it has one.
    [docs] is ordered by start_date ascending then created_at descending
    in the order of the store, which on dated records is the order of the
    calendar.  The endpoint takes no teacher identifier and its only store
    call is the [find] on the announcements. *)
Theorem list_active_is_the_window (today : date) (w : World) :
  valid_date today ->
  hd None (faults w) = None ->
  exists docs l,
    get_active_announcements today w = (Return l, after_call AnnouncementsFind w)
    /\ Permutation docs (List.filter (active_on today) (announcements_collection w))
    /\ Forall2 carries l docs
    /\ (forall d s e, In d (announcements_collection w) -> dated d s e ->
          (In d docs <-> in_window today s e = true))
    /\ StronglySorted start_asc_then_created_desc docs
    /\ StronglySorted earlier_start_first docs.
Proof.
  intros Ht Hf.
  exists (Mongo.find (active_query (isoformat today)) active_order
            (announcements_collection w)).
  eexists. split; [apply (list_active_runs today w Hf)|].
  assert (P : Permutation
                (Mongo.find (active_query (isoformat today)) active_order
                   (announcements_collection w))
                (List.filter (active_on today) (announcements_collection w))).
  { unfold Mongo.find. rewrite sort_perm.
    rewrite (List.filter_ext _ _ (active_query_window today)). reflexivity. }
  assert (S : StronglySorted start_asc_then_created_desc
                (Mongo.find (active_query (isoformat today)) active_order
                   (announcements_collection w))).
  { eapply StronglySorted_impl; [|apply sort_sorted].
    intros a b. apply sort_le_active. }
  split; [exact P|]. split; [apply serialized_carry|].
  split; [|split; [exact S|]].
  - intros d s e Hd Hdated. rewrite <- (window_of_dated today d s e Ht Hdated). split.
    + intros H. apply (Permutation_in _ P) in H. now apply List.filter_In in H.
    + intros H. apply (Permutation_in _ (Permutation_sym P)).
      apply List.filter_In. now split.
  - eapply StronglySorted_impl; [|exact S]. apply active_order_on_calendar.
Qed.

Lemma dated_exam : dated Sample.exam None (mkdate 2024 5 10).
Proof. repeat split. Qed.

Lemma dated_fair : dated Sample.fair (Some (mkdate 2024 6 1)) (mkdate 2024 6 30).
Proof. repeat split. Qed.

Lemma list_active_witness :
  exists docs l,
    get_active_announcements (mkdate 2024 5 2) Sample.world
    = (Return l, after_call AnnouncementsFind Sample.world)
    /\ Forall2 carries l docs
    /\ (In Sample.exam docs <-> in_window (mkdate 2024 5 2) None (mkdate 2024 5 10) = true)
    /\ (In Sample.fair docs
        <-> in_window (mkdate 2024 5 2) (Some (mkdate 2024 6 1)) (mkdate 2024 6 30) = true).
Proof.
  destruct (list_active_is_the_window (mkdate 2024 5 2) Sample.world eq_refl eq_refl)
    as (docs & l & R & _ & C & W & _).
  exists docs, l. split; [exact R|]. split; [exact C|]. split.
  - apply W; [now left | exact dated_exam].
  - apply W; [right; now left | exact dated_fair].
Defined.

Example list_active_sample :
  returned_titles (fst (get_active_announcements (mkdate 2024 5 2) Sample.world))
  = [BStr "Exam"]
  /\ returned_titles (fst (get_active_announcements (mkdate 2024 6 15) Sample.world))
     = [BStr "Fair"]
  /\ returned_titles (fst (get_active_announcements (mkdate 2024 7 1) Sample.world))
     = [].
Proof. repeat split; vm_compute; reflexivity. Qed.

(** ** Errors that leave the endpoints *)

Lemma parse_date_raises v f x :
  parse_date v f = Raise x ->
  x = HTTPException 400 (f ++ " must be in YYYY-MM-DD format").
Proof.
  unfold parse_date. destruct v as [[|c text]|]; try discriminate.
  destruct (Strptime.strptime _ _); try discriminate. congruence.
Qed.

Lemma validate_date_range_raises s e x :
  validate_date_range s e = Raise x ->
  x = HTTPException 400 "start_date must be on or before end_date".
Proof.
  unfold validate_date_range. destruct s as [s|]; try discriminate.
  destruct (date_gt s e); try discriminate. congruence.
Qed.

Ltac open_endpoints H :=
  unfold serve, get_active_announcements, list_announcements, create_announcement,
    update_announcement, delete_announcement, except_Exception,
    except_HTTPException_reraise, Store.announcements_find,
    Store.announcements_find_one, Store.announcements_insert_one,
    Store.announcements_update_one, Store.announcements_delete_one,
    store_call, mbind, M_bind, mret, M_ret, lift, raise, not_found in H.

Ltac reduce_world H :=
  cbv beta iota delta [faults calls announcements_collection teachers_collection
                       after_call set_announcements fst snd] in H.

Ltac teacher_step H :=
  match type of H with
  | context [require_teacher ?u ?w] =>
      let C := fresh "C" in
      pose proof (require_teacher_cases u w) as C;
      destruct (require_teacher u w) as [? ?];
      inversion C; subst; clear C
  end.

Ltac case_step H :=
  match type of H with
  | context [match ?x with _ => _ end] =>
      lazymatch x with
      | context [match _ with _ => _ end] => fail
      | _ => let E := fresh "E" in destruct x eqn:E
      end
  end.

Ltac run_endpoint H :=
  open_endpoints H; try teacher_step H; reduce_world H; try discriminate;
  repeat (case_step H; reduce_world H; try discriminate).

Ltac known_raise :=
  repeat match goal with
         | H : parse_date _ _ = Raise _ |- _ => apply parse_date_raises in H; subst
         | H : validate_date_range _ _ = Raise _ |- _ =>
             apply validate_date_range_raises in H; subst
         end.

(** An exception that leaves an endpoint is a classified error, the
    endpoint's own 500, or what the teacher lookup raised. *)
Lemma errors_that_leave (op : operation) (w w' : World) (e : exn) :
  serve op w = (Raise e, w') ->
  match e with
  | HTTPException status detail =>
      classified status \/ (status = 500 /\ detail = failure_detail op)
  | OtherException text =>
      exists n, teacher_of op = Some (Some n) /\ n <> ""
                /\ hd None (faults w) = Some text
                /\ w' = after_call TeachersFindOne w
  end.
Proof.
  intros H. destruct op; run_endpoint H.
  all: try (injection H as <- <-); known_raise.
  all: try (left; unfold classified; lia).
  all: try (right; split; reflexivity).
  all: eexists; repeat split; [assumption | eassumption].
Qed.

Lemma nth_tail {A} (k : nat) (l : list A) (d : A) : nth (S k) l d = nth k (tl l) d.
Proof. destruct l; [destruct k|]; reflexivity. Qed.

Lemma nth_head {A} (l : list A) (d : A) : nth 0 l d = hd d l.
Proof. now destruct l. Qed.

(** The store call that raised is the last one made: an announcement
    call leaves as the endpoint's 500, the teacher lookup as it is. *)
Lemma raising_call_outcome (op : operation) (w w' : World) (r : outcome response)
    (c : call) (rest : list call) (text : string) :
  calls w = [] ->
  serve op w = (r, w') ->
  calls w' = c :: rest ->
  nth (length rest) (faults w) None = Some text ->
  r = Raise (if is_announcement_call c then HTTPException 500 (failure_detail op)
             else OtherException text).
Proof.
  intros Hc H. destruct w as [anns teachers fs cs]. simpl in Hc. subst cs.
  destruct op; run_endpoint H.
  all: injection H as <- <-; cbn [calls faults after_call].
  all: intros [= <- <-]; cbn [length]; rewrite ?nth_tail, nth_head.
  all: cbn [faults] in *; intros Hn; try congruence.
  all: cbn [is_announcement_call failure_detail]; congruence.
Qed.

Lemma scheduled_fault_in (k : nat) (fs : list (option string)) (s : string) :
  hd None (Nat.iter k (@tl _) fs) = Some s -> In (Some s) fs.
Proof.
  revert fs. induction k as [|k IH]; intros fs H.
  - destruct fs as [|f fs]; [discriminate|]. simpl in H. subst. now left.
  - assert (E : Nat.iter (S k) (@tl _) fs = Nat.iter k (@tl _) (tl fs)).
    { clear. induction k as [|k IH]; [reflexivity|]. simpl in *. now rewrite IH. }
    rewrite E in H. apply IH in H. destruct fs; [destruct H | now right].
Qed.

Lemma insert_one_duplicate (doc : Doc) (oid : string) (c : list Doc) :
  Mongo.insert_one (<["_id" := BOid oid]> doc) c = None ->
  exists d, In d c /\ d !! "_id" = Some (BOid oid).
Proof.
  unfold Mongo.insert_one, Bson.get. rewrite lookup_insert_eq. simpl.
  destruct (Mongo.find_one _ c) as [d|] eqn:E; [|discriminate]. intros _.
  unfold Mongo.find_one in E. apply List.find_some in E as [Hd Hm].
  exists d. split; [assumption|]. apply matches_by_id in Hm; [assumption|discriminate].
Qed.

(** When nothing in the store raises, the only errors are the classified
    ones: those raised inside a [try] come out as they were raised. *)
Lemma errors_without_store_failure (op : operation) (w w' : World) (e : exn) :
  (forall f, In f (faults w) -> f = None) ->
  (forall env p u, op = Create env p u ->
     forall d, In d (announcements_collection w) -> d !! "_id" <> Some (BOid (new_id env))) ->
  serve op w = (Raise e, w') ->
  exists status detail, e = HTTPException status detail /\ classified status.
Proof.
  intros Hq Hdup H. destruct w as [anns teachers fs cs]. cbn [faults] in Hq.
  cbn [announcements_collection] in Hdup.
  assert (Q : forall k s, hd None (Nat.iter k (@tl _) fs) = Some s -> False).
  { intros k s Hk. apply scheduled_fault_in, Hq in Hk. discriminate. }
  destruct op; run_endpoint H.
  all: try (injection H as <- <-); known_raise.
  all: cbn [faults] in *.
  all: try (exfalso; first [eapply (Q 0%nat); eassumption
                           | eapply (Q 1%nat); eassumption
                           | eapply (Q 2%nat); eassumption]).
  all: try (eexists _, _; split; [reflexivity | unfold classified; lia]).
  all: match goal with
       | E : Mongo.insert_one _ _ = None |- _ =>
           let x := fresh "x" in
           let Hx := fresh "Hx" in
           let Hid := fresh "Hid" in
           apply insert_one_duplicate in E as [x [Hx Hid]];
           exfalso; eapply Hdup; [reflexivity | exact Hx | exact Hid]
       end.
Qed.

(** C9, as the endpoints have it.  Whatever an endpoint is given and
    whatever the store does: (1) an exception that leaves it is a
    classified error (400, 401 or 404), or a 500 whose detail is the fixed
    text of the endpoint, or, only when the teacher lookup of
    [require_teacher] raised, the exception of the store itself with its
    own text, after that single call; (2) when a store call raised, it is
    the last call made, and the endpoint ends in its 500 with the fixed
    text if that call was on the announcements, and in the store's own
    exception if it was the teacher lookup; (3) when no store call raises
    (and create is not given an [_id] that is already taken) every error
    is a classified one, so that the 404 raised inside the [try] of update
    and delete comes out as a 404. *)
Theorem store_failures_and_classified_errors (op : operation) (w w' : World)
    (r : outcome response) :
  serve op w = (r, w') ->
  (forall e, r = Raise e ->
     match e with
     | HTTPException status detail =>
         classified status \/ (status = 500 /\ detail = failure_detail op)
     | OtherException text =>
         exists n, teacher_of op = Some (Some n) /\ n <> ""
                   /\ hd None (faults w) = Some text
                   /\ w' = after_call TeachersFindOne w
     end)
  /\ (calls w = [] ->
      forall c rest text,
        calls w' = c :: rest ->
        nth (length rest) (faults w) None = Some text ->
        r = Raise (if is_announcement_call c
                   then HTTPException 500 (failure_detail op)
                   else OtherException text))
  /\ ((forall f, In f (faults w) -> f = None) ->
      (forall env p u, op = Create env p u ->
         forall d, In d (announcements_collection w) ->
                   d !! "_id" <> Some (BOid (new_id env))) ->
      forall e, r = Raise e ->
        exists status detail, e = HTTPException status detail /\ classified status).
Proof.
  intros H. split; [|split].
  - intros e ->. now apply (errors_that_leave op w w').
  - intros Hc c rest text Hcalls Hn.
    now apply (raising_call_outcome op w w' r c rest text).
  - intros Hq Hdup e ->. now apply (errors_without_store_failure op w w').
Qed.

(** C9 as stated fails: when the teacher lookup raises, listAll lets the
    exception of the store through, text included, instead of a 500. *)
Lemma teacher_lookup_failure_leaves_unconverted :
  serve (ListAll (Some "t1")) Sample.world_store_down
  = (Raise (OtherException "connection refused"),
     after_call TeachersFindOne Sample.world_store_down).
Proof. vm_compute. reflexivity. Qed.

Lemma store_failures_witness :
  fst (serve (ListActive (mkdate 2024 5 2)) Sample.world_store_down)
  = Raise (HTTPException 500 "Failed to load announcements").
Proof.
  destruct (store_failures_and_classified_errors (ListActive (mkdate 2024 5 2))
              Sample.world_store_down
              (snd (serve (ListActive (mkdate 2024 5 2)) Sample.world_store_down))
              (fst (serve (ListActive (mkdate 2024 5 2)) Sample.world_store_down)))
    as [_ [H _]].
  - apply surjective_pairing.
  - apply (H eq_refl AnnouncementsFind [] "connection refused"); reflexivity.
Defined.

(** ** Title and message of a stored record *)

Lemma lstrip_length s : (String.length (lstrip s) <= String.length s)%nat.
Proof.
  induction s as [|c s IH]; simpl; [lia|]. destruct (py_isspace c); simpl; lia.
Qed.

Lemma rstrip_length s : (String.length (rstrip s) <= String.length s)%nat.
Proof.
  induction s as [|c s IH]; simpl; [lia|].
  destruct (rstrip s); [destruct (py_isspace c)|]; simpl in *; lia.
Qed.

Lemma strip_length s : (String.length (strip s) <= String.length s)%nat.
Proof.
  unfold strip. pose proof (rstrip_length (lstrip s)). pose proof (lstrip_length s). lia.
Qed.

Ltac returned H :=
  match type of H with
  | (Return ?x, _) = (Return ?r, _) =>
      let Hr := fresh "Hr" in assert (Hr : x = r) by congruence; rewrite <- Hr
  end.

(** What create stores is the trimmed title and message, and trimming
    keeps the upper bounds of the model class. *)
Lemma created_record_is_trimmed (env : Env) (p : AnnouncementPayload)
    (u : option string) (w w' : World) (r : Doc) :
  payload_fieldsb p = true ->
  create_announcement env p u w = (Return r, w') ->
  r !! "title" = Some (BStr (strip (title p)))
  /\ r !! "message" = Some (BStr (strip (message p)))
  /\ Z.of_nat (String.length (strip (title p))) <= 80
  /\ Z.of_nat (String.length (strip (message p))) <= 280.
Proof.
  intros Hp H. unfold payload_fieldsb in Hp.
  repeat (apply andb_prop in Hp as [Hp ?]).
  pose proof (strip_length (title p)). pose proof (strip_length (message p)).
  split; [|split; [|lia]].
  - run_endpoint H. returned H. reflexivity.
  - run_endpoint H. returned H. reflexivity.
Qed.

(** C7 at a title of three spaces.  The body passes the model class (the
    title has three characters), create succeeds, and the record it
    returns and the record it appended to the collection have the empty
    title; update does the same to the first record of the collection. *)
Theorem blank_title_is_stored_empty :
  payload_fieldsb Sample.blank = true
  /\ returned_field
       (fst (create_announcement Sample.env Sample.blank (Some "t1") Sample.world))
       "title" = Some (BStr "")
  /\ stored_titles
       (snd (create_announcement Sample.env Sample.blank (Some "t1") Sample.world))
     = [BStr "Exam"; BStr "Fair"; BStr ""]
  /\ returned_field
       (fst (update_announcement Sample.env "aaaaaaaaaaaaaaaaaaaaaaaa" Sample.blank
               (Some "t1") Sample.world))
       "title" = Some (BStr "")
  /\ stored_titles
       (snd (update_announcement Sample.env "aaaaaaaaaaaaaaaaaaaaaaaa" Sample.blank
               (Some "t1") Sample.world))
     = [BStr ""; BStr "Fair"].
Proof. repeat split; vm_compute; reflexivity. Qed.

(** ** The date parser *)

Lemma pattern_date_format :
  Strptime.pattern DATE_FORMAT = Some (Strptime.re_Y :: after_year).
Proof. reflexivity. Qed.

Lemma decimal_bounds c v : Unicode.decimal c = Some v -> 0 <= v <= 9.
Proof.
  unfold Unicode.decimal.
  destruct (List.find _ Unicode.decimal_zeros) as [z|] eqn:E; [|discriminate].
  apply List.find_some in E as [_ E]. apply andb_prop in E as [E1 E2].
  apply Z.leb_le in E1, E2. intros [= <-]. lia.
Qed.

Lemma decimal_ascii v : 0 <= v <= 9 -> Unicode.decimal (ascii_digit v) = Some v.
Proof.
  intros H.
  assert (C : v = 0 \/ v = 1 \/ v = 2 \/ v = 3 \/ v = 4 \/ v = 5 \/ v = 6 \/ v = 7
              \/ v = 8 \/ v = 9) by lia.
  repeat (destruct C as [->|C]); try subst v; reflexivity.
Qed.

Lemma decimal_digit c v : Unicode.decimal c = Some v -> Strptime.digit c = true.
Proof. unfold Strptime.digit, Unicode.isdecimal. now intros ->. Qed.

Lemma digit_decimal c : Strptime.digit c = true -> exists v, Unicode.decimal c = Some v.
Proof.
  unfold Strptime.digit, Unicode.isdecimal.
  destruct (Unicode.decimal c) as [v|]; [eauto | discriminate].
Qed.

Lemma int_space_in c : Unicode.int_space c = true -> In c int_spaces.
Proof.
  unfold Unicode.int_space, int_spaces. intros H.
  repeat match type of H with
         | (_ || _) = true => apply orb_prop in H as [H|H]
         end;
    repeat match goal with
           | H : (_ && _) = true |- _ => apply andb_prop in H as [? ?]
           | H : (_ <=? _) = true |- _ => apply Z.leb_le in H
           | H : (_ =? _) = true |- _ => apply Z.eqb_eq in H
           end;
    simpl; lia.
Qed.

(** No decimal digit is white space for [int]. *)
Lemma decimal_not_space c v : Unicode.decimal c = Some v -> Unicode.int_space c = false.
Proof.
  intros H. destruct (Unicode.int_space c) eqn:E; [|reflexivity].
  apply int_space_in in E. unfold int_spaces in E. simpl in E.
  repeat (destruct E as [<-|E]; [vm_compute in H; discriminate|]). destruct E.
Qed.

Lemma rstrip_keep s :
  List.Forall (fun c => Unicode.int_space c = false) s -> Unicode.rstrip s = s.
Proof.
  induction 1 as [|c s Hc Hs IH]; [reflexivity|].
  cbn [Unicode.rstrip]. rewrite IH. destruct s; [now rewrite Hc | reflexivity].
Qed.

(** A run of decimal digits is read by [int] as the number it writes. *)
Lemma py_int_digits c s :
  List.Forall (fun x => exists v, Unicode.decimal x = Some v) (c :: s) ->
  Unicode.py_int (c :: s) = Unicode.digits_value 0 (c :: s).
Proof.
  intros H.
  assert (S : List.Forall (fun x => Unicode.int_space x = false) (c :: s)).
  { eapply List.Forall_impl; [|exact H]. intros x [v Hv]. now apply (decimal_not_space x v). }
  unfold Unicode.py_int. cbn [Unicode.lstrip].
  rewrite (proj1 (List.Forall_forall _ _) S c (or_introl eq_refl)).
  now rewrite (rstrip_keep _ S).
Qed.

Lemma py_int_four a b c d va vb vc vd :
  Unicode.decimal a = Some va -> Unicode.decimal b = Some vb ->
  Unicode.decimal c = Some vc -> Unicode.decimal d = Some vd ->
  Unicode.py_int [a; b; c; d] = Some (1000 * va + 100 * vb + 10 * vc + vd).
Proof.
  intros Ha Hb Hc Hd. rewrite py_int_digits by (repeat constructor; eauto).
  cbn [Unicode.digits_value]. rewrite Ha, Hb, Hc, Hd. f_equal. lia.
Qed.

Lemma py_int_two t c v :
  t = 49 \/ t = 50 -> Unicode.decimal c = Some v ->
  Unicode.py_int [t; c] = Some (10 * (t - 48) + v).
Proof.
  intros Ht Hc.
  assert (Dt : Unicode.decimal t = Some (t - 48)) by (destruct Ht as [->| ->]; reflexivity).
  rewrite py_int_digits by (repeat constructor; eauto).
  cbn [Unicode.digits_value]. rewrite Dt, Hc. f_equal; lia.
Qed.

(** After the year, [strptime] is the reading of month and day. *)
Lemma strptime_after_year a b c d va vb vc vd rest :
  Unicode.decimal a = Some va -> Unicode.decimal b = Some vb ->
  Unicode.decimal c = Some vc -> Unicode.decimal d = Some vd ->
  Strptime.strptime (a :: b :: c :: d :: rest) DATE_FORMAT
  = match Strptime.re_match after_year rest with
    | Some (caps, []) =>
        match Strptime.group_int "m" caps, Strptime.group_int "d" caps with
        | Some m, Some dd =>
            let r := mkdate (1000 * va + 100 * vb + 10 * vc + vd) m dd in
            if valid_dateb r then Some r else None
        | _, _ => None
        end
    | _ => None
    end.
Proof.
  intros Ha Hb Hc Hd. unfold Strptime.strptime. rewrite pattern_date_format.
  cbn [Strptime.re_match Strptime.alts Strptime.re_Y Strptime.match_alts
       Strptime.match_chars].
  rewrite (decimal_digit a va Ha), (decimal_digit b vb Hb), (decimal_digit c vc Hc),
    (decimal_digit d vd Hd).
  cbn iota.
  destruct (Strptime.re_match after_year rest) as [[caps [|x r]]|]; try reflexivity.
  unfold Strptime.group_int, Strptime.capture.
  change (Strptime.gname Strptime.re_Y) with (Some "Y"%char).
  cbn [Strptime.found].
  change (Ascii.eqb "Y" "Y") with true. change (Ascii.eqb "Y" "m") with false.
  change (Ascii.eqb "Y" "d") with false. cbn iota.
  rewrite (py_int_four a b c d va vb vc vd Ha Hb Hc Hd).
  destruct (Strptime.found "m" caps) as [mt|]; [|reflexivity].
  destruct (Unicode.py_int mt); [|reflexivity].
  destruct (Strptime.found "d" caps) as [dt|]; [|reflexivity].
  destruct (Unicode.py_int dt); reflexivity.
Qed.

(** The text of a month is read as the month, and between two "-" it is
    matched by [%m]. *)
Lemma month_matches m mt
    (K : Unicode.text -> option (Strptime.captures * Unicode.text)) rest caps r' :
  1 <= m <= 12 -> month_text m mt -> K rest = Some (caps, r') ->
  Unicode.py_int mt = Some m
  /\ Strptime.match_alts (Strptime.mkgroup None [[Strptime.lit "-"]])
       [[Strptime.lit "-"]]
       (Strptime.match_alts Strptime.re_m (Strptime.alts Strptime.re_m)
          (Strptime.match_alts (Strptime.mkgroup None [[Strptime.lit "-"]])
             [[Strptime.lit "-"]] K))
       (45 :: mt ++ 45 :: rest)%list
     = Some (("m"%char, mt) :: caps, r').
Proof.
  intros Hm H HK.
  assert (C : m = 1 \/ m = 2 \/ m = 3 \/ m = 4 \/ m = 5 \/ m = 6 \/ m = 7 \/ m = 8
              \/ m = 9 \/ m = 10 \/ m = 11 \/ m = 12) by lia.
  repeat (destruct C as [->|C]); try subst m;
    (destruct H as [->|[? ->]]; [|try lia]);
    (split; [reflexivity | vm_compute; rewrite HK; reflexivity]).
Qed.

(** A day from 10 to 29 with any decimal digit for the units. *)
Lemma day_two_digits t c v :
  t = 49 \/ t = 50 -> Unicode.decimal c = Some v ->
  Strptime.re_match [Strptime.re_d] [t; c] = Some ([("d"%char, [t; c])], []).
Proof.
  intros Ht Hc. pose proof (decimal_digit c v Hc) as D.
  unfold Strptime.re_d. cbn [Strptime.re_match Strptime.alts Strptime.match_alts
                             Strptime.match_chars].
  rewrite D.
  destruct Ht as [->| ->]; reflexivity.
Qed.

(** The text of a day is matched by [%d] and read as the day. *)
Lemma day_matches d dt :
  1 <= d <= 31 -> day_text d dt ->
  Unicode.py_int dt = Some d
  /\ Strptime.re_match [Strptime.re_d] dt = Some ([("d"%char, dt)], []).
Proof.
  intros Hd [H|[[Hlt H]|[Hr [c [Hc H]]]]].
  - assert (C : d = 1 \/ d = 2 \/ d = 3 \/ d = 4 \/ d = 5 \/ d = 6 \/ d = 7 \/ d = 8
                \/ d = 9 \/ d = 10 \/ d = 11 \/ d = 12 \/ d = 13 \/ d = 14 \/ d = 15
                \/ d = 16 \/ d = 17 \/ d = 18 \/ d = 19 \/ d = 20 \/ d = 21 \/ d = 22
                \/ d = 23 \/ d = 24 \/ d = 25 \/ d = 26 \/ d = 27 \/ d = 28 \/ d = 29
                \/ d = 30 \/ d = 31) by lia.
    repeat (destruct C as [->|C]); try subst d; subst dt; split; reflexivity.
  - assert (C : d = 1 \/ d = 2 \/ d = 3 \/ d = 4 \/ d = 5 \/ d = 6 \/ d = 7 \/ d = 8
                \/ d = 9) by lia.
    repeat (destruct C as [->|C]); try subst d; destruct H as [->| ->];
      split; reflexivity.
  - assert (T : d / 10 = 1 \/ d / 10 = 2) by (Z.to_euclidean_division_equations; lia).
    assert (Ht : ascii_digit (d / 10) = 49 \/ ascii_digit (d / 10) = 50)
      by (unfold ascii_digit; lia).
    subst dt. split.
    + rewrite (py_int_two _ c (d mod 10) Ht Hc). f_equal.
      unfold ascii_digit. Z.to_euclidean_division_equations; lia.
    + now apply (day_two_digits _ c (d mod 10)).
Qed.

Lemma after_year_matches m mt d dt :
  1 <= m <= 12 -> month_text m mt -> 1 <= d <= 31 -> day_text d dt ->
  Unicode.py_int mt = Some m /\ Unicode.py_int dt = Some d
  /\ Strptime.re_match after_year (45 :: mt ++ 45 :: dt)%list
     = Some ([("m"%char, mt); ("d"%char, dt)], []).
Proof.
  intros Bm Hm Bd Hd.
  destruct (day_matches d dt Bd Hd) as [Id Md].
  destruct (month_matches m mt (Strptime.re_match [Strptime.re_d]) dt
              [("d"%char, dt)] [] Bm Hm Md) as [Im Mm].
  repeat split; assumption.
Qed.

(** Every text that names a date is read as that date. *)
Lemma strptime_complete d s :
  date_text d s -> Strptime.strptime s DATE_FORMAT = Some d.
Proof.
  intros [Hv [yt [mt [dt [Hy [Hm [Hd ->]]]]]]].
  pose proof (valid_date_bounds d Hv) as B.
  destruct Hy as (a & b & c & e & va & vb & vc & vd & -> & Ha & Hb & Hc & He & Ey).
  destruct (after_year_matches (month d) mt (day d) dt) as [Im [Id M]];
    [lia | assumption | lia | assumption |].
  cbn [app]. rewrite (strptime_after_year a b c e va vb vc vd _ Ha Hb Hc He), M.
  unfold Strptime.group_int. cbn [Strptime.found].
  change (Ascii.eqb "m" "m") with true. change (Ascii.eqb "m" "d") with false.
  change (Ascii.eqb "d" "d") with true. cbn iota.
  rewrite Im, Id, <- Ey. cbv zeta.
  destruct d as [y m dd]. cbn [year month day] in *. unfold valid_date in Hv.
  now rewrite Hv.
Qed.

Lemma match_chars_inv cs s m r :
  Strptime.match_chars cs s = Some (m, r) -> s = (m ++ r)%list /\ chars_ok cs m = true.
Proof.
  revert s m r. induction cs as [|c cs IH]; intros s m r H.
  - destruct s; injection H as <- <-; split; reflexivity.
  - destruct s as [|a s]; [discriminate|]. cbn [Strptime.match_chars] in H.
    destruct (c a) eqn:Hc; [|discriminate].
    destruct (Strptime.match_chars cs s) as [[m' r']|] eqn:E; [|discriminate].
    injection H as <- <-. destruct (IH _ _ _ E) as [-> Hok].
    split; [reflexivity|]. cbn [chars_ok]. now rewrite Hc, Hok.
Qed.

Lemma match_alts_inv g al k s caps r' :
  Strptime.match_alts g al k s = Some (caps, r') ->
  exists alt m r caps0,
    In alt al /\ Strptime.match_chars alt s = Some (m, r)
    /\ k r = Some (caps0, r') /\ caps = Strptime.capture g m caps0.
Proof.
  induction al as [|alt al IH]; intros H; [discriminate|].
  cbn [Strptime.match_alts] in H.
  destruct (Strptime.match_chars alt s) as [[m r]|] eqn:E.
  - destruct (k r) as [[caps0 r0]|] eqn:K.
    + injection H as <- <-. exists alt, m, r, caps0. repeat split; auto. now left.
    + destruct (IH H) as (alt' & m' & r1 & caps1 & Hin & ? & ? & ?).
      exists alt', m', r1, caps1. repeat split; auto. now right.
  - destruct (IH H) as (alt' & m' & r1 & caps1 & Hin & ? & ? & ?).
    exists alt', m', r1, caps1. repeat split; auto. now right.
Qed.

Lemma chars_ok_cons c cs m :
  chars_ok (c :: cs) m = true ->
  exists a m', m = a :: m' /\ c a = true /\ chars_ok cs m' = true.
Proof.
  destruct m as [|a m']; [discriminate|]. cbn [chars_ok]. intros H.
  apply andb_prop in H as [H1 H2]. eauto.
Qed.

Lemma chars_ok_nil m : chars_ok [] m = true -> m = [].
Proof. now destruct m. Qed.

Ltac split_chars H :=
  repeat match type of H with
         | chars_ok (_ :: _) _ = true =>
             let a := fresh "a" in
             let K := fresh "K" in
             apply chars_ok_cons in H as [a [? [-> [K H]]]]
         | chars_ok [] _ = true => apply chars_ok_nil in H; subst
         end.

Lemma lit_char a c : Strptime.lit a c = true -> c = code a.
Proof. unfold Strptime.lit. apply Z.eqb_eq. Qed.

(** A character of a range is one of its code points. *)
Lemma one_of_cases lo hi c :
  Strptime.one_of lo hi c = true ->
  In c (map (fun n => lo + Z.of_nat n) (seq 0 (Z.to_nat (hi - lo + 1)))).
Proof.
  unfold Strptime.one_of. intros H. apply andb_prop in H as [H1 H2].
  apply Z.leb_le in H1, H2. apply List.in_map_iff.
  exists (Z.to_nat (c - lo)). split; [lia|]. apply List.in_seq. lia.
Qed.

(** The characters of the ASCII classes of a group, one case each. *)
Ltac class_cases :=
  repeat match goal with
         | H : Strptime.lit _ _ = true |- _ =>
             apply lit_char in H; vm_compute in H; subst
         | H : Strptime.one_of _ _ _ = true |- _ =>
             apply one_of_cases in H; vm_compute in H;
             repeat (destruct H as [<-|H]); [..|destruct H]
         end.

(** The number a text is read as, as witness of an existential. *)
Ltac read_number :=
  match goal with
  | |- exists n, _ /\ _ /\ Unicode.py_int ?t = Some n =>
      let v := eval vm_compute in (Unicode.py_int t) in
      match v with Some ?n => exists n end
  end.

Lemma month_alt_reads alt mt :
  In alt (Strptime.alts Strptime.re_m) -> chars_ok alt mt = true ->
  exists m, 1 <= m <= 12 /\ month_text m mt /\ Unicode.py_int mt = Some m.
Proof.
  intros [<-|[<-|[<-|[]]]] H; split_chars H; class_cases; read_number;
    (split; [lia|]); (split; [|reflexivity]);
    first [left; reflexivity | right; split; [lia | reflexivity]].
Qed.

Lemma day_alt_reads alt dt :
  In alt (Strptime.alts Strptime.re_d) -> chars_ok alt dt = true ->
  exists d, 1 <= d <= 31 /\ day_text d dt /\ Unicode.py_int dt = Some d.
Proof.
  unfold Strptime.re_d. cbn [Strptime.alts].
  intros [<-|[<-|[<-|[<-|[<-|[]]]]]] H; split_chars H.
  2: { apply digit_decimal in K0 as [v Hv]. pose proof (decimal_bounds _ _ Hv) as Bv.
       apply one_of_cases in K. vm_compute in K.
       assert (Ht : a = 49 \/ a = 50) by (destruct K as [<-|[<-|[]]]; auto). clear K.
       exists (10 * (a - 48) + v). split; [lia|]. split.
       - right. right. split; [lia|]. exists a0.
         replace ((10 * (a - 48) + v) mod 10) with v
           by (Z.to_euclidean_division_equations; lia).
         split; [assumption|]. f_equal. unfold ascii_digit.
         Z.to_euclidean_division_equations; lia.
       - now apply py_int_two. }
  all: class_cases; read_number; (split; [lia|]); (split; [|reflexivity]);
    first [left; reflexivity
          | right; left; split; [lia | left; reflexivity]
          | right; left; split; [lia | right; reflexivity]].
Qed.

(** Every text read as a date names that date. *)
Lemma strptime_sound s d :
  Strptime.strptime s DATE_FORMAT = Some d -> date_text d s.
Proof.
  unfold Strptime.strptime. rewrite pattern_date_format.
  destruct (Strptime.re_match _ s) as [[caps [|c r]]|] eqn:M; try discriminate.
  unfold after_year in M. cbn [Strptime.re_match] in M.
  apply match_alts_inv in M as (aY & yt & r1 & caps1 & HY & MY & M & ->).
  apply match_alts_inv in M as (a1 & t1 & r2 & caps2 & H1 & M1 & M & ->).
  apply match_alts_inv in M as (am & mt & r3 & caps3 & Hm & Mm & M & ->).
  apply match_alts_inv in M as (a2 & t2 & r4 & caps4 & H2 & M2 & M & ->).
  apply match_alts_inv in M as (ad & dt & r5 & caps5 & Hd & Md & M & ->).
  injection M as <- ->.
  apply match_chars_inv in MY as [-> OY], M1 as [-> O1], Mm as [-> Om],
    M2 as [-> O2], Md as [-> Od].
  destruct HY as [<-|[]], H1 as [<-|[]], H2 as [<-|[]].
  destruct (month_alt_reads _ _ Hm Om) as [m [Bm [Xm Im]]].
  destruct (day_alt_reads _ _ Hd Od) as [dd [Bd [Xd Id]]].
  split_chars OY. split_chars O1. split_chars O2.
  apply lit_char in K3, K4. vm_compute in K3, K4. subst.
  apply digit_decimal in K as [va Ha], K0 as [vb Hb], K1 as [vc Hc], K2 as [vd Hd'].
  unfold Strptime.group_int, Strptime.capture. cbn [Strptime.gname Strptime.re_Y
    Strptime.re_m Strptime.re_d Strptime.found].
  change (Ascii.eqb "Y" "Y") with true. change (Ascii.eqb "Y" "m") with false.
  change (Ascii.eqb "Y" "d") with false. change (Ascii.eqb "m" "m") with true.
  change (Ascii.eqb "m" "d") with false. change (Ascii.eqb "d" "d") with true.
  cbn iota. rewrite (py_int_four _ _ _ _ _ _ _ _ Ha Hb Hc Hd'), Im, Id.
  destruct (valid_dateb _) eqn:V; [|discriminate]. intros [= <-].
  split; [exact V|]. exists [a; a0; a1; a2], mt, dt. cbn [year month day].
  split; [exists a, a0, a1, a2, va, vb, vc, vd; repeat split; assumption|].
  split; [assumption|]. split; [assumption|].
  cbn [app]. now rewrite app_nil_r.
Qed.

Lemma codes_cons c s : Unicode.codes (String c s) = code c :: Unicode.codes s.
Proof. reflexivity. Qed.

Lemma codes_pad2 n rest :
  0 <= n ->
  Unicode.codes (pad2 n rest)
  = ascii_digit (n / 10 mod 10) :: ascii_digit (n mod 10) :: Unicode.codes rest.
Proof.
  intros H. unfold pad2. rewrite !codes_cons, !code_digit_char; [reflexivity| |].
  - pose proof (Z.mod_pos_bound n 10). lia.
  - apply digit_bounds. lia.
Qed.

Lemma codes_isoformat d :
  valid_date d ->
  Unicode.codes (isoformat d)
  = ([ascii_digit (year d / 1000 mod 10); ascii_digit (year d / 100 mod 10);
      ascii_digit (year d / 10 mod 10); ascii_digit (year d mod 10)]
     ++ 45 :: [ascii_digit (month d / 10); ascii_digit (month d mod 10)]
     ++ 45 :: [ascii_digit (day d / 10); ascii_digit (day d mod 10)])%list.
Proof.
  intros Hv. apply valid_date_bounds in Hv as (By & Bm & Bd & _).
  unfold isoformat, pad4.
  rewrite !codes_cons, !code_digit_char by (apply digit_bounds; lia).
  rewrite codes_pad2, codes_cons, codes_pad2, codes_cons, codes_pad2 by lia.
  rewrite (Z.mod_small (month d / 10)), (Z.mod_small (day d / 10))
    by (Z.to_euclidean_division_equations; lia).
  reflexivity.
Qed.

Lemma isoformat_is_date_text d : valid_date d -> date_text d (Unicode.codes (isoformat d)).
Proof.
  intros Hv. split; [assumption|]. rewrite (codes_isoformat d Hv).
  pose proof (valid_date_bounds d Hv) as (By & _).
  eexists _, _, _. split; [|split; [left; reflexivity|split; [left; reflexivity|reflexivity]]].
  eexists _, _, _, _, _, _, _, _. split; [reflexivity|].
  repeat (split; [apply decimal_ascii, digit_bounds; lia|]).
  split; [rewrite <- (Z.div_1_r (year d)) at 1; apply decimal_ascii, digit_bounds; lia|].
  Z.to_euclidean_division_equations; lia.
Qed.

Lemma date_text_not_empty d s : date_text d s -> s <> [].
Proof.
  intros [_ [yt [mt [dt [(a & b & c & e & _ & _ & _ & _ & -> & _) [_ [_ ->]]]]]]].
  discriminate.
Qed.

Lemma isoformat_length d : String.length (isoformat d) = 10%nat.
Proof. reflexivity. Qed.

(** What [parse_date] returns for a text is decided by [strptime]. *)
Lemma parse_date_reads s f d :
  parse_date (Some s) f = Return (Some d) <-> date_text d s.
Proof.
  split.
  - intros H. apply parse_date_some in H as [text [[= <-] [_ H]]].
    now apply strptime_sound.
  - intros H. pose proof (date_text_not_empty d s H) as Hs.
    apply strptime_complete in H. unfold parse_date.
    destruct s; [congruence|]. now rewrite H.
Qed.

(** C3, as the parser has it.  For every field name: a valid YYYY-MM-DD
    string parses to a date whose ISO text is the string again; the empty
    string parses to no date, without error; a text parses to the date
    [d] exactly when it writes [d] as a year of four decimal digits (of
    any script of Unicode), "-", the month with two ASCII digits or its
    single digit, "-", and the day with two ASCII digits, its single
    digit, a space and that digit or, from the 10th to the 29th, the ASCII
    tens digit and any decimal digit for the units; every other text that
    is not empty, "2024/01/01" among them, fails with 400 and the fixed
    message. *)
Theorem parse_date_reads_date_texts (f : string) :
  (forall s, iso_date_text s ->
     exists d, parse_date (Some (Unicode.codes s)) f = Return (Some d)
               /\ isoformat d = s)
  /\ parse_date (Some (Unicode.codes "")) f = Return None
  /\ (forall s d, parse_date (Some s) f = Return (Some d) <-> date_text d s)
  /\ (forall s, s <> [] -> (forall d, ~ date_text d s) ->
       parse_date (Some s) f
       = Raise (HTTPException 400 (f ++ " must be in YYYY-MM-DD format")))
  /\ parse_date (Some (Unicode.codes "2024/01/01")) f
     = Raise (HTTPException 400 (f ++ " must be in YYYY-MM-DD format")).
Proof.
  split; [|split; [|split; [|split]]].
  - intros s [d [Hv ->]]. exists d. split; [|reflexivity].
    now apply parse_date_reads, isoformat_is_date_text.
  - reflexivity.
  - intros s d. apply parse_date_reads.
  - intros s Hs Hno. unfold parse_date. destruct s as [|c s]; [congruence|].
    destruct (Strptime.strptime (c :: s) DATE_FORMAT) as [d|] eqn:E; [|reflexivity].
    apply strptime_sound in E. now apply Hno in E.
  - reflexivity.
Qed.

Lemma parse_date_witness :
  exists d, parse_date (Some (Unicode.codes "2024-05-10")) "end_date" = Return (Some d)
            /\ isoformat d = "2024-05-10".
Proof.
  destruct (parse_date_reads_date_texts "end_date") as [H _].
  apply (H "2024-05-10"). exists (mkdate 2024 5 10). split; reflexivity.
Defined.

Lemma iso_date_text_codes s :
  iso_date_text s ->
  length (Unicode.codes s) = 10%nat /\ List.Forall (fun c => c <= 57) (Unicode.codes s).
Proof.
  intros [d [Hv ->]]. rewrite (codes_isoformat d Hv).
  pose proof (valid_date_bounds d Hv) as (By & Bm & Bd & _).
  split; [reflexivity|]. unfold ascii_digit.
  repeat constructor; Z.to_euclidean_division_equations; lia.
Qed.

(** C3 as stated fails on these three texts, none of them a valid
    YYYY-MM-DD string: the empty one parses to no date without an error,
    the one with single digits parses to a date, and so does the one with
    the year and the units of the day in Arabic-Indic digits. *)
Lemma texts_outside_the_format_that_parse :
  (~ iso_date_text "" /\ parse_date (Some (Unicode.codes "")) "end_date" = Return None)
  /\ (~ iso_date_text "2024-1-5"
      /\ parse_date (Some (Unicode.codes "2024-1-5")) "end_date"
         = Return (Some (mkdate 2024 1 5))
      /\ isoformat (mkdate 2024 1 5) = "2024-01-05")
  /\ ((forall s, iso_date_text s -> Unicode.codes s <> Sample.arabic_indic)
      /\ parse_date (Some Sample.arabic_indic) "end_date"
         = Return (Some (mkdate 2024 5 10))).
Proof.
  split; [split|split; [split; [|split]|split]]; try reflexivity.
  - intros [d [_ E]]. apply (f_equal String.length) in E.
    rewrite isoformat_length in E. discriminate.
  - intros [d [_ E]]. apply (f_equal String.length) in E.
    rewrite isoformat_length in E. discriminate.
  - intros s Hs E. apply iso_date_text_codes in Hs as [_ Hs]. rewrite E in Hs.
    apply List.Forall_inv in Hs. lia.
Qed.

(** * Further properties of the endpoints *)

(** ** Identifiers that are not well formed *)

(** X1.  When the teacher check passes and [ObjectId] refuses the
    identifier (it has not 24 characters, or it is not made of pairs of
    hexadecimal digits with white space at most before a pair and at the
    end), delete raises 400 "Invalid announcement id", and so does update
    once the dates of the payload are accepted; the teacher lookup is the
    only store call made. *)
Theorem malformed_id_is_invalid_input (env : Env) (announcement_id : string)
    (p : AnnouncementPayload) (u : option string) (w : World)
    (s : option date) (e : date) :
  authenticated u w ->
  ObjectId announcement_id = None ->
  delete_announcement announcement_id u w
  = (Raise (HTTPException 400 "Invalid announcement id"), after_call TeachersFindOne w)
  /\ (accepted_dates p s e ->
      update_announcement env announcement_id p u w
      = (Raise (HTTPException 400 "Invalid announcement id"),
         after_call TeachersFindOne w)).
Proof.
  intros Hu Ho. destruct (require_teacher_authenticated u w Hu) as [t E]. split.
  - enter_endpoint E. now rewrite Ho.
  - intros [Ps [Pe Pv]]. enter_endpoint E. now rewrite Ps, Pe, Pv, Ho.
Qed.

Lemma malformed_id_witness :
  delete_announcement "not-an-id" (Some "t1") Sample.world
  = (Raise (HTTPException 400 "Invalid announcement id"),
     after_call TeachersFindOne Sample.world).
Proof.
  destruct (malformed_id_is_invalid_input Sample.env "not-an-id" Sample.payload
              (Some "t1") Sample.world None (mkdate 2024 5 10)) as [H _].
  - exact authenticated_sample.
  - reflexivity.
  - exact H.
Defined.

(** What [ObjectId] refuses, and what it lets through: 24 characters that
    are not hexadecimal digits are refused, and so is white space inside a
    pair; white space between pairs is skipped, and delete then looks the
    shorter identifier up and answers 404. *)
Example identifiers_refused_and_accepted :
  ObjectId "not-an-id" = None
  /\ ObjectId "zzzzzzzzzzzzzzzzzzzzzzzz" = None
  /\ ObjectId "0 123456789abcdef012345 " = None
  /\ ObjectId "0123456789ABCDEF01234567" = Some "0123456789abcdef01234567"
  /\ ObjectId "0123456789abcdef012345  " = Some "0123456789abcdef012345"
  /\ delete_announcement "0123456789abcdef012345  " (Some "t1") Sample.world
     = (Raise (HTTPException 404 "Announcement not found"),
        after_call AnnouncementsFindOne (after_call TeachersFindOne Sample.world)).
Proof. repeat split; vm_compute; reflexivity. Qed.

(** ** Deleting *)

Lemma first_match_split (f : Doc -> bool) (c : list Doc) (d : Doc) :
  In d c -> f d = true ->
  exists before x after,
    c = (before ++ x :: after)%list /\ f x = true
    /\ (forall y, In y before -> f y = false).
Proof.
  induction c as [|y c IH]; intros Hd Hf; [destruct Hd|].
  destruct (f y) eqn:Hy.
  - exists [], y, c. repeat split; [assumption | intros z []].
  - destruct Hd as [->|Hd]; [congruence|].
    destruct (IH Hd Hf) as [before [x [after [-> [Hx Hb]]]]].
    exists (y :: before), x, after. repeat split; [assumption|].
    intros z [<-|Hz]; [assumption | now apply Hb].
Qed.

Lemma find_one_first q before x after :
  Mongo.matches q x = true -> (forall y, In y before -> Mongo.matches q y = false) ->
  Mongo.find_one q (before ++ x :: after) = Some x.
Proof.
  intros Hx Hb. unfold Mongo.find_one.
  induction before as [|y before IH]; simpl.
  - now rewrite Hx.
  - rewrite (Hb y (or_introl eq_refl)). apply IH. intros z Hz. apply Hb. now right.
Qed.

Lemma delete_one_first q before x after :
  Mongo.matches q x = true -> (forall y, In y before -> Mongo.matches q y = false) ->
  Mongo.delete_one q (before ++ x :: after) = (before ++ after)%list.
Proof.
  intros Hx Hb. induction before as [|y before IH]; simpl.
  - now rewrite Hx.
  - rewrite (Hb y (or_introl eq_refl)). f_equal. apply IH.
    intros z Hz. apply Hb. now right.
Qed.

Lemma delete_runs (announcement_id : string) (u : option string) (w : World)
    (oid : string) (before : list Doc) (x : Doc) (after : list Doc) :
  authenticated u w ->
  hd None (tl (faults w)) = None ->
  hd None (tl (tl (faults w))) = None ->
  ObjectId announcement_id = Some oid ->
  announcements_collection w = (before ++ x :: after)%list ->
  x !! "_id" = Some (BOid oid) ->
  (forall y, In y before -> y !! "_id" <> Some (BOid oid)) ->
  delete_announcement announcement_id u w
  = (Return {[ "message" := BStr "Announcement deleted" ]},
     set_announcements (before ++ after)%list
       (after_call AnnouncementsDeleteOne
          (after_call AnnouncementsFindOne (after_call TeachersFindOne w)))).
Proof.
  intros Hu F1 F2 Ho Hc Hx Hb.
  destruct (require_teacher_authenticated u w Hu) as [t E].
  assert (Hne : BOid oid <> BNull) by discriminate.
  assert (Mx : Mongo.matches (Mongo.by_id (BOid oid)) x = true)
    by now apply matches_by_id.
  assert (Mb : forall y, In y before -> Mongo.matches (Mongo.by_id (BOid oid)) y = false)
    by (apply no_match_by_id; assumption).
  enter_endpoint E. rewrite Ho.
  unfold except_HTTPException_reraise, mbind, M_bind,
    Store.announcements_find_one, Store.announcements_delete_one, store_call.
  cbn [faults after_call announcements_collection]. rewrite F1, Hc.
  rewrite (find_one_first _ _ _ _ Mx Mb), (not_doc_with_id x (BOid oid) Hx).
  cbn [faults after_call announcements_collection]. rewrite F2.
  rewrite (delete_one_first _ _ _ _ Mx Mb). reflexivity.
Qed.

(** X2.  When the teacher check passes, the identifier is a well-formed
    [ObjectId] that some record carries and the two calls on the
    announcements go through, delete answers "Announcement deleted" and
    removes the first record with that [_id] and nothing else: the records
    before and after it stay, in their order, and so do the teachers. *)
Theorem delete_removes_one_record (announcement_id : string) (u : option string)
    (w : World) (oid : string) (d : Doc) :
  authenticated u w ->
  hd None (tl (faults w)) = None ->
  hd None (tl (tl (faults w))) = None ->
  ObjectId announcement_id = Some oid ->
  In d (announcements_collection w) -> d !! "_id" = Some (BOid oid) ->
  exists before x after w',
    announcements_collection w = (before ++ x :: after)%list
    /\ x !! "_id" = Some (BOid oid)
    /\ (forall y, In y before -> y !! "_id" <> Some (BOid oid))
    /\ delete_announcement announcement_id u w
       = (Return {[ "message" := BStr "Announcement deleted" ]}, w')
    /\ announcements_collection w' = (before ++ after)%list
    /\ teachers_collection w' = teachers_collection w
    /\ calls w' = AnnouncementsDeleteOne :: AnnouncementsFindOne :: TeachersFindOne
                  :: calls w.
Proof.
  intros Hu F1 F2 Ho Hd Hid.
  assert (Hne : BOid oid <> BNull) by discriminate.
  destruct (first_match_split (Mongo.matches (Mongo.by_id (BOid oid))) _ d Hd)
    as [before [x [after [Hc [Hx Hb]]]]].
  { now apply matches_by_id. }
  apply (matches_by_id _ _ Hne) in Hx.
  assert (Hb' : forall y, In y before -> y !! "_id" <> Some (BOid oid)).
  { intros y Hy Ey. apply (matches_by_id _ _ Hne) in Ey. rewrite (Hb y Hy) in Ey.
    discriminate. }
  exists before, x, after. eexists.
  split; [exact Hc|]. split; [exact Hx|]. split; [exact Hb'|].
  split; [apply (delete_runs announcement_id u w oid before x after); assumption|].
  repeat split.
Qed.

Lemma delete_witness :
  exists before x after w',
    announcements_collection Sample.world = (before ++ x :: after)%list
    /\ x !! "_id" = Some (BOid "bbbbbbbbbbbbbbbbbbbbbbbb")
    /\ (forall y, In y before -> y !! "_id" <> Some (BOid "bbbbbbbbbbbbbbbbbbbbbbbb"))
    /\ delete_announcement "BBBBBBBBBBBBBBBBBBBBBBBB" (Some "t1") Sample.world
       = (Return {[ "message" := BStr "Announcement deleted" ]}, w')
    /\ announcements_collection w' = (before ++ after)%list
    /\ teachers_collection w' = teachers_collection Sample.world
    /\ calls w' = AnnouncementsDeleteOne :: AnnouncementsFindOne :: TeachersFindOne
                  :: calls Sample.world.
Proof.
  apply (delete_removes_one_record "BBBBBBBBBBBBBBBBBBBBBBBB" (Some "t1")
           Sample.world "bbbbbbbbbbbbbbbbbbbbbbbb" Sample.fair).
  - exact authenticated_sample.
  - reflexivity.
  - reflexivity.
  - vm_compute. reflexivity.
  - right. now left.
  - reflexivity.
Defined.

(** ** Creating *)

Lemma insert_one_fresh (doc : Doc) (oid : string) (c : list Doc) :
  (forall d, In d c -> d !! "_id" <> Some (BOid oid)) ->
  Mongo.insert_one (<["_id" := BOid oid]> doc) c
  = Some (c ++ [Bson.encode <$> <["_id" := BOid oid]> doc])%list.
Proof.
  intros H. unfold Mongo.insert_one, Bson.get. rewrite lookup_insert_eq. simpl.
  assert (Hne : BOid oid <> BNull) by discriminate.
  now rewrite (proj2 (find_one_by_id_none _ _ Hne) H).
Qed.

Lemma create_runs (env : Env) (p : AnnouncementPayload) (u : option string)
    (w : World) (s : option date) (e : date) :
  authenticated u w ->
  hd None (tl (faults w)) = None ->
  accepted_dates p s e ->
  (forall d, In d (announcements_collection w) ->
             d !! "_id" <> Some (BOid (new_id env))) ->
  create_announcement env p u w
  = (Return (serialize_announcement (new_document env p s e)),
     with_announcement (Bson.encode <$> new_document env p s e)
       (after_call AnnouncementsInsertOne (after_call TeachersFindOne w))).
Proof.
  intros Hu F1 [Ps [Pe Pv]] Hfresh.
  destruct (require_teacher_authenticated u w Hu) as [t E].
  enter_endpoint E. rewrite Ps, Pe, Pv.
  unfold except_Exception, mbind, M_bind, Store.announcements_insert_one, store_call.
  cbn [faults after_call announcements_collection]. rewrite F1.
  rewrite (insert_one_fresh _ _ _ Hfresh). reflexivity.
Qed.

(** X3.  When the teacher check passes, the dates of the payload are
    accepted, the new [_id] is not taken and the insert goes through,
    create appends one record to the collection and leaves the records
    that were there, and the teachers, as they were.  The record it
    appends has the new [_id], the trimmed title and message, the dates as
    ISO texts (null for an absent start_date) and the two clock readings
    cut to milliseconds; the record it returns has the same identifier,
    texts and dates, and the clock readings as they were read. *)
Theorem create_appends_one_record (env : Env) (p : AnnouncementPayload)
    (u : option string) (w : World) (s : option date) (e : date) :
  authenticated u w ->
  hd None (tl (faults w)) = None ->
  accepted_dates p s e ->
  (forall d, In d (announcements_collection w) ->
             d !! "_id" <> Some (BOid (new_id env))) ->
  exists r stored w',
    create_announcement env p u w = (Return r, w')
    /\ announcements_collection w' = (announcements_collection w ++ [stored])%list
    /\ teachers_collection w' = teachers_collection w
    /\ stored !! "_id" = Some (BOid (new_id env))
    /\ r !! "id" = Some (BStr (new_id env))
    /\ (forall k, In k ["title"; "message"; "start_date"; "end_date"] ->
          stored !! k = r !! k)
    /\ r !! "title" = Some (BStr (strip (title p)))
    /\ r !! "message" = Some (BStr (strip (message p)))
    /\ r !! "start_date" = Some (iso_or_none s)
    /\ r !! "end_date" = Some (BStr (isoformat e))
    /\ r !! "created_at" = Some (BDate (utcnow1 env))
    /\ r !! "updated_at" = Some (BDate (utcnow2 env))
    /\ stored !! "created_at" = Some (Bson.encode (BDate (utcnow1 env)))
    /\ stored !! "updated_at" = Some (Bson.encode (BDate (utcnow2 env))).
Proof.
  intros Hu F1 Ha Hfresh.
  exists (serialize_announcement (new_document env p s e)),
    (Bson.encode <$> new_document env p s e).
  eexists. split; [apply (create_runs env p u w s e); assumption|].
  split; [reflexivity|]. split; [reflexivity|].
  split; [reflexivity|]. split; [reflexivity|].
  split.
  { intros k Hk. simpl in Hk.
    destruct Hk as [<-|[<-|[<-|[<-|[]]]]]; try reflexivity.
    unfold new_document. rewrite lookup_fmap.
    destruct s; reflexivity. }
  repeat split; reflexivity.
Qed.

Lemma create_witness :
  exists r stored w',
    create_announcement Sample.env Sample.payload (Some "t1") Sample.world
    = (Return r, w')
    /\ announcements_collection w'
       = (announcements_collection Sample.world ++ [stored])%list
    /\ teachers_collection w' = teachers_collection Sample.world
    /\ stored !! "_id" = Some (BOid (new_id Sample.env))
    /\ r !! "id" = Some (BStr (new_id Sample.env))
    /\ (forall k, In k ["title"; "message"; "start_date"; "end_date"] ->
          stored !! k = r !! k)
    /\ r !! "title" = Some (BStr (strip (title Sample.payload)))
    /\ r !! "message" = Some (BStr (strip (message Sample.payload)))
    /\ r !! "start_date" = Some (iso_or_none None)
    /\ r !! "end_date" = Some (BStr (isoformat (mkdate 2024 5 10)))
    /\ r !! "created_at" = Some (BDate (utcnow1 Sample.env))
    /\ r !! "updated_at" = Some (BDate (utcnow2 Sample.env))
    /\ stored !! "created_at" = Some (Bson.encode (BDate (utcnow1 Sample.env)))
    /\ stored !! "updated_at" = Some (Bson.encode (BDate (utcnow2 Sample.env))).
Proof.
  apply (create_appends_one_record Sample.env Sample.payload (Some "t1")
           Sample.world None (mkdate 2024 5 10)).
  - exact authenticated_sample.
  - reflexivity.
  - repeat split; vm_compute; reflexivity.
  - intros d [<-|[<-|[]]]; vm_compute; discriminate.
Defined.

(** ** The dates of the stored records *)

Lemma parse_date_valid v f d : parse_date v f = Return (Some d) -> valid_date d.
Proof.
  intros H. apply parse_date_some in H as [text [_ [_ H]]].
  apply strptime_sound in H. now destruct H.
Qed.

Lemma validate_date_range_accepts s e :
  validate_date_range (Some s) e = Return tt -> date_le s e.
Proof.
  unfold validate_date_range, date_gt, date_le.
  destruct (date_compare s e); intros H; congruence.
Qed.

Lemma encode_str_fields (fields d : Doc) (k : string) (x : string) :
  fields !! k = Some (BStr x) -> ((Bson.encode <$> fields) ∪ d) !! k = Some (BStr x).
Proof. intros H. apply lookup_union_Some_l. now rewrite lookup_fmap, H. Qed.

Lemma encode_null_fields (fields d : Doc) (k : string) :
  fields !! k = Some BNull -> ((Bson.encode <$> fields) ∪ d) !! k = Some BNull.
Proof. intros H. apply lookup_union_Some_l. now rewrite lookup_fmap, H. Qed.

(** A record that takes its dates from accepted ones is well dated. *)
Lemma dated_fields_well_dated (fields d : Doc) (s : option date) (e : date) :
  fields !! "end_date" = Some (BStr (isoformat e)) ->
  fields !! "start_date" = Some (iso_or_none s) ->
  parse_date_result_valid s e ->
  well_dated ((Bson.encode <$> fields) ∪ d).
Proof.
  intros He Hs [Ve Vs]. exists e. split; [now apply encode_str_fields|].
  split; [assumption|]. destruct s as [s|]; simpl in Hs.
  - right. exists s. destruct (Vs s eq_refl) as [V L].
    split; [now apply encode_str_fields | split; assumption].
  - left. now apply encode_null_fields.
Qed.

Lemma accepted_dates_valid p s e (a : unit) :
  parse_date (start_date p) "start_date" = Return s ->
  parse_date (Some (end_date p)) "end_date" = Return (Some e) ->
  validate_date_range s e = Return a ->
  parse_date_result_valid s e.
Proof.
  intros Ps Pe Pv. destruct a. split; [now apply (parse_date_valid _ _ _ Pe)|].
  intros s' ->. split; [now apply (parse_date_valid _ _ _ Ps)|].
  now apply validate_date_range_accepts.
Qed.

Lemma insert_one_result doc c l :
  Mongo.insert_one doc c = Some l -> l = (c ++ [Bson.encode <$> doc])%list.
Proof.
  unfold Mongo.insert_one. destruct (Mongo.find_one _ c); [discriminate|]. congruence.
Qed.

Lemma update_one_keeps (P : Doc -> Prop) q fields c l n :
  Mongo.update_one q fields c = (l, n) ->
  (forall d, P ((Bson.encode <$> fields) ∪ d)) ->
  List.Forall P c -> List.Forall P l.
Proof.
  intros E Hnew H. revert l n E.
  induction H as [|d c Hd Hc IH]; intros l n E; simpl in E.
  - injection E as <- _. constructor.
  - destruct (Mongo.matches q d).
    + injection E as <- _. constructor; [apply Hnew | assumption].
    + destruct (Mongo.update_one q fields c) as [r m].
      injection E as <- _. constructor; [assumption | now apply (IH r m)].
Qed.

Lemma delete_one_keeps (P : Doc -> Prop) q c :
  List.Forall P c -> List.Forall P (Mongo.delete_one q c).
Proof.
  induction 1 as [|d c Hd Hc IH]; simpl; [constructor|].
  destruct (Mongo.matches q d); [assumption | now constructor].
Qed.

Lemma request_keeps_records_well_dated (op : operation) (w w' : World)
    (r : outcome response) :
  serve op w = (r, w') ->
  List.Forall well_dated (announcements_collection w) ->
  List.Forall well_dated (announcements_collection w').
Proof.
  intros H Hw. destruct w as [anns teachers fs cs]. cbn [announcements_collection] in Hw.
  destruct op; run_endpoint H.
  all: injection H as _ <-; cbn [announcements_collection]; try assumption.
  all: try (apply delete_one_keeps; assumption).
  all: try match goal with
       | E : Mongo.insert_one _ _ = Some _ |- _ =>
           apply insert_one_result in E; subst;
           apply Forall_app; split; [assumption|]; constructor; [|constructor];
           rewrite <- (map_union_empty (M := gmap string) (Bson.encode <$> _))
       | E : Mongo.update_one _ _ _ = (_, _) |- _ =>
           eapply update_one_keeps; [exact E | intros | assumption]
       end.
  all: eapply dated_fields_well_dated;
    [reflexivity | reflexivity | eapply accepted_dates_valid; eassumption].
Qed.

(** X4.  Whatever the endpoints are given, however they end and whatever
    the store raises on the way: when every stored announcement is well
    dated before a sequence of requests (end_date the ISO text of a date,
    start_date null or the ISO text of a date on or before it), every one
    is afterwards. *)
Theorem requests_keep_records_well_dated (ops : list operation) (w : World) :
  List.Forall well_dated (announcements_collection w) ->
  List.Forall well_dated (announcements_collection (after_requests ops w)).
Proof.
  revert w. induction ops as [|op ops IH]; intros w Hw; [exact Hw|].
  simpl. apply IH.
  apply (request_keeps_records_well_dated op w _ (fst (serve op w)));
    [apply surjective_pairing | exact Hw].
Qed.

Lemma sample_well_dated : List.Forall well_dated (announcements_collection Sample.world).
Proof.
  constructor; [|constructor; [|constructor]].
  - exists (mkdate 2024 5 10). repeat split. now left.
  - exists (mkdate 2024 6 30). repeat split. right.
    exists (mkdate 2024 6 1). repeat split. discriminate.
Qed.

Lemma well_dated_witness :
  List.Forall well_dated
    (announcements_collection
       (after_requests
          [Create Sample.env Sample.revised (Some "t1");
           Update Sample.env "aaaaaaaaaaaaaaaaaaaaaaaa" Sample.payload (Some "t1");
           Delete "bbbbbbbbbbbbbbbbbbbbbbbb" (Some "t1")]
          Sample.world)).
Proof. apply requests_keep_records_well_dated. exact sample_well_dated. Defined.

(** ** What a request leaves behind *)

Lemma update_one_unmatched q fields c l :
  Mongo.update_one q fields c = (l, 0) -> l = c.
Proof.
  revert l. induction c as [|d c IH]; intros l E; simpl in E.
  - now injection E as <-.
  - destruct (Mongo.matches q d); [discriminate|].
    destruct (Mongo.update_one q fields c) as [r m].
    injection E as <- ->. f_equal. now apply IH.
Qed.

(** The record [update_one] wrote is the one [find_one] reads back. *)
Lemma find_one_after_update (v : bson) (fields : Doc) c l n :
  v <> BNull -> fields !! "_id" = None ->
  Mongo.update_one (Mongo.by_id v) fields c = (l, n) -> n <> 0 ->
  exists before d after,
    c = (before ++ d :: after)%list
    /\ l = (before ++ ((Bson.encode <$> fields) ∪ d) :: after)%list
    /\ Mongo.find_one (Mongo.by_id v) c = Some d
    /\ Mongo.find_one (Mongo.by_id v) l = Some ((Bson.encode <$> fields) ∪ d)
    /\ ((Bson.encode <$> fields) ∪ d) !! "_id" = Some v.
Proof.
  intros Hv Hf E Hn.
  destruct (update_one_matched _ _ _ _ _ E Hn) as [before [d [after [-> [Hb [Hd ->]]]]]].
  exists before, d, after.
  assert (Hid : ((Bson.encode <$> fields) ∪ d) !! "_id" = Some v).
  { rewrite set_fields_elsewhere by assumption. now apply matches_by_id. }
  repeat split; [| |assumption].
  - now apply find_one_first.
  - apply find_one_first; [now apply matches_by_id | assumption].
Qed.

Lemma found_by_id_is_a_document v c g :
  v <> BNull -> Mongo.find_one (Mongo.by_id v) c = Some g -> not_doc (Some g) = false.
Proof.
  intros Hv F. unfold Mongo.find_one in F. apply List.find_some in F as [_ M].
  apply (matches_by_id v g Hv) in M. now apply (not_doc_with_id g v).
Qed.

Ltac read_back_impossible :=
  match goal with
  | F : Mongo.find_one (Mongo.by_id (BOid ?o)) _ = Some ?g,
    N : not_doc (Some ?g) = true |- _ =>
      let Hne := fresh "Hne" in
      assert (Hne : BOid o <> BNull) by discriminate;
      rewrite (found_by_id_is_a_document _ _ _ Hne F) in N; discriminate
  | E : Mongo.update_one (Mongo.by_id (BOid ?o)) ?f ?c = (?l, ?n),
    Z : (?n =? 0) = false,
    F : Mongo.find_one _ ?l = None |- _ =>
      let Hne := fresh "Hne" in
      let Found := fresh "Found" in
      assert (Hne : BOid o <> BNull) by discriminate;
      apply Z.eqb_neq in Z;
      destruct (find_one_after_update (BOid o) f c l n Hne eq_refl E Z)
        as (? & ? & ? & _ & _ & _ & Found & _);
      rewrite Found in F; discriminate
  end.

(** X5.  A request that ends in an error never changes the teachers, and
    leaves the announcements as they were, with one exception: an update
    whose [update_one] went through and whose read-back raised answers 500
    although the record is changed. *)
Theorem failed_request_changes_nothing (op : operation) (w w' : World) (e : exn) :
  serve op w = (Raise e, w') ->
  teachers_collection w' = teachers_collection w
  /\ (announcements_collection w' = announcements_collection w
      \/ exists env id p u text,
           op = Update env id p u
           /\ e = HTTPException 500 "Failed to update announcement"
           /\ hd None (tl (tl (faults w))) = Some text).
Proof.
  intros H. destruct w as [anns teachers fs cs].
  destruct op; run_endpoint H.
  all: try read_back_impossible.
  all: injection H as <- <-; split; [reflexivity|]; cbn [announcements_collection faults].
  all: try (left; reflexivity).
  all: try match goal with
       | E : Mongo.update_one _ _ _ = (_, ?z), Z : (?z =? 0) = true |- _ =>
           apply Z.eqb_eq in Z; subst z; apply update_one_unmatched in E; subst;
           left; reflexivity
       end.
  all: right; do 5 eexists; split; [reflexivity|]; split; [reflexivity | eassumption].
Qed.

Lemma failed_request_witness :
  teachers_collection
    (snd (serve (Delete "cccccccccccccccccccccccc" (Some "t1")) Sample.world))
  = teachers_collection Sample.world
  /\ announcements_collection
       (snd (serve (Delete "cccccccccccccccccccccccc" (Some "t1")) Sample.world))
     = announcements_collection Sample.world.
Proof.
  destruct (failed_request_changes_nothing
              (Delete "cccccccccccccccccccccccc" (Some "t1")) Sample.world
              (snd (serve (Delete "cccccccccccccccccccccccc" (Some "t1")) Sample.world))
              (HTTPException 404 "Announcement not found"))
    as [Ht [Ha|(env & id & p & u & text & Hop & _)]].
  - vm_compute. reflexivity.
  - split; assumption.
  - discriminate Hop.
Defined.

(** The exception of X5 happens: the read-back of an update raises after
    the record was written. *)
Example update_fails_after_writing :
  fst (serve (Update Sample.env "aaaaaaaaaaaaaaaaaaaaaaaa" Sample.revised (Some "t1"))
         (mkWorld [Sample.exam] [Sample.teacher] [None; None; Some "timeout"] []))
  = Raise (HTTPException 500 "Failed to update announcement")
  /\ stored_titles
       (snd (serve (Update Sample.env "aaaaaaaaaaaaaaaaaaaaaaaa" Sample.revised
                      (Some "t1"))
               (mkWorld [Sample.exam] [Sample.teacher] [None; None; Some "timeout"] [])))
     = [BStr "Exam moved"].
Proof. split; vm_compute; reflexivity. Qed.

(** X6.  Starting from an empty call log, the store calls a request made
    are an initial part of the script of its endpoint, and the whole
    script when it returns: the teacher lookup comes first on the
    management routes, and no endpoint makes a call outside its script.  A
    request never changes the teachers, and changes the announcements only
    if it made a write call; the two listings make none. *)
Theorem requests_follow_their_script (op : operation) (w w' : World)
    (r : outcome response) :
  calls w = [] ->
  serve op w = (r, w') ->
  (exists rest, script op = (rev (calls w') ++ rest)%list)
  /\ (is_return r = true -> rev (calls w') = script op)
  /\ teachers_collection w' = teachers_collection w
  /\ (existsb is_write (calls w') = false ->
      announcements_collection w' = announcements_collection w)
  /\ (existsb is_write (script op) = false ->
      announcements_collection w' = announcements_collection w).
Proof.
  intros Hc H. destruct w as [anns teachers fs cs]. simpl in Hc. subst cs.
  destruct op; run_endpoint H.
  all: injection H as <- <-; cbn [calls teachers_collection announcements_collection];
    (split; [eexists; reflexivity|]);
    (split; [cbn [is_return]; intros; first [discriminate | reflexivity]|]);
    (split; [reflexivity|]);
    split; cbn; intros; first [discriminate | reflexivity].
Qed.

Lemma script_witness :
  (exists rest,
     script (ListAll (Some "t1"))
     = (rev (calls (snd (serve (ListAll (Some "t1")) Sample.world))) ++ rest)%list)
  /\ (is_return (fst (serve (ListAll (Some "t1")) Sample.world)) = true ->
      rev (calls (snd (serve (ListAll (Some "t1")) Sample.world)))
      = script (ListAll (Some "t1")))
  /\ teachers_collection (snd (serve (ListAll (Some "t1")) Sample.world))
     = teachers_collection Sample.world
  /\ (existsb is_write (calls (snd (serve (ListAll (Some "t1")) Sample.world))) = false ->
      announcements_collection (snd (serve (ListAll (Some "t1")) Sample.world))
      = announcements_collection Sample.world)
  /\ (existsb is_write (script (ListAll (Some "t1"))) = false ->
      announcements_collection (snd (serve (ListAll (Some "t1")) Sample.world))
      = announcements_collection Sample.world).
Proof.
  apply (requests_follow_their_script (ListAll (Some "t1")) Sample.world).
  - reflexivity.
  - apply surjective_pairing.
Defined.

(** ** Create, then the other endpoints *)

Lemma store_up_next (l : list (option string)) :
  (forall f, In f l -> f = None) ->
  hd None l = None /\ (forall f, In f (tl l) -> f = None).
Proof.
  intros H. destruct l as [|f l]; simpl; [tauto|]. split.
  - apply H. now left.
  - intros g Hg. apply H. now right.
Qed.

(** X7.  The identifier create returns is the one delete takes: when the
    store raises nothing, a create followed by a delete of the returned
    identifier leaves the announcements exactly as they were before the
    two requests. *)
Theorem delete_undoes_create (env : Env) (p : AnnouncementPayload)
    (u : option string) (w : World) (s : option date) (e : date) :
  authenticated u w ->
  store_up w ->
  accepted_dates p s e ->
  (forall d, In d (announcements_collection w) ->
             d !! "_id" <> Some (BOid (new_id env))) ->
  ObjectId (new_id env) = Some (new_id env) ->
  exists r w1 w2,
    create_announcement env p u w = (Return r, w1)
    /\ r !! "id" = Some (BStr (new_id env))
    /\ delete_announcement (new_id env) u w1
       = (Return {[ "message" := BStr "Announcement deleted" ]}, w2)
    /\ announcements_collection w2 = announcements_collection w
    /\ teachers_collection w2 = teachers_collection w.
Proof.
  intros Hu Hup Ha Hfresh Ho.
  destruct (store_up_next _ Hup) as [F0 Hup1].
  destruct (store_up_next _ Hup1) as [F1 Hup2].
  destruct (store_up_next _ Hup2) as [F2 Hup3].
  destruct (store_up_next _ Hup3) as [F3 Hup4].
  destruct (store_up_next _ Hup4) as [F4 _].
  eexists _, _, _. split; [apply (create_runs env p u w s e); assumption|].
  split; [reflexivity|].
  split.
  - apply (delete_runs (new_id env) u _ (new_id env)
             (announcements_collection w) (Bson.encode <$> new_document env p s e) []).
    + destruct Hu as [n [-> [Hn [_ Hk]]]]. exists n. repeat split; assumption.
    + exact F3.
    + exact F4.
    + exact Ho.
    + reflexivity.
    + reflexivity.
    + exact Hfresh.
  - split; [|reflexivity]. cbn [announcements_collection set_announcements].
    apply app_nil_r.
Qed.

Lemma delete_undoes_create_witness :
  exists r w1 w2,
    create_announcement Sample.env Sample.payload (Some "t1") Sample.world
    = (Return r, w1)
    /\ r !! "id" = Some (BStr (new_id Sample.env))
    /\ delete_announcement (new_id Sample.env) (Some "t1") w1
       = (Return {[ "message" := BStr "Announcement deleted" ]}, w2)
    /\ announcements_collection w2 = announcements_collection Sample.world
    /\ teachers_collection w2 = teachers_collection Sample.world.
Proof.
  apply (delete_undoes_create Sample.env Sample.payload (Some "t1") Sample.world
           None (mkdate 2024 5 10)).
  - exact authenticated_sample.
  - intros f [].
  - repeat split; vm_compute; reflexivity.
  - intros d [<-|[<-|[]]]; vm_compute; discriminate.
  - vm_compute. reflexivity.
Defined.

(** Reading a record back from the store cuts its clock readings to
    milliseconds and changes nothing else of what is serialized. *)
Lemma get_encoded (d : Doc) (k : string) :
  Bson.get (Bson.encode <$> d) k = Bson.encode (Bson.get d k).
Proof. unfold Bson.get. rewrite lookup_fmap. now destruct (d !! k). Qed.

Lemma serialize_encoded (d : Doc) (oid : string) :
  d !! "_id" = Some (BOid oid) ->
  serialize_announcement (Bson.encode <$> d) = Bson.encode <$> serialize_announcement d.
Proof.
  intros Hid. unfold serialize_announcement.
  rewrite <- list_to_map_fmap, !get_encoded, lookup_fmap, Hid. reflexivity.
Qed.

(** X8.  After a create that succeeded, listAll (the store raising
    nothing) returns the records it would have returned before, together
    with the created one: the record create returned, with its two clock
    readings cut to milliseconds. *)
Theorem created_record_is_listed (env : Env) (p : AnnouncementPayload)
    (u : option string) (w : World) (s : option date) (e : date) :
  authenticated u w ->
  store_up w ->
  accepted_dates p s e ->
  (forall d, In d (announcements_collection w) ->
             d !! "_id" <> Some (BOid (new_id env))) ->
  exists r w1 l w2,
    create_announcement env p u w = (Return r, w1)
    /\ list_announcements u w1 = (Return l, w2)
    /\ Permutation l
         (map serialize_announcement (announcements_collection w)
          ++ [Bson.encode <$> r])%list
    /\ StronglySorted end_desc_then_start_desc l.
Proof.
  intros Hu Hup Ha Hfresh.
  destruct (store_up_next _ Hup) as [F0 Hup1].
  destruct (store_up_next _ Hup1) as [F1 Hup2].
  destruct (store_up_next _ Hup2) as [F2 Hup3].
  destruct (store_up_next _ Hup3) as [F3 _].
  eexists _, _, _, _. split; [apply (create_runs env p u w s e); assumption|].
  split.
  - apply list_all_runs; [|exact F3].
    destruct Hu as [n [-> [Hn [_ Hk]]]]. exists n. repeat split; assumption.
  - split.
    + rewrite sort_perm. cbn [announcements_collection with_announcement set_announcements].
      rewrite map_app. cbn [map].
      now rewrite (serialize_encoded (new_document env p s e) (new_id env)).
    + apply serialized_sorted; [|apply sort_le_management].
      intros k dir [[= <- <-]|[[= <- <-]|[]]]; simpl; tauto.
Qed.

Lemma created_record_is_listed_witness :
  exists r w1 l w2,
    create_announcement Sample.env Sample.payload (Some "t1") Sample.world
    = (Return r, w1)
    /\ list_announcements (Some "t1") w1 = (Return l, w2)
    /\ Permutation l
         (map serialize_announcement (announcements_collection Sample.world)
          ++ [Bson.encode <$> r])%list
    /\ StronglySorted end_desc_then_start_desc l.
Proof.
  apply (created_record_is_listed Sample.env Sample.payload (Some "t1") Sample.world
           None (mkdate 2024 5 10)).
  - exact authenticated_sample.
  - intros f [].
  - repeat split; vm_compute; reflexivity.
  - intros d [<-|[<-|[]]]; vm_compute; discriminate.
Defined.

(** The record create stores is in the window of a day exactly when the
    day is between its dates. *)
Lemma new_document_window (env : Env) (p : AnnouncementPayload) (s : option date)
    (e today : date) :
  valid_date today -> parse_date_result_valid s e ->
  active_on today (Bson.encode <$> new_document env p s e) = in_window today s e.
Proof.
  intros Ht [Ve Vs]. unfold active_on, in_window.
  replace ((Bson.encode <$> new_document env p s e) !! "end_date")
    with (Some (BStr (isoformat e))) by reflexivity.
  replace ((Bson.encode <$> new_document env p s e) !! "start_date")
    with (Some (Bson.encode (iso_or_none s))) by reflexivity.
  cbn [on_or_after]. rewrite (leb_isoformat_dates today e Ht Ve). f_equal.
  destruct s as [s|]; [|reflexivity].
  destruct (Vs s eq_refl) as [V _]. cbn [iso_or_none Bson.encode on_or_before].
  now rewrite (leb_isoformat_dates s today V Ht).
Qed.

(** X9.  After a create that succeeded, listActive for a day [today]
    (the store raising nothing) returns the records it would have returned
    before, and the created one exactly when [today] is not after its
    end_date and, if it has a start_date, not before it. *)
Theorem created_record_is_active_in_its_window (env : Env)
    (p : AnnouncementPayload) (u : option string) (w : World)
    (s : option date) (e today : date) :
  authenticated u w ->
  store_up w ->
  accepted_dates p s e ->
  (forall d, In d (announcements_collection w) ->
             d !! "_id" <> Some (BOid (new_id env))) ->
  valid_date today ->
  exists r w1 l w2,
    create_announcement env p u w = (Return r, w1)
    /\ get_active_announcements today w1 = (Return l, w2)
    /\ Permutation l
         (map serialize_announcement
            (List.filter (active_on today) (announcements_collection w))
          ++ (if in_window today s e then [Bson.encode <$> r] else []))%list.
Proof.
  intros Hu Hup Ha Hfresh Ht.
  destruct (store_up_next _ Hup) as [F0 Hup1].
  destruct (store_up_next _ Hup1) as [F1 Hup2].
  destruct (store_up_next _ Hup2) as [F2 _].
  eexists _, _, _, _. split; [apply (create_runs env p u w s e); assumption|].
  split; [apply list_active_runs; exact F2|].
  unfold Mongo.find. rewrite sort_perm.
  rewrite (List.filter_ext _ _ (active_query_window today)).
  cbn [announcements_collection with_announcement set_announcements after_call].
  rewrite List.filter_app, map_app. cbn [List.filter].
  rewrite new_document_window.
  - destruct (in_window today s e); cbn [map]; [|reflexivity].
    now rewrite (serialize_encoded (new_document env p s e) (new_id env)).
  - assumption.
  - destruct Ha as [Ps [Pe Pv]]. now apply (accepted_dates_valid p s e tt).
Qed.

Lemma created_record_window_witness :
  exists r w1 l w2,
    create_announcement Sample.env Sample.revised (Some "t1") Sample.world
    = (Return r, w1)
    /\ get_active_announcements (mkdate 2024 5 7) w1 = (Return l, w2)
    /\ Permutation l
         (map serialize_announcement
            (List.filter (active_on (mkdate 2024 5 7))
               (announcements_collection Sample.world))
          ++ (if in_window (mkdate 2024 5 7) (Some (mkdate 2024 5 6)) (mkdate 2024 5 13)
              then [Bson.encode <$> r] else []))%list.
Proof.
  apply (created_record_is_active_in_its_window Sample.env Sample.revised (Some "t1")
           Sample.world (Some (mkdate 2024 5 6)) (mkdate 2024 5 13) (mkdate 2024 5 7)).
  - exact authenticated_sample.
  - intros f [].
  - repeat split; vm_compute; reflexivity.
  - intros d [<-|[<-|[]]]; vm_compute; discriminate.
  - reflexivity.
Defined.

(** ** What update returns *)

Lemma get_set_field (fields d : Doc) (k : string) (x : bson) :
  fields !! k = Some x -> Bson.get ((Bson.encode <$> fields) ∪ d) k = Bson.encode x.
Proof.
  intros H. unfold Bson.get.
  rewrite (lookup_union_Some_l _ _ _ (Bson.encode x)); [reflexivity|].
  now rewrite lookup_fmap, H.
Qed.

(** X10.  When update returns a record, that record is the serialized
    form of the record as it is stored afterwards, read back by its
    identifier: its id is the identifier in lower case, its title and
    message are the trimmed ones of the payload, its dates are the parsed
    ones as ISO texts (null for an absent start_date), updated_at is the
    clock reading cut to milliseconds and created_at is what the record
    had before. *)
Theorem update_returns_the_stored_record (env : Env) (announcement_id : string)
    (p : AnnouncementPayload) (u : option string) (w w' : World) (r : Doc) :
  update_announcement env announcement_id p u w = (Return r, w') ->
  exists oid s e old new,
    ObjectId announcement_id = Some oid
    /\ accepted_dates p s e
    /\ Mongo.find_one (Mongo.by_id (BOid oid)) (announcements_collection w) = Some old
    /\ Mongo.find_one (Mongo.by_id (BOid oid)) (announcements_collection w') = Some new
    /\ r = serialize_announcement new
    /\ r !! "id" = Some (BStr oid)
    /\ r !! "title" = Some (BStr (strip (title p)))
    /\ r !! "message" = Some (BStr (strip (message p)))
    /\ r !! "start_date" = Some (iso_or_none s)
    /\ r !! "end_date" = Some (BStr (isoformat e))
    /\ r !! "updated_at" = Some (Bson.encode (BDate (utcnow1 env)))
    /\ r !! "created_at" = Some (Bson.get old "created_at").
Proof.
  intros H. unfold update_announcement, mbind, M_bind, lift, raise in H.
  pose proof (require_teacher_cases u w) as C.
  destruct (require_teacher u w) as [rt w1].
  inversion C; subst; try discriminate.
  destruct (parse_date (start_date p) "start_date") as [s|x] eqn:Ps; try discriminate.
  destruct (parse_date (Some (end_date p)) "end_date") as [[e|]|x] eqn:Pe;
    try discriminate.
  destruct (validate_date_range s e) as [[]|x] eqn:Pv; try discriminate.
  destruct (ObjectId announcement_id) as [oid|]; try discriminate.
  unfold except_HTTPException_reraise, mbind, M_bind,
    Store.announcements_update_one, Store.announcements_find_one, store_call, raise in H.
  cbn [faults after_call announcements_collection teachers_collection calls] in H.
  destruct (hd None (tl (faults w))) as [text|]; try discriminate.
  destruct (Mongo.update_one _ _ (announcements_collection w)) as [c m] eqn:Hupd.
  destruct (m =? 0) eqn:Hm; try discriminate.
  cbn [faults after_call announcements_collection teachers_collection calls
       set_announcements] in H.
  destruct (hd None (tl (tl (faults w)))) as [text|]; try discriminate.
  apply Z.eqb_neq in Hm.
  assert (Hne : BOid oid <> BNull) by discriminate.
  pose proof (fun Hf => find_one_after_update (BOid oid) _ _ c m Hne Hf Hupd Hm) as X.
  destruct (X eq_refl) as (before & old & after & Hc & Hl & Fold & Fnew & Hid).
  clear X.
  rewrite Fnew, (not_doc_with_id _ _ Hid) in H.
  unfold mret, M_ret in H. cbv beta iota in H.
  match type of H with
  | (Return (serialize_announcement ?new), ?world) = _ =>
      assert (Hr : serialize_announcement new = r) by congruence;
      assert (Hw : world = w') by congruence;
      exists oid, s, e, old, new
  end.
  subst w'. cbn [announcements_collection].
  split; [reflexivity|]. split; [repeat split; assumption|].
  split; [exact Fold|]. split; [exact Fnew|]. split; [symmetry; exact Hr|].
  rewrite <- Hr.
  split; [rewrite serialize_id, Hid; reflexivity|].
  rewrite !serialize_lookup by (simpl; tauto).
  rewrite (get_set_field _ _ "title" (BStr (strip (title p)))) by reflexivity.
  rewrite (get_set_field _ _ "message" (BStr (strip (message p)))) by reflexivity.
  rewrite (get_set_field _ _ "start_date" (iso_or_none s)) by reflexivity.
  rewrite (get_set_field _ _ "end_date" (BStr (isoformat e))) by reflexivity.
  rewrite (get_set_field _ _ "updated_at" (BDate (utcnow1 env))) by reflexivity.
  split; [reflexivity|]. split; [reflexivity|].
  split; [destruct s; reflexivity|]. split; [reflexivity|]. split; [reflexivity|].
  f_equal. unfold Bson.get. now rewrite set_fields_elsewhere.
Qed.

Lemma update_response_witness :
  exists oid s e old new,
    ObjectId "AAAAAAAAAAAAAAAAAAAAAAAA" = Some oid
    /\ accepted_dates Sample.revised s e
    /\ Mongo.find_one (Mongo.by_id (BOid oid)) (announcements_collection Sample.world)
       = Some old
    /\ Mongo.find_one (Mongo.by_id (BOid oid))
         (announcements_collection
            (snd (update_announcement Sample.env "AAAAAAAAAAAAAAAAAAAAAAAA"
                    Sample.revised (Some "t1") Sample.world)))
       = Some new
    /\ returned_field
         (fst (update_announcement Sample.env "AAAAAAAAAAAAAAAAAAAAAAAA"
                 Sample.revised (Some "t1") Sample.world)) "id"
       = Some (BStr oid).
Proof.
  destruct (returned_pair (update_announcement Sample.env "AAAAAAAAAAAAAAAAAAAAAAAA"
                             Sample.revised (Some "t1") Sample.world)) as [r E].
  - vm_compute. reflexivity.
  - destruct (update_returns_the_stored_record _ _ _ _ _ _ r E)
      as (oid & s & e & old & new & Ho & Ha & Fo & Fn & _ & Hid & _).
    exists oid, s, e, old, new. rewrite E. cbn [fst snd returned_field].
    repeat split; try assumption; apply Ha.
Defined.

(** ** The shape of the responses *)

Lemma serialize_keys (d : Doc) : has_response_keys (serialize_announcement d).
Proof.
  intros k. split.
  - intros [x Hx]. unfold serialize_announcement in Hx.
    rewrite !list_to_map_cons, list_to_map_nil in Hx.
    repeat (rewrite lookup_insert in Hx; case_decide;
            [subst k; simpl; tauto|]).
    now rewrite lookup_empty in Hx.
  - intros H. simpl in H.
    repeat (destruct H as [<-|H]; [eexists; reflexivity|]). destruct H.
Qed.

Lemma found_records q spec (c : list Doc) :
  List.Forall (carries_one_of c) (map serialize_announcement (Mongo.find q spec c)).
Proof.
  apply List.Forall_forall. intros r Hr.
  apply List.in_map_iff in Hr as [d [<- Hd]].
  split; [apply serialize_keys|]. exists d. split; [|apply serialize_carries].
  unfold Mongo.find in Hd. apply (Permutation_in _ (sort_perm spec _)) in Hd.
  now apply List.filter_In in Hd.
Qed.

Lemma found_record q (c : list Doc) (d : Doc) :
  Mongo.find_one q c = Some d -> carries_one_of c (serialize_announcement d).
Proof.
  intros H. unfold Mongo.find_one in H. apply List.find_some in H as [Hd _].
  split; [apply serialize_keys|]. exists d. split; [exact Hd | apply serialize_carries].
Qed.

(** X11.  Every record in a response of listActive, listAll, create or
    update has the keys id, title, message, start_date, end_date,
    created_at and updated_at and no other, and carries a record of the
    collection as the request leaves it: its id is the text of the [_id],
    and under the six other keys it holds what the stored record holds,
    null for a field the record lacks.  So the stored [_id] and whatever
    else a stored document holds are not passed on.  For create the record
    carried is the document as the endpoint built it, which is stored with
    its clock readings cut to milliseconds.  Delete answers with its
    message only. *)
Theorem responses_carry_the_response_keys (op : operation) (w w' : World)
    (resp : response) :
  serve op w = (Return resp, w') ->
  match resp with
  | Listing l => List.Forall (carries_one_of (announcements_collection w')) l
  | Single r =>
      match op with
      | Delete _ _ => r = {[ "message" := BStr "Announcement deleted" ]}
      | Create _ _ _ =>
          has_response_keys r
          /\ exists d, In (Bson.encode <$> d) (announcements_collection w')
                       /\ carries r d
      | _ => carries_one_of (announcements_collection w') r
      end
  end.
Proof.
  intros H. destruct op; run_endpoint H.
  all: match type of H with
       | (Return ?x, ?wd) = (Return ?r, ?w2) =>
           let Hr := fresh "Hr" in
           let Hw := fresh "Hw" in
           assert (Hr : x = r) by congruence;
           assert (Hw : wd = w2) by congruence;
           rewrite <- Hr; try rewrite <- Hw; clear H Hr Hw
       end.
  all: cbn [announcements_collection].
  - apply found_records.
  - apply found_records.
  - split; [apply serialize_keys|]. eexists. split; [|apply serialize_carries].
    match goal with
    | E : Mongo.insert_one _ _ = Some _ |- _ => apply insert_one_result in E; subst
    end.
    apply in_or_app. right. now left.
  - eapply found_record. eassumption.
  - reflexivity.
Qed.

Lemma response_keys_witness :
  match fst (serve (ListAll (Some "t1")) Sample.world) with
  | Return (Listing l) =>
      List.Forall (carries_one_of (announcements_collection Sample.world)) l
  | _ => False
  end.
Proof.
  destruct (serve (ListAll (Some "t1")) Sample.world) as [[resp|e] w'] eqn:E.
  - pose proof (responses_carry_the_response_keys _ _ _ _ E) as H.
    assert (Hw : announcements_collection w' = announcements_collection Sample.world).
    { apply (f_equal (fun x => announcements_collection (snd x))) in E.
      cbn [snd] in E. rewrite <- E. reflexivity. }
    rewrite Hw in H.
    destruct resp as [l|d]; [exact H|].
    apply (f_equal (fun x => match fst x with Return (Listing _) => true | _ => false end)) in E.
    vm_compute in E. discriminate.
  - apply (f_equal (fun x => is_return (fst x))) in E. vm_compute in E. discriminate.
Defined.

(** A stored record that lacks a field is listed with null there. *)
Example missing_field_is_null :
  match fst (list_announcements (Some "t1")
               (mkWorld [{[ "_id" := BOid "cccccccccccccccccccccccc";
                            "title" := BStr "Bare" ]}] [Sample.teacher] [] [])) with
  | Return [r] =>
      r !! "id" = Some (BStr "cccccccccccccccccccccccc")
      /\ r !! "title" = Some (BStr "Bare")
      /\ r !! "end_date" = Some BNull /\ r !! "created_at" = Some BNull
      /\ r !! "_id" = None
  | _ => False
  end.
Proof. vm_compute. repeat split. Qed.

(** ** Who asks *)

(** X12.  The teacher check is all a management endpoint does with the
    teacher: the same request from any two teachers that pass the check
    has the same outcome and leaves the same world.  No record belongs to
    a teacher; whoever passes the check may update or delete any of them. *)
Theorem any_teacher_gets_the_same (op : operation) (u v : option string) (w : World) :
  teacher_of op = Some u ->
  authenticated u w -> authenticated v w ->
  serve (with_teacher v op) w = serve op w.
Proof.
  intros Hop Hu Hv.
  destruct (require_teacher_authenticated u w Hu) as [t E].
  destruct (require_teacher_authenticated v w Hv) as [t' E'].
  destruct op; simpl in Hop; try discriminate; injection Hop as ->;
    cbn [with_teacher];
    unfold serve, create_announcement, update_announcement, delete_announcement,
      list_announcements, mbind, M_bind;
    rewrite E, E'; reflexivity.
Qed.

Lemma any_teacher_witness :
  serve (with_teacher (Some "t2") (Delete "aaaaaaaaaaaaaaaaaaaaaaaa" (Some "t1")))
    (mkWorld [Sample.exam] [Sample.teacher; {[ "_id" := BStr "t2" ]}] [] [])
  = serve (Delete "aaaaaaaaaaaaaaaaaaaaaaaa" (Some "t1"))
      (mkWorld [Sample.exam] [Sample.teacher; {[ "_id" := BStr "t2" ]}] [] []).
Proof.
  apply (any_teacher_gets_the_same _ (Some "t1")).
  - reflexivity.
  - exists "t1". repeat split; [discriminate|].
    exists Sample.teacher. split; [now left | reflexivity].
  - exists "t2". repeat split; [discriminate|].
    exists {[ "_id" := BStr "t2" ]}. split; [right; now left | reflexivity].
Defined.

(** ** Updating and deleting twice *)

Lemma update_one_first q fields before x after :
  Mongo.matches q x = true -> (forall y, In y before -> Mongo.matches q y = false) ->
  Mongo.update_one q fields (before ++ x :: after)
  = ((before ++ ((Bson.encode <$> fields) ∪ x) :: after)%list, 1).
Proof.
  intros Hx Hb. induction before as [|y before IH]; simpl.
  - now rewrite Hx.
  - rewrite (Hb y (or_introl eq_refl)), IH; [reflexivity|].
    intros z Hz. apply Hb. now right.
Qed.

Lemma update_runs (env : Env) (announcement_id : string) (p : AnnouncementPayload)
    (u : option string) (w : World) (s : option date) (e : date) (oid : string)
    (before : list Doc) (x : Doc) (after : list Doc) :
  authenticated u w ->
  hd None (tl (faults w)) = None ->
  hd None (tl (tl (faults w))) = None ->
  accepted_dates p s e ->
  ObjectId announcement_id = Some oid ->
  announcements_collection w = (before ++ x :: after)%list ->
  x !! "_id" = Some (BOid oid) ->
  (forall y, In y before -> y !! "_id" <> Some (BOid oid)) ->
  update_announcement env announcement_id p u w
  = (Return (serialize_announcement ((Bson.encode <$> updates_of env p s e) ∪ x)),
     set_announcements
       (before ++ ((Bson.encode <$> updates_of env p s e) ∪ x) :: after)%list
       (after_call AnnouncementsFindOne
          (after_call AnnouncementsUpdateOne (after_call TeachersFindOne w)))).
Proof.
  intros Hu F1 F2 [Ps [Pe Pv]] Ho Hc Hx Hb.
  destruct (require_teacher_authenticated u w Hu) as [t E].
  assert (Hne : BOid oid <> BNull) by discriminate.
  assert (Mx : Mongo.matches (Mongo.by_id (BOid oid)) x = true)
    by now apply matches_by_id.
  assert (Mb : forall y, In y before -> Mongo.matches (Mongo.by_id (BOid oid)) y = false)
    by (apply no_match_by_id; assumption).
  assert (Hid : ((Bson.encode <$> updates_of env p s e) ∪ x) !! "_id" = Some (BOid oid))
    by (rewrite set_fields_elsewhere by reflexivity; exact Hx).
  enter_endpoint E. rewrite Ps, Pe, Pv, Ho.
  unfold except_HTTPException_reraise, mbind, M_bind,
    Store.announcements_update_one, Store.announcements_find_one, store_call.
  cbn [faults after_call announcements_collection]. rewrite F1, Hc.
  fold (updates_of env p s e).
  rewrite (update_one_first _ _ _ _ _ Mx Mb).
  cbn [Z.eqb faults after_call announcements_collection set_announcements].
  rewrite F2.
  rewrite (find_one_first _ _ _ _ ((proj2 (matches_by_id _ _ Hne)) Hid) Mb).
  rewrite (not_doc_with_id _ _ Hid). reflexivity.
Qed.

Lemma set_fields_twice (fields d : Doc) :
  (Bson.encode <$> fields) ∪ ((Bson.encode <$> fields) ∪ d) = (Bson.encode <$> fields) ∪ d.
Proof. now rewrite (assoc_L (∪)), (idemp_L (∪)). Qed.

(** X13.  Update is idempotent: when the store raises nothing, the same
    update (same payload, same clock reading) made a second time returns
    the same record and leaves the announcements as the first one left
    them. *)
Theorem update_twice_is_update_once (env : Env) (announcement_id : string)
    (p : AnnouncementPayload) (u : option string) (w : World)
    (s : option date) (e : date) (oid : string) (d : Doc) :
  authenticated u w ->
  store_up w ->
  accepted_dates p s e ->
  ObjectId announcement_id = Some oid ->
  In d (announcements_collection w) -> d !! "_id" = Some (BOid oid) ->
  exists r w1 w2,
    update_announcement env announcement_id p u w = (Return r, w1)
    /\ update_announcement env announcement_id p u w1 = (Return r, w2)
    /\ announcements_collection w2 = announcements_collection w1
    /\ teachers_collection w2 = teachers_collection w.
Proof.
  intros Hu Hup Ha Ho Hd Hid.
  destruct (store_up_next _ Hup) as [F0 Hup1].
  destruct (store_up_next _ Hup1) as [F1 Hup2].
  destruct (store_up_next _ Hup2) as [F2 Hup3].
  destruct (store_up_next _ Hup3) as [F3 Hup4].
  destruct (store_up_next _ Hup4) as [F4 Hup5].
  destruct (store_up_next _ Hup5) as [F5 _].
  assert (Hne : BOid oid <> BNull) by discriminate.
  destruct (first_match_split (Mongo.matches (Mongo.by_id (BOid oid))) _ d Hd)
    as [before [x [after [Hc [Hx Hb]]]]].
  { now apply matches_by_id. }
  apply (matches_by_id _ _ Hne) in Hx.
  assert (Hb' : forall y, In y before -> y !! "_id" <> Some (BOid oid)).
  { intros y Hy Ey. apply (matches_by_id _ _ Hne) in Ey. rewrite (Hb y Hy) in Ey.
    discriminate. }
  eexists _, _, _.
  split; [apply (update_runs env announcement_id p u w s e oid before x after);
          assumption|].
  split.
  - rewrite (update_runs env announcement_id p u _ s e oid before
               ((Bson.encode <$> updates_of env p s e) ∪ x) after);
      try assumption.
    + rewrite set_fields_twice. reflexivity.
    + destruct Hu as [n [-> [Hn [_ Hk]]]]. exists n. repeat split; assumption.
    + reflexivity.
    + rewrite set_fields_elsewhere by reflexivity. exact Hx.
  - split; reflexivity.
Qed.

Lemma update_twice_witness :
  exists r w1 w2,
    update_announcement Sample.env "aaaaaaaaaaaaaaaaaaaaaaaa" Sample.revised
      (Some "t1") Sample.world = (Return r, w1)
    /\ update_announcement Sample.env "aaaaaaaaaaaaaaaaaaaaaaaa" Sample.revised
         (Some "t1") w1 = (Return r, w2)
    /\ announcements_collection w2 = announcements_collection w1
    /\ teachers_collection w2 = teachers_collection Sample.world.
Proof.
  apply (update_twice_is_update_once Sample.env "aaaaaaaaaaaaaaaaaaaaaaaa"
           Sample.revised (Some "t1") Sample.world (Some (mkdate 2024 5 6))
           (mkdate 2024 5 13) "aaaaaaaaaaaaaaaaaaaaaaaa" Sample.exam).
  - exact authenticated_sample.
  - intros f [].
  - repeat split; vm_compute; reflexivity.
  - vm_compute. reflexivity.
  - now left.
  - reflexivity.
Defined.

Lemma not_found_runs (env : Env) (announcement_id : string) (p : AnnouncementPayload)
    (u : option string) (w : World) (s : option date) (e : date) (oid : string) :
  authenticated u w ->
  hd None (tl (faults w)) = None ->
  ObjectId announcement_id = Some oid ->
  (forall d, In d (announcements_collection w) -> d !! "_id" <> Some (BOid oid)) ->
  delete_announcement announcement_id u w
  = (Raise not_found, after_call AnnouncementsFindOne (after_call TeachersFindOne w))
  /\ (accepted_dates p s e ->
      update_announcement env announcement_id p u w
      = (Raise not_found,
         after_call AnnouncementsUpdateOne (after_call TeachersFindOne w))).
Proof.
  intros Hu Hf Ho Hid.
  destruct (require_teacher_authenticated u w Hu) as [t E].
  assert (Hne : BOid oid <> BNull) by discriminate.
  split.
  - enter_endpoint E. rewrite Ho.
    unfold except_HTTPException_reraise, mbind, M_bind,
      Store.announcements_find_one, store_call.
    cbn [faults after_call]. rewrite Hf.
    cbn [announcements_collection after_call].
    rewrite (proj2 (find_one_by_id_none _ _ Hne) Hid). reflexivity.
  - intros [Ps [Pe Pv]]. enter_endpoint E. rewrite Ps, Pe, Pv, Ho.
    unfold except_HTTPException_reraise, mbind, M_bind,
      Store.announcements_update_one, store_call.
    cbn [faults after_call]. rewrite Hf.
    cbn [announcements_collection].
    rewrite (update_one_no_match _ _ _ (no_match_by_id _ _ Hne Hid)).
    reflexivity.
Qed.

(** X14.  A deleted record is gone for the endpoints: when identifiers
    are unique (one record carries the identifier) and the store raises
    nothing, after a delete that succeeded both a second delete and an
    update of the same identifier answer 404 "Announcement not found" and
    leave the announcements as the first delete left them. *)
Theorem deleted_record_is_not_found (env : Env) (announcement_id : string)
    (p : AnnouncementPayload) (u : option string) (w : World)
    (s : option date) (e : date) (oid : string)
    (before : list Doc) (x : Doc) (after : list Doc) :
  authenticated u w ->
  store_up w ->
  accepted_dates p s e ->
  ObjectId announcement_id = Some oid ->
  announcements_collection w = (before ++ x :: after)%list ->
  x !! "_id" = Some (BOid oid) ->
  (forall y, In y (before ++ after)%list -> y !! "_id" <> Some (BOid oid)) ->
  exists w1,
    delete_announcement announcement_id u w
    = (Return {[ "message" := BStr "Announcement deleted" ]}, w1)
    /\ announcements_collection w1 = (before ++ after)%list
    /\ delete_announcement announcement_id u w1
       = (Raise (HTTPException 404 "Announcement not found"),
          after_call AnnouncementsFindOne (after_call TeachersFindOne w1))
    /\ update_announcement env announcement_id p u w1
       = (Raise (HTTPException 404 "Announcement not found"),
          after_call AnnouncementsUpdateOne (after_call TeachersFindOne w1)).
Proof.
  intros Hu Hup Ha Ho Hc Hx Hrest.
  destruct (store_up_next _ Hup) as [F0 Hup1].
  destruct (store_up_next _ Hup1) as [F1 Hup2].
  destruct (store_up_next _ Hup2) as [F2 Hup3].
  destruct (store_up_next _ Hup3) as [F3 Hup4].
  destruct (store_up_next _ Hup4) as [F4 _].
  eexists. split.
  - apply (delete_runs announcement_id u w oid before x after); try assumption.
    intros y Hy. apply Hrest. apply in_or_app. now left.
  - split; [reflexivity|].
    assert (Hu1 : authenticated u
                    (set_announcements (before ++ after)%list
                       (after_call AnnouncementsDeleteOne
                          (after_call AnnouncementsFindOne
                             (after_call TeachersFindOne w))))).
    { destruct Hu as [n [-> [Hn [_ Hk]]]]. exists n. repeat split; assumption. }
    destruct (not_found_runs env announcement_id p u _ s e oid Hu1 F4 Ho Hrest)
      as [Hd Hu2].
    split; [exact Hd | exact (Hu2 Ha)].
Qed.

Lemma deleted_record_witness :
  exists w1,
    delete_announcement "aaaaaaaaaaaaaaaaaaaaaaaa" (Some "t1") Sample.world
    = (Return {[ "message" := BStr "Announcement deleted" ]}, w1)
    /\ announcements_collection w1 = ([] ++ [Sample.fair])%list
    /\ delete_announcement "aaaaaaaaaaaaaaaaaaaaaaaa" (Some "t1") w1
       = (Raise (HTTPException 404 "Announcement not found"),
          after_call AnnouncementsFindOne (after_call TeachersFindOne w1))
    /\ update_announcement Sample.env "aaaaaaaaaaaaaaaaaaaaaaaa" Sample.payload
         (Some "t1") w1
       = (Raise (HTTPException 404 "Announcement not found"),
          after_call AnnouncementsUpdateOne (after_call TeachersFindOne w1)).
Proof.
  apply (deleted_record_is_not_found Sample.env "aaaaaaaaaaaaaaaaaaaaaaaa"
           Sample.payload (Some "t1") Sample.world None (mkdate 2024 5 10)
           "aaaaaaaaaaaaaaaaaaaaaaaa" [] Sample.exam [Sample.fair]).
  - exact authenticated_sample.
  - intros f [].
  - repeat split; vm_compute; reflexivity.
  - vm_compute. reflexivity.
  - reflexivity.
  - reflexivity.
  - intros y [<-|[]]. vm_compute. discriminate.
Defined.
